(** * PlanPulse: goals with deadlines and recurring daily tasks

    A shallow embedding of the core of [src/main.py] (classes [Goal],
    [DailyTask], [DataManager] and [GoalManager]) together with the
    properties of its specification.

    Conventions of the embedding.
    - Python's [int] is [Z], [str] is [string], [bool] is [bool], [float] is
      the kernel's binary64 [float].
    - A naive [datetime] is a point of the proleptic Gregorian time line with
      microsecond resolution: the number of microseconds elapsed since
      0001-01-01T00:00:00 ([datetime.min]).  The values Python can represent
      are those of [DateTime.valid]; arithmetic that leaves this range raises
      [OverflowError], as [datetime.__add__] does.
    - Every read of the wall clock ([datetime.now()]) is an explicit argument
      of the method that performs it; a method that reads the clock twice
      takes two arguments.
    - A method that mutates [self] returns the new value of the object; a
      method that can raise returns a [result]; one that does both returns
      the pair (an exception leaves the fields as they were).
    - Objects owned by the [GoalManager] live in a heap indexed by their
      identity, and its collections are lists of identities. *)

From Stdlib Require Import ZArith List Lia Bool String Ascii QArith Qabs Floats.
From stdpp Require Import gmap strings list.

Local Open Scope Z_scope.

(** ** Exceptions *)

Module Py.

Inductive exn : Type :=
| OverflowError   (* datetime arithmetic left the representable range *)
| KeyError (key : string)   (* [d[key]] on a dict without [key] *)
| ValueError      (* [list.remove(x)]: x not in list; malformed ISO string *)
| TypeError.      (* a JSON value of a shape the typed model cannot hold *)

Inductive result (A : Type) : Type :=
| Ok (a : A)
| Raise (e : exn).
Arguments Ok {A} a.
Arguments Raise {A} e.

Definition bind {A B : Type} (r : result A) (k : A -> result B) : result B :=
  match r with
  | Ok a => k a
  | Raise e => Raise e
  end.

(** [[f(x) for x in l]] with a body that can raise: the first exception
    aborts the comprehension. *)
Fixpoint mapM {A B : Type} (f : A -> result B) (l : list A) : result (list B) :=
  match l with
  | [] => Ok []
  | x :: l' => bind (f x) (fun y => bind (mapM f l') (fun ys => Ok (y :: ys)))
  end.

End Py.

Import Py.

#[global] Instance result_ret : MRet result := @Ok.
#[global] Instance result_bind : MBind result :=
  fun A B k r => Py.bind r k.

(** ** [datetime]: the time line, the calendar and the ISO format *)

Module DateTime.

Definition datetime : Type := Z.

Definition us_per_second : Z := 1000000.
Definition us_per_minute : Z := 60 * us_per_second.
Definition us_per_hour : Z := 60 * us_per_minute.
Definition us_per_day : Z := 24 * us_per_hour.

(** [date.max.toordinal()], the ordinal of 9999-12-31. *)
Definition MAXORDINAL : Z := 3652059.
Definition MINYEAR : Z := 1.
Definition MAXYEAR : Z := 9999.

Definition max_us : Z := MAXORDINAL * us_per_day.

(** The values of the type: [datetime.min <= t <= datetime.max]. *)
Definition valid (t : datetime) : Prop := 0 <= t < max_us.

(** [timedelta(days=d)]: the constructor refuses more than 999999999 days
    in either direction. *)
Definition timedelta_days (d : Z) : result Z :=
  if (Z.abs d <=? 999999999) then Ok (d * us_per_day) else Raise OverflowError.

(** [t + delta]: the result must be a date of the years 1..9999. *)
Definition add (t : datetime) (delta : Z) : result datetime :=
  let r := t + delta in
  if (0 <=? r) && (r <? max_us) then Ok r else Raise OverflowError.

(** [(a - b).days]: a [timedelta] is normalised with its seconds and
    microseconds non-negative, so [days] is the floor of the quotient. *)
Definition sub_days (a b : datetime) : Z := (a - b) / us_per_day.

(** [a > b] on two naive datetimes. *)
Definition gt (a b : datetime) : bool := b <? a.

(** *** The calendar ([_pydatetime]'s helpers) *)

Definition is_leap (year : Z) : bool :=
  (year mod 4 =? 0) && (negb (year mod 100 =? 0) || (year mod 400 =? 0)).

Definition days_before_year (year : Z) : Z :=
  let y := year - 1 in
  y * 365 + y / 4 - y / 100 + y / 400.

Definition DAYS_IN_MONTH (month : Z) : Z :=
  match month with
  | 1 => 31 | 2 => 28 | 3 => 31 | 4 => 30 | 5 => 31 | 6 => 30
  | 7 => 31 | 8 => 31 | 9 => 30 | 10 => 31 | 11 => 30 | 12 => 31
  | _ => -1
  end.

Definition DAYS_BEFORE_MONTH (month : Z) : Z :=
  match month with
  | 1 => 0 | 2 => 31 | 3 => 59 | 4 => 90 | 5 => 120 | 6 => 151
  | 7 => 181 | 8 => 212 | 9 => 243 | 10 => 273 | 11 => 304 | 12 => 334
  | _ => -1
  end.

Definition days_in_month (year month : Z) : Z :=
  if (month =? 2) && is_leap year then 29 else DAYS_IN_MONTH month.

Definition days_before_month (year month : Z) : Z :=
  DAYS_BEFORE_MONTH month + (if (2 <? month) && is_leap year then 1 else 0).

Definition ymd2ord (year month day : Z) : Z :=
  days_before_year year + days_before_month year month + day.

Definition DI400Y : Z := 146097.
Definition DI100Y : Z := 36524.
Definition DI4Y : Z := 1461.

Definition ord2ymd (ordinal : Z) : Z * Z * Z :=
  let n := ordinal - 1 in
  let n400 := n / DI400Y in
  let n := n mod DI400Y in
  let year := n400 * 400 + 1 in
  let n100 := n / DI100Y in
  let n := n mod DI100Y in
  let n4 := n / DI4Y in
  let n := n mod DI4Y in
  let n1 := n / 365 in
  let n := n mod 365 in
  let year := year + n100 * 100 + n4 * 4 + n1 in
  if (n1 =? 4) || (n100 =? 4) then (year - 1, 12, 31)
  else
    let leapyear := (n1 =? 3) && (negb (n4 =? 24) || (n100 =? 3)) in
    let month := Z.shiftr (n + 50) 5 in
    let preceding :=
      DAYS_BEFORE_MONTH month + (if (2 <? month) && leapyear then 1 else 0) in
    if n <? preceding then
      let month' := month - 1 in
      let preceding' :=
        preceding
        - (DAYS_IN_MONTH month' + (if (month' =? 2) && leapyear then 1 else 0)) in
      (year, month', n - preceding' + 1)
    else (year, month, n - preceding + 1).

(** [t.toordinal()]: day 1 is 0001-01-01. *)
Definition toordinal (t : datetime) : Z := t / us_per_day + 1.

(** [t.weekday()]: Monday is 0, Sunday is 6. *)
Definition weekday (t : datetime) : Z := (toordinal t + 6) mod 7.

(** The broken-down fields of a datetime. *)
Record fields : Type := mkFields {
  year : Z; month : Z; day : Z;
  hour : Z; minute : Z; second : Z; microsecond : Z
}.

Definition to_fields (t : datetime) : fields :=
  let '(y, m, d) := ord2ymd (toordinal t) in
  let tod := t mod us_per_day in
  {| year := y; month := m; day := d;
     hour := tod / us_per_hour;
     minute := (tod mod us_per_hour) / us_per_minute;
     second := (tod mod us_per_minute) / us_per_second;
     microsecond := tod mod us_per_second |}.

(** [datetime(year, month, day, hour, minute, second, microsecond)]: the
    constructor checks every field and raises [ValueError] otherwise. *)
Definition fields_ok (f : fields) : bool :=
  (MINYEAR <=? year f) && (year f <=? MAXYEAR)
  && (1 <=? month f) && (month f <=? 12)
  && (1 <=? day f) && (day f <=? days_in_month (year f) (month f))
  && (0 <=? hour f) && (hour f <? 24)
  && (0 <=? minute f) && (minute f <? 60)
  && (0 <=? second f) && (second f <? 60)
  && (0 <=? microsecond f) && (microsecond f <? 1000000).

Definition of_fields (f : fields) : result datetime :=
  if fields_ok f then
    Ok ((ymd2ord (year f) (month f) (day f) - 1) * us_per_day
        + hour f * us_per_hour + minute f * us_per_minute
        + second f * us_per_second + microsecond f)
  else Raise ValueError.

(** *** Decimal fields of fixed width *)

Definition digit_char (d : Z) : ascii := ascii_of_N (Z.to_N (48 + d)).

Definition digit_val (c : ascii) : option Z :=
  let n := Z.of_N (N_of_ascii c) in
  if (48 <=? n) && (n <=? 57) then Some (n - 48) else None.

(** The [w] low decimal digits of [n] in front of [acc]: what ["%0wd"]
    prints for [0 <= n < 10^w], the only use made of it. *)
Fixpoint zero_pad (w : nat) (n : Z) (acc : string) : string :=
  match w with
  | O => acc
  | S k => zero_pad k (n / 10) (String (digit_char (n mod 10)) acc)
  end.

(** Reads exactly [w] decimal digits. *)
Fixpoint take_digits (w : nat) (acc : Z) (s : string) : option (Z * string) :=
  match w with
  | O => Some (acc, s)
  | S k =>
      match s with
      | String c s' =>
          match digit_val c with
          | Some d => take_digits k (acc * 10 + d) s'
          | None => None
          end
      | EmptyString => None
      end
  end.

Definition expect (c : ascii) (s : string) : option string :=
  match s with
  | String c' s' => if Ascii.eqb c c' then Some s' else None
  | EmptyString => None
  end.

(** *** [isoformat] and [fromisoformat] *)

(** [str(t.date())], i.e. [date.isoformat()]: ["%04d-%02d-%02d"]. *)
Definition date_str (t : datetime) : string :=
  let f := to_fields t in
  zero_pad 4 (year f) ("-" ++ zero_pad 2 (month f) ("-" ++ zero_pad 2 (day f) "")).

(** [t.isoformat()] with the default separator and [timespec='auto']:
    ["%04d-%02d-%02dT%02d:%02d:%02d"], followed by [".%06d"] when the
    microsecond is not zero. *)
Definition isoformat (t : datetime) : string :=
  let f := to_fields t in
  zero_pad 4 (year f) ("-" ++ zero_pad 2 (month f) ("-" ++ zero_pad 2 (day f)
    ("T" ++ zero_pad 2 (hour f) (":" ++ zero_pad 2 (minute f)
      (":" ++ zero_pad 2 (second f)
        (if microsecond f =? 0 then "" else "." ++ zero_pad 6 (microsecond f) "")))))).

Definition opt_bind {A B : Type} (o : option A) (k : A -> option B) : option B :=
  match o with
  | Some a => k a
  | None => None
  end.

(** The fraction of a second: [.fff] or [.ffffff]. *)
Definition parse_fraction (s : string) : option Z :=
  match take_digits 6 0 s with
  | Some (us, EmptyString) => Some us
  | _ =>
      match take_digits 3 0 s with
      | Some (ms, EmptyString) => Some (ms * 1000)
      | _ => None
      end
  end.

(** The time of day: [HH[:MM[:SS[.fff[fff]]]]]. *)
Definition parse_time (s : string) : option (Z * Z * Z * Z) :=
  opt_bind (take_digits 2 0 s) (fun '(hh, s) =>
  match s with
  | EmptyString => Some (hh, 0, 0, 0)
  | _ =>
    opt_bind (expect ":" s) (fun s =>
    opt_bind (take_digits 2 0 s) (fun '(mi, s) =>
    match s with
    | EmptyString => Some (hh, mi, 0, 0)
    | _ =>
      opt_bind (expect ":" s) (fun s =>
      opt_bind (take_digits 2 0 s) (fun '(ss, s) =>
      match s with
      | EmptyString => Some (hh, mi, ss, 0)
      | _ =>
        opt_bind (expect "." s) (fun s =>
        opt_bind (parse_fraction s) (fun us => Some (hh, mi, ss, us)))
      end))
    end))
  end).

(** The naive datetimes that [datetime.fromisoformat] has read since it
    exists: [YYYY-MM-DD], optionally followed by any one separator character
    and a time of day.  On a string of this form the result is the code's,
    a datetime or the [ValueError] for a field out of range.  A string with
    a UTC offset denotes an aware datetime, and later versions of Python
    read further ISO 8601 forms; this program writes neither, they are
    outside the model, which reports them as [ValueError] like every other
    string: a property of the code may rest on what is read here, not on
    the refusal of such a string. *)
Definition parse_iso (s : string) : option fields :=
  opt_bind (take_digits 4 0 s) (fun '(y, s) =>
  opt_bind (expect "-" s) (fun s =>
  opt_bind (take_digits 2 0 s) (fun '(m, s) =>
  opt_bind (expect "-" s) (fun s =>
  opt_bind (take_digits 2 0 s) (fun '(d, s) =>
  match s with
  | EmptyString => Some (mkFields y m d 0 0 0 0)
  | String _ s =>
      opt_bind (parse_time s) (fun '(hh, mi, ss, us) =>
      Some (mkFields y m d hh mi ss us))
  end))))).

Definition fromisoformat (s : string) : result datetime :=
  match parse_iso s with
  | Some f => of_fields f
  | None => Raise ValueError
  end.

End DateTime.

(** ** class Goal *)

Module Goal.

Record t : Type := mk {
  name : string;
  deadline_days : Z;
  created_at : DateTime.datetime;
  completed : bool;
  failed : bool
}.

(** [Goal.__init__]: [created_at or datetime.now()] (a datetime is always
    truthy, so only [None] is replaced by the clock). *)
Definition init (now : DateTime.datetime) (name : string) (deadline_days : Z)
    (created_at : option DateTime.datetime) (completed failed : bool) : t :=
  {| name := name;
     deadline_days := deadline_days;
     created_at := match created_at with Some c => c | None => now end;
     completed := completed;
     failed := failed |}.

(** [Goal(name=name, deadline_days=deadline_days)]: the other parameters
    take their defaults [None], [False], [False]. *)
Definition construct (now : DateTime.datetime) (name : string) (deadline_days : Z) : t :=
  init now name deadline_days None false false.

Definition set_failed (g : t) (b : bool) : t :=
  {| name := name g; deadline_days := deadline_days g;
     created_at := created_at g; completed := completed g; failed := b |}.

Definition set_completed (g : t) (b : bool) : t :=
  {| name := name g; deadline_days := deadline_days g;
     created_at := created_at g; completed := b; failed := failed g |}.

(** [self.created_at + timedelta(days=self.deadline_days)] *)
Definition deadline_date (g : t) : result DateTime.datetime :=
  delta ← DateTime.timedelta_days (deadline_days g);
  DateTime.add (created_at g) delta.

(** [(self.deadline_date - datetime.now()).days] *)
Definition days_left (now : DateTime.datetime) (g : t) : result Z :=
  dl ← deadline_date g;
  Ok (DateTime.sub_days dl now).

(** [check_failed]: the returned value (or the exception) and the goal
    after the call. *)
Definition check_failed (now : DateTime.datetime) (g : t) : result bool * t :=
  if negb (completed g) && negb (failed g) then
    match deadline_date g with
    | Ok dl =>
        if DateTime.gt now dl then (Ok true, set_failed g true)
        else (Ok false, g)
    | Raise e => (Raise e, g)
    end
  else (Ok false, g).

Definition complete (g : t) : t :=
  if negb (failed g) then set_completed g true else g.

(** A call of one of the two mutators; [check_failed] reads the clock. *)
Inductive op : Type :=
| Complete
| CheckFailed (now : DateTime.datetime).

Definition step (g : t) (o : op) : t :=
  match o with
  | Complete => complete g
  | CheckFailed now => snd (check_failed now g)
  end.

(** The goal after a sequence of calls, oldest first. *)
Definition run (ops : list op) (g : t) : t := fold_left step ops g.

(** The values returned by a sequence of [check_failed] calls made at the
    given clock readings, and the goal after them. *)
Fixpoint check_failed_seq (nows : list DateTime.datetime) (g : t)
    : list (result bool) * t :=
  match nows with
  | [] => ([], g)
  | now :: rest =>
      let '(r, g') := check_failed now g in
      let '(rs, g'') := check_failed_seq rest g' in
      (r :: rs, g'')
  end.

End Goal.

(** ** Numbers: [int / int] and mixed arithmetic *)

Module Num.

(** An integer as an unrounded binary floating-point number. *)
Definition raw (z : Z) : spec_float :=
  match z with
  | Z0 => S754_zero false
  | Zpos p => S754_finite false p 0
  | Zneg p => S754_finite true p 0
  end.

(** [a / b] on two [int]s: the quotient rounded once, to the nearest
    binary64 value.  Both uses in the program guard [b != 0].  Python raises
    [OverflowError] where the rounded quotient would be infinite, which takes
    a numerator of more than a thousand bits; the numerators here are lengths
    of lists. *)
Definition truediv (a b : Z) : float :=
  SF2Prim (SFdiv prec emax (raw a) (raw b)).

(** The value of an expression that is an [int] on one path and a [float]
    on another. *)
Inductive number : Type :=
| Int (z : Z)
| Float (x : float).

(** The rational number a binary64 value stands for, if it is finite. *)
Definition SF2Q (f : spec_float) : option Q :=
  match f with
  | S754_zero _ => Some 0%Q
  | S754_finite s m e =>
      Some (Qmult (inject_Z (if s then Zneg m else Zpos m)) (Qpower (2 # 1) e))
  | S754_infinity _ => None
  | S754_nan => None
  end.

Definition to_Q (x : float) : option Q := SF2Q (Prim2SF x).

(** [x] is finite and stands for exactly the rational [q]. *)
Definition exactly (x : float) (q : Q) : Prop :=
  match to_Q x with
  | Some v => Qeq v q
  | None => False
  end.

End Num.

(** ** class DailyTask *)

Module DailyTask.

Record t : Type := mk {
  name : string;
  days_of_week : list Z;
  completed_dates : list string
}.

(** [DailyTask.__init__]: [completed_dates or []] ([None] and the empty
    list are both falsy). *)
Definition init (name : string) (days_of_week : list Z)
    (completed_dates : option (list string)) : t :=
  {| name := name;
     days_of_week := days_of_week;
     completed_dates :=
       match completed_dates with
       | Some (d :: ds) => d :: ds
       | Some [] => []
       | None => []
       end |}.

Definition construct (name : string) (days_of_week : list Z) : t :=
  init name days_of_week None.

(** [datetime.now().weekday() in self.days_of_week] *)
Definition is_active_today (now : DateTime.datetime) (self : t) : bool :=
  bool_decide (DateTime.weekday now ∈ days_of_week self).

(** [str(datetime.now().date()) in self.completed_dates] *)
Definition is_completed_today (now : DateTime.datetime) (self : t) : bool :=
  bool_decide (DateTime.date_str now ∈ completed_dates self).

(** [complete_today] reads the clock twice: [now] for [today_str], and
    [now'] inside [is_active_today], which is evaluated only when the first
    conjunct holds. *)
Definition complete_today (now now' : DateTime.datetime) (self : t) : t :=
  let today_str := DateTime.date_str now in
  if negb (bool_decide (today_str ∈ completed_dates self)) && is_active_today now' self
  then {| name := name self; days_of_week := days_of_week self;
          completed_dates := completed_dates self ++ [today_str] |}
  else self.

(** The log after a sequence of [complete_today] calls, each with its two
    clock readings, oldest first. *)
Definition run (calls : list (DateTime.datetime * DateTime.datetime)) (self : t) : t :=
  fold_left (fun task '(now, now') => complete_today now now' task) calls self.

(** How many entries of a log are the date [d]. *)
Definition occurrences (d : string) (log : list string) : nat :=
  length (filter (fun x => x = d) log).

(** [completion_rate(weeks)] *)
Definition completion_rate (weeks : Z) (self : t) : float :=
  let possible_days := Z.of_nat (length (days_of_week self)) * weeks in
  if possible_days =? 0 then 0%float
  else (Num.truediv (Z.of_nat (length (completed_dates self))) possible_days * 100)%float.

(** The rate [|completedDates| / (|daysOfWeek| * weeks) * 100] of the
    specification, as a rational number (a quotient by zero is 0 in [Q]). *)
Definition completion_rate_exact (weeks : Z) (self : t) : Q :=
  (inject_Z (Z.of_nat (length (completed_dates self)))
   / inject_Z (Z.of_nat (length (days_of_week self)) * weeks) * 100)%Q.

End DailyTask.

(** ** JSON values and the snapshot file *)

Module Json.

(** What [json.load] returns and [json.dump] accepts, for the shapes this
    program writes.  A dict is the list of its items in insertion order,
    with distinct keys. *)
#[warnings="-register-all"]
Inductive value : Type :=
| Null
| Bool (b : bool)
| Int (z : Z)
| Str (s : string)
| List (l : list value)
| Dict (items : list (string * value)).

Fixpoint lookup (key : string) (items : list (string * value)) : option value :=
  match items with
  | [] => None
  | (k, v) :: rest => if String.eqb key k then Some v else lookup key rest
  end.

(** [data[key]] *)
Definition getitem (data : value) (key : string) : result value :=
  match data with
  | Dict items =>
      match lookup key items with
      | Some v => Ok v
      | None => Raise (KeyError key)
      end
  | _ => Raise TypeError
  end.

(** [data.get(key, default)] *)
Definition get (data : value) (key : string) (default : value) : result value :=
  match data with
  | Dict items =>
      match lookup key items with
      | Some v => Ok v
      | None => Ok default
      end
  | _ => Raise TypeError
  end.

(** The typed model holds a field only when the JSON value has the
    annotated type: Python would store any value, and fail later. *)
Definition as_str (v : value) : result string :=
  match v with Str s => Ok s | _ => Raise TypeError end.

Definition as_int (v : value) : result Z :=
  match v with Int z => Ok z | _ => Raise TypeError end.

Definition as_bool (v : value) : result bool :=
  match v with Bool b => Ok b | _ => Raise TypeError end.

Definition as_list (v : value) : result (list value) :=
  match v with List l => Ok l | _ => Raise TypeError end.

(** [for x in v]: a list yields its elements, a dict its keys and a string
    its characters, one-character strings (here one per byte: a reader of
    records fails on the first of them either way); the other values are
    not iterable. *)
Definition iter (v : value) : result (list value) :=
  match v with
  | List l => Ok l
  | Dict items => Ok (map (fun item => Str (fst item)) items)
  | Str s => Ok (map (fun c => Str (String c EmptyString)) (list_ascii_of_string s))
  | _ => Raise TypeError
  end.

End Json.

(** ** [to_dict] and [from_dict] *)

Module GoalDict.

Definition to_dict (g : Goal.t) : Json.value :=
  Json.Dict
    [ ("name", Json.Str (Goal.name g));
      ("deadline_days", Json.Int (Goal.deadline_days g));
      ("created_at", Json.Str (DateTime.isoformat (Goal.created_at g)));
      ("completed", Json.Bool (Goal.completed g));
      ("failed", Json.Bool (Goal.failed g)) ]%string.

(** [Goal.from_dict].  The constructor receives a datetime for
    [created_at], which [or] keeps without reading the clock
    ([Goal.init] with [Some created_at], whatever its clock argument): the
    goal is the record of the five values. *)
Definition from_dict (data : Json.value) : result Goal.t :=
  name ← Json.getitem data "name";
  name ← Json.as_str name;
  deadline_days ← Json.getitem data "deadline_days";
  deadline_days ← Json.as_int deadline_days;
  created_at ← Json.getitem data "created_at";
  created_at ← Json.as_str created_at;
  created_at ← DateTime.fromisoformat created_at;
  completed ← Json.getitem data "completed";
  completed ← Json.as_bool completed;
  failed ← Json.getitem data "failed";
  failed ← Json.as_bool failed;
  Ok (Goal.mk name deadline_days created_at completed failed).

End GoalDict.

Module DailyTaskDict.

Definition to_dict (t : DailyTask.t) : Json.value :=
  Json.Dict
    [ ("name", Json.Str (DailyTask.name t));
      ("days_of_week", Json.List (map Json.Int (DailyTask.days_of_week t)));
      ("completed_dates", Json.List (map Json.Str (DailyTask.completed_dates t))) ]%string.

Definition from_dict (data : Json.value) : result DailyTask.t :=
  name ← Json.getitem data "name";
  name ← Json.as_str name;
  days_of_week ← Json.getitem data "days_of_week";
  days_of_week ← Json.as_list days_of_week;
  days_of_week ← mapM Json.as_int days_of_week;
  completed_dates ← Json.getitem data "completed_dates";
  completed_dates ← Json.as_list completed_dates;
  completed_dates ← mapM Json.as_str completed_dates;
  Ok (DailyTask.init name days_of_week (Some completed_dates)).

End DailyTaskDict.

(** ** class DataManager *)

Module DataManager.

(** The contents of [goals_data.json]: [None] when the file does not
    exist, else the value [json.load] reads back from what [json.dump]
    wrote. *)
Definition file : Type := option Json.value.

Definition save_data (goals : list Goal.t) (daily_tasks : list DailyTask.t) : file :=
  Some (Json.Dict
    [ ("goals", Json.List (map GoalDict.to_dict goals));
      ("daily_tasks", Json.List (map DailyTaskDict.to_dict daily_tasks)) ]%string).

Definition load_data (f : file) : result (list Goal.t * list DailyTask.t) :=
  match f with
  | None => Ok ([], [])
  | Some data =>
      goals ← Json.get data "goals" (Json.List []);
      goals ← Json.iter goals;
      goals ← mapM GoalDict.from_dict goals;
      tasks ← Json.get data "daily_tasks" (Json.List []);
      tasks ← Json.iter tasks;
      tasks ← mapM DailyTaskDict.from_dict tasks;
      Ok (goals, tasks)
  end.

End DataManager.

(** ** class GoalManager *)

Module GoalManager.

(** The identity of an object ([id(obj)]). *)
Definition ref : Type := positive.

(** The manager, the objects its lists refer to, and the snapshot file.
    [goals] and [daily_tasks] hold references: two goals with equal fields
    are still two objects. *)
Record t : Type := mk {
  goal_heap : gmap positive Goal.t;
  task_heap : gmap positive DailyTask.t;
  goals : list ref;
  daily_tasks : list ref;
  disk : DataManager.file
}.

Definition with_goals (m : t) (h : gmap positive Goal.t) (l : list ref) : t :=
  {| goal_heap := h; task_heap := task_heap m; goals := l;
     daily_tasks := daily_tasks m; disk := disk m |}.

Definition with_tasks (m : t) (h : gmap positive DailyTask.t) (l : list ref) : t :=
  {| goal_heap := goal_heap m; task_heap := h; goals := goals m;
     daily_tasks := l; disk := disk m |}.

Definition with_disk (m : t) (f : DataManager.file) : t :=
  {| goal_heap := goal_heap m; task_heap := task_heap m; goals := goals m;
     daily_tasks := daily_tasks m; disk := f |}.

(** The objects a list of references stands for. *)
Definition deref {A : Type} (h : gmap positive A) (l : list ref) : list A :=
  omap (fun r => h !! r) l.

(** A new object: its identity differs from that of every object so far. *)
Definition alloc {A : Type} (h : gmap positive A) (x : A) : ref * gmap positive A :=
  let r := fresh (dom h) in (r, <[r := x]> h).

Fixpoint alloc_all {A : Type} (h : gmap positive A) (xs : list A)
    : list ref * gmap positive A :=
  match xs with
  | [] => ([], h)
  | x :: xs' =>
      let '(r, h') := alloc h x in
      let '(rs, h'') := alloc_all h' xs' in
      (r :: rs, h'')
  end.

(** [list.remove(x)] on a list of objects without [__eq__]: the first
    element that is [x] itself goes; [None] stands for the [ValueError]
    raised when there is none. *)
Fixpoint list_remove (x : ref) (l : list ref) : option (list ref) :=
  match l with
  | [] => None
  | y :: l' =>
      if decide (x = y) then Some l'
      else match list_remove x l' with
           | Some l'' => Some (y :: l'')
           | None => None
           end
  end.

(** The state of [self] after the first two assignments of [__init__]. *)
Definition empty (f : DataManager.file) : t :=
  {| goal_heap := ∅; task_heap := ∅; goals := []; daily_tasks := []; disk := f |}.

Definition save_data (m : t) : t :=
  with_disk m
    (DataManager.save_data (deref (goal_heap m) (goals m))
                           (deref (task_heap m) (daily_tasks m))).

Definition load_data (m : t) : result unit * t :=
  match DataManager.load_data (disk m) with
  | Ok (gs, ts) =>
      let '(grefs, gh) := alloc_all (goal_heap m) gs in
      let '(trefs, th) := alloc_all (task_heap m) ts in
      (Ok tt, {| goal_heap := gh; task_heap := th; goals := grefs;
                 daily_tasks := trefs; disk := disk m |})
  | Raise e => (Raise e, m)
  end.

Definition add_goal (now : DateTime.datetime) (name : string) (deadline_days : Z)
    (m : t) : result unit * t :=
  let new_goal := Goal.construct now name deadline_days in
  let '(r, h) := alloc (goal_heap m) new_goal in
  (Ok tt, save_data (with_goals m h (goals m ++ [r]))).

Definition add_daily_task (name : string) (days_of_week : list Z) (m : t)
    : result unit * t :=
  let new_task := DailyTask.construct name days_of_week in
  let '(r, h) := alloc (task_heap m) new_task in
  (Ok tt, save_data (with_tasks m h (daily_tasks m ++ [r]))).

Definition complete_goal (goal : ref) (m : t) : result unit * t :=
  (Ok tt, save_data (with_goals m (alter Goal.complete goal (goal_heap m)) (goals m))).

Definition complete_daily_task (now now' : DateTime.datetime) (task : ref) (m : t)
    : result unit * t :=
  (Ok tt, save_data (with_tasks m
     (alter (DailyTask.complete_today now now') task (task_heap m)) (daily_tasks m))).

Definition delete_goal (goal : ref) (m : t) : result unit * t :=
  match list_remove goal (goals m) with
  | Some l => (Ok tt, save_data (with_goals m (goal_heap m) l))
  | None => (Raise ValueError, m)
  end.

Definition delete_daily_task (task : ref) (m : t) : result unit * t :=
  match list_remove task (daily_tasks m) with
  | Some l => (Ok tt, save_data (with_tasks m (task_heap m) l))
  | None => (Raise ValueError, m)
  end.

(** The loop of [check_failed_goals] over the goals still to visit;
    [clock r] is the clock reading of the call on the goal [r].  An
    exception leaves the goals already swept as they are. *)
Fixpoint sweep (clock : ref -> DateTime.datetime) (todo : list ref)
    (h : gmap positive Goal.t) (updated : bool)
    : result bool * gmap positive Goal.t :=
  match todo with
  | [] => (Ok updated, h)
  | r :: rest =>
      match h !! r with
      | Some g =>
          match Goal.check_failed (clock r) g with
          | (Ok b, g') => sweep clock rest (<[r := g']> h) (b || updated)
          | (Raise e, _) => (Raise e, h)
          end
      | None => sweep clock rest h updated
      end
  end.

Definition check_failed_goals (clock : ref -> DateTime.datetime) (m : t)
    : result bool * t :=
  match sweep clock (goals m) (goal_heap m) false with
  | (Ok updated, h) =>
      let m' := with_goals m h (goals m) in
      (Ok updated, if updated then save_data m' else m')
  | (Raise e, h) => (Raise e, with_goals m h (goals m))
  end.

(** [GoalManager()] in a process that finds the file [f]. *)
Definition init (clock : ref -> DateTime.datetime) (f : DataManager.file)
    : result unit * t :=
  match load_data (empty f) with
  | (Ok _, m) =>
      match check_failed_goals clock m with
      | (Ok _, m') => (Ok tt, m')
      | (Raise e, m') => (Raise e, m')
      end
  | (Raise e, m) => (Raise e, m)
  end.

Record stats : Type := mkStats {
  total : Z;
  completed : Z;
  failed : Z;
  in_progress : Z;
  completion_rate : Num.number
}.

Definition get_goals_stats (m : t) : stats :=
  let gs := deref (goal_heap m) (goals m) in
  let total := Z.of_nat (length (goals m)) in
  let completed := Z.of_nat (length (filter (fun g => Goal.completed g = true) gs)) in
  let failed := Z.of_nat (length (filter (fun g => Goal.failed g = true) gs)) in
  let in_progress := total - completed - failed in
  let completion_rate :=
    if 0 <? total then Num.Float (Num.truediv completed total * 100)%float
    else Num.Int 0 in
  {| total := total; completed := completed; failed := failed;
     in_progress := in_progress; completion_rate := completion_rate |}.

(** The number of goals with a given property, counted one by one: the
    specification's reading of the counts. *)
Fixpoint number_with (p : Goal.t -> bool) (gs : list Goal.t) : Z :=
  match gs with
  | [] => 0
  | g :: gs' => (if p g then 1 else 0) + number_with p gs'
  end.

(** A goal that is neither completed nor failed. *)
Definition pending (g : Goal.t) : bool :=
  negb (Goal.completed g) && negb (Goal.failed g).

(** Every reference of the two lists is to a live object, and no object
    is listed twice: what [__init__], [add_*], [complete_*] and [delete_*]
    maintain. *)
Definition wf (m : t) : Prop :=
  NoDup (goals m) /\ NoDup (daily_tasks m) /\
  (forall r, r ∈ goals m -> is_Some (goal_heap m !! r)) /\
  (forall r, r ∈ daily_tasks m -> is_Some (task_heap m !! r)).

End GoalManager.

(** ** DailyTask: the names of the scheduled days *)

Module DayNames.

(** The table of [get_active_days_names], Monday first (a [str] is the
    string of its UTF-8 bytes). *)
Definition days_names : list string :=
  ["Пн"; "Вт"; "Ср"; "Чт"; "Пт"; "Сб"; "Вс"]%string.

(** [l[i]] on a list: a negative index counts from the end, and [None]
    stands for the [IndexError] raised outside [-len(l) .. len(l) - 1]. *)
Definition getitem {A : Type} (l : list A) (i : Z) : option A :=
  let n := Z.of_nat (length l) in
  let j := if i <? 0 then i + n else i in
  if (0 <=? j) && (j <? n) then l !! Z.to_nat j else None.

(** [[days_names[i] for i in self.days_of_week]]: the first [IndexError]
    aborts the comprehension. *)
Fixpoint names_of (days : list Z) : option (list string) :=
  match days with
  | [] => Some []
  | i :: rest =>
      match getitem days_names i with
      | Some name =>
          match names_of rest with
          | Some names => Some (name :: names)
          | None => None
          end
      | None => None
      end
  end.

Definition get_active_days_names (self : DailyTask.t) : option (list string) :=
  names_of (DailyTask.days_of_week self).

End DayNames.

(** ** Checking the rounding of the completion rate *)

Module RateCheck.

(** [x] is finite and within [eps] of the rational [q]. *)
Definition within (x : float) (q eps : Q) : bool :=
  match Num.to_Q x with
  | Some v => Qle_bool (Qabs (v - q)) eps
  | None => false
  end.

(** A task with [k] scheduled days and [n] logged dates. *)
Definition sample (k n : nat) : DailyTask.t :=
  DailyTask.mk "" (repeat 0 k) (repeat ""%string n).

(** Over the default window of four weeks, the rate of [sample k n] is
    within a relative error of [2^-52] of the exact rate. *)
Definition check (k n : nat) : bool :=
  let exact := DailyTask.completion_rate_exact 4 (sample k n) in
  within (DailyTask.completion_rate 4 (sample k n)) exact
         (exact * (1 # 4503599627370496))%Q.

End RateCheck.

(** ** Comparing the completion rate with 100 *)

Module RateOrder.

(** Over the default window of four weeks, the rate of a task with [k]
    scheduled days and [n] logged dates is above, equal to or below 100
    ([>], [==] and [<] on floats) as [n] is above, equal to or below
    [4 * k]. *)
Definition check (k n : nat) : bool :=
  let rate := DailyTask.completion_rate 4 (RateCheck.sample k n) in
  Bool.eqb (PrimFloat.ltb 100 rate) (4 * k <? n)%nat
  && Bool.eqb (PrimFloat.eqb rate 100) (n =? 4 * k)%nat
  && Bool.eqb (PrimFloat.ltb rate 100) (n <? 4 * k)%nat.

End RateOrder.

(** ** Checking the rounding of the statistics' completion rate *)

Module StatsCheck.

(** With [completed] of [total] goals completed, the float
    [completed / total * 100] is within a relative error of [2^-52] of the
    rational [completed / total * 100]. *)
Definition check (total completed : nat) : bool :=
  let exact :=
    (inject_Z (Z.of_nat completed) / inject_Z (Z.of_nat total) * 100)%Q in
  RateCheck.within
    (Num.truediv (Z.of_nat completed) (Z.of_nat total) * 100)%float
    exact (exact * (1 # 4503599627370496))%Q.

End StatsCheck.

(** ** Checking one 400-year cycle of the calendar *)

Module Cycle.

(** What [ord2ymd] must satisfy on the day [r] (from 0) of the first
    cycle of 146097 days: the date is a date of the years 1..400, of the
    years 1..399 before day 145731 (where the year 9999 ends in the last
    cycle of the range), and [ymd2ord] leads back to the day. *)
Definition check (r : Z) : bool :=
  let '(y, m, d) := DateTime.ord2ymd (r + 1) in
  (1 <=? y) && (y <=? 400) && ((y <=? 399) || (145731 <=? r))
  && (1 <=? m) && (m <=? 12)
  && (1 <=? d) && (d <=? DateTime.days_in_month y m)
  && (DateTime.ymd2ord y m d =? r + 1).

(** [f] holds on [r], [r + 1], ..., [r + fuel - 1]. *)
Fixpoint all_from (fuel : nat) (r : Z) (f : Z -> bool) : bool :=
  match fuel with
  | O => true
  | S k => f r && all_from k (r + 1) f
  end.

End Cycle.

(** * Properties *)

(** ** Goal: the two terminal flags *)

Section GoalFlags.

Import Goal.

Lemma complete_failed_noop (g : Goal.t) :
  failed g = true -> complete g = g.
Proof. intros H. unfold complete. now rewrite H. Qed.

Lemma check_failed_state (now : DateTime.datetime) (g : Goal.t) :
  snd (check_failed now g) = g \/
  (completed g = false /\ failed g = false /\
   snd (check_failed now g) = set_failed g true).
Proof.
  unfold check_failed.
  destruct (completed g), (failed g); simpl; auto.
  destruct (deadline_date g) as [dl|e]; simpl; auto.
  destruct (DateTime.gt now dl); simpl; auto.
Qed.

Lemma step_exclusive (g : Goal.t) (o : op) :
  completed g && failed g = false ->
  completed (step g o) && failed (step g o) = false.
Proof.
  intros H. destruct o as [|now]; simpl.
  - unfold complete. destruct (failed g) eqn:Hf; simpl.
    + rewrite Hf. exact H.
    + rewrite Hf. reflexivity.
  - destruct (check_failed_state now g) as [->|(Hc & _ & ->)]; [exact H|].
    simpl. now rewrite Hc.
Qed.

Lemma step_failed_stays (g : Goal.t) (o : op) :
  failed g = true -> failed (step g o) = true.
Proof.
  intros H. destruct o as [|now]; simpl.
  - now rewrite complete_failed_noop.
  - destruct (check_failed_state now g) as [->|(_ & _ & ->)]; auto.
Qed.

Lemma run_exclusive (ops : list op) : forall g : Goal.t,
  completed g && failed g = false ->
  completed (run ops g) && failed (run ops g) = false.
Proof.
  unfold run. induction ops as [|o ops IH]; intros g H; simpl; [exact H|].
  apply IH, step_exclusive, H.
Qed.

Lemma run_failed_stays (ops : list op) : forall g : Goal.t,
  failed g = true -> failed (run ops g) = true.
Proof.
  unfold run. induction ops as [|o ops IH]; intros g H; simpl; [exact H|].
  apply IH, step_failed_stays, H.
Qed.

End GoalFlags.

(** C1. Starting from [Goal(name, deadline_days)] and after any sequence of
    [complete()] and [check_failed()] calls (made at arbitrary clock
    readings), [completed] and [failed] are not both true; if the goal has
    failed then [complete()] changes nothing and [completed] is still false;
    and a failed goal stays failed under every further sequence of calls. *)
Theorem goal_flags_exclusive :
  forall (now : DateTime.datetime) (name : string) (deadline_days : Z)
         (ops later : list Goal.op),
    let g := Goal.run ops (Goal.construct now name deadline_days) in
    (Goal.completed g && Goal.failed g = false) /\
    (Goal.failed g = true ->
       Goal.complete g = g /\ Goal.completed (Goal.complete g) = false) /\
    (Goal.failed g = true -> Goal.failed (Goal.run later g) = true).
Proof.
  intros now name d ops later g.
  assert (Hex : Goal.completed g && Goal.failed g = false)
    by (apply run_exclusive; reflexivity).
  split; [exact Hex|]. split.
  - intros Hf. rewrite (complete_failed_noop g Hf). split; [reflexivity|].
    rewrite Hf, andb_true_r in Hex. exact Hex.
  - apply run_failed_stays.
Qed.

(** ** Goal: the deadline sweep *)

Section GoalDeadline.

Import Goal.

Lemma check_failed_terminal (now : DateTime.datetime) (g : Goal.t) :
  completed g = true \/ failed g = true ->
  check_failed now g = (Ok false, g).
Proof.
  intros H. unfold check_failed.
  destruct H as [-> | ->]; simpl; [reflexivity|].
  now rewrite andb_false_r.
Qed.

Lemma check_failed_seq_terminal (nows : list DateTime.datetime) (g : Goal.t) :
  completed g = true \/ failed g = true ->
  check_failed_seq nows g = (map (fun _ => Ok false) nows, g).
Proof.
  intros H. induction nows as [|now rest IH]; simpl; [reflexivity|].
  rewrite (check_failed_terminal now g H), IH. reflexivity.
Qed.

Lemma set_failed_neq (g : Goal.t) : failed g = false -> set_failed g true <> g.
Proof. intros H E. apply (f_equal failed) in E. simpl in E. congruence. Qed.

Lemma init_given (now c : DateTime.datetime) (n : string) (d : Z) (co fa : bool) :
  Goal.init now n d (Some c) co fa = Goal.mk n d c co fa.
Proof. reflexivity. Qed.

(** The deadline date is [created_at] plus [deadline_days] days when that
    is a datetime, and the addition raises [OverflowError] when not. *)
Lemma deadline_date_Ok (g : Goal.t) (dl : DateTime.datetime) :
  deadline_date g = Ok dl <->
  dl = created_at g + deadline_days g * DateTime.us_per_day /\
  Z.abs (deadline_days g) <= 999999999 /\ DateTime.valid dl.
Proof.
  unfold deadline_date, DateTime.timedelta_days, DateTime.add, DateTime.valid.
  destruct (Z.leb_spec (Z.abs (deadline_days g)) 999999999) as [Hd|Hd]; simpl.
  - destruct (Z.leb_spec 0 (created_at g + deadline_days g * DateTime.us_per_day));
    destruct (Z.ltb_spec (created_at g + deadline_days g * DateTime.us_per_day)
                DateTime.max_us); simpl; split;
      try discriminate; try (intros [= <-]; lia); try (intros (-> & _ & ?)); try lia;
      reflexivity.
  - split; [discriminate|lia].
Qed.

Lemma deadline_date_Raise (g : Goal.t) (e : exn) :
  deadline_date g = Raise e -> e = OverflowError.
Proof.
  unfold deadline_date, DateTime.timedelta_days, DateTime.add.
  destruct (Z.abs (deadline_days g) <=? 999999999); simpl; [|congruence].
  destruct ((0 <=? _) && (_ <? _)); congruence.
Qed.

Lemma deadline_date_valid_created (g : Goal.t) :
  DateTime.valid (created_at g) ->
  DateTime.valid (created_at g + deadline_days g * DateTime.us_per_day) ->
  deadline_date g = Ok (created_at g + deadline_days g * DateTime.us_per_day).
Proof.
  intros Hc Hd. apply deadline_date_Ok. split; [reflexivity|]. split; [|exact Hd].
  unfold DateTime.valid, DateTime.max_us, DateTime.MAXORDINAL in *.
  change DateTime.us_per_day with 86400000000 in *. lia.
Qed.

End GoalDeadline.

(** C2, as stated, fails on an open goal whose deadline date is not a
    datetime.  With four million days the deadline lies after the year
    9999: the clock is not past it, yet the call does not return false, it
    raises [OverflowError].  With minus four million days the deadline lies
    before the year 1: the clock is past it, yet the call does not return
    true and [failed] stays false. *)
Lemma check_failed_unrepresentable :
  let created := 63839664000000000 in
  let now := created + DateTime.us_per_second in
  let far := Goal.construct created "Ship report" 4000000 in
  let old := Goal.construct created "Ship report" (-4000000) in
  (Goal.completed far = false /\ Goal.failed far = false /\
   now <= Goal.created_at far + Goal.deadline_days far * DateTime.us_per_day /\
   Goal.check_failed now far = (Raise OverflowError, far) /\
   fst (Goal.check_failed now far) <> Ok false) /\
  (Goal.completed old = false /\ Goal.failed old = false /\
   Goal.created_at old + Goal.deadline_days old * DateTime.us_per_day < now /\
   Goal.check_failed now old = (Raise OverflowError, old) /\
   fst (Goal.check_failed now old) <> Ok true /\
   Goal.failed (snd (Goal.check_failed now old)) = false).
Proof.
  intros created now far old.
  repeat split; try reflexivity; try discriminate.
Qed.

(** C2, amended.  [check_failed()] returns true and sets [failed] exactly
    when the goal is neither completed nor failed, its deadline date
    [created_at + deadline_days] days is a datetime (of the years 1 to
    9999) and the clock is strictly after it.  In every other case no field
    changes; the call then returns false, except on an open goal whose
    deadline date is not a datetime, where it raises [OverflowError].  Hence
    on an open goal past its deadline the first call returns true and every
    later call returns false, with [failed] true from then on. *)
Theorem check_failed_iff :
  forall (now : DateTime.datetime) (g : Goal.t),
    let overdue :=
      Goal.completed g = false /\ Goal.failed g = false /\
      exists dl, Goal.deadline_date g = Ok dl /\ dl < now in
    (forall dl, Goal.deadline_date g = Ok dl <->
       dl = Goal.created_at g + Goal.deadline_days g * DateTime.us_per_day /\
       Z.abs (Goal.deadline_days g) <= 999999999 /\ DateTime.valid dl) /\
    (Goal.check_failed now g = (Ok true, Goal.set_failed g true) <-> overdue) /\
    (fst (Goal.check_failed now g) = Ok true <-> overdue) /\
    (~ overdue -> snd (Goal.check_failed now g) = g) /\
    (~ overdue ->
     (Goal.completed g = true \/ Goal.failed g = true \/
      exists dl, Goal.deadline_date g = Ok dl) ->
     Goal.check_failed now g = (Ok false, g)) /\
    (Goal.completed g = false -> Goal.failed g = false ->
     (forall dl, Goal.deadline_date g <> Ok dl) ->
     Goal.check_failed now g = (Raise OverflowError, g)) /\
    (overdue ->
     forall nows : list DateTime.datetime,
       Goal.check_failed_seq (now :: nows) g =
         (Ok true :: map (fun _ => Ok false) nows, Goal.set_failed g true) /\
       Goal.failed (snd (Goal.check_failed_seq (now :: nows) g)) = true).
Proof.
  intros now g overdue.
  assert (Hfwd : overdue -> Goal.check_failed now g = (Ok true, Goal.set_failed g true)).
  { intros (Hc & Hf & dl & Hdl & Hlt). unfold Goal.check_failed.
    rewrite Hc, Hf, Hdl. simpl. unfold DateTime.gt.
    destruct (Z.ltb_spec dl now); [reflexivity|lia]. }
  assert (Hbwd : fst (Goal.check_failed now g) = Ok true -> overdue).
  { unfold Goal.check_failed, overdue.
    destruct (Goal.completed g), (Goal.failed g); simpl; try discriminate.
    destruct (Goal.deadline_date g) as [dl|e]; simpl; try discriminate.
    unfold DateTime.gt. destruct (Z.ltb_spec dl now); simpl; try discriminate.
    intros _. repeat split; try reflexivity. exists dl. split; [reflexivity|lia]. }
  assert (Hno : ~ overdue -> snd (Goal.check_failed now g) = g).
  { intros Hn. destruct (check_failed_state now g) as [E|(Hc & Hf & E)]; [exact E|].
    exfalso. apply Hn, Hbwd. revert E. unfold Goal.check_failed.
    rewrite Hc, Hf. simpl. destruct (Goal.deadline_date g) as [dl|e]; simpl.
    - destruct (DateTime.gt now dl); simpl; [reflexivity|].
      intros E. symmetry in E. now apply set_failed_neq in E.
    - intros E. symmetry in E. now apply set_failed_neq in E. }
  split; [apply deadline_date_Ok|].
  split; [|split; [|split; [|split; [|split]]]].
  - split; [|exact Hfwd]. intros E. apply Hbwd. now rewrite E.
  - split; [exact Hbwd|]. intros H. now rewrite (Hfwd H).
  - exact Hno.
  - intros Hn [Hc|[Hf|[dl Hdl]]].
    + apply check_failed_terminal; auto.
    + apply check_failed_terminal; auto.
    + unfold Goal.check_failed.
      destruct (Goal.completed g) eqn:Hc, (Goal.failed g) eqn:Hf; simpl; try reflexivity.
      rewrite Hdl. unfold DateTime.gt.
      destruct (Z.ltb_spec dl now); [|reflexivity].
      exfalso. apply Hn. unfold overdue.
      split; [|split]; [reflexivity || assumption ..|]. eauto.
  - intros Hc Hf Hnone. unfold Goal.check_failed. rewrite Hc, Hf. simpl.
    destruct (Goal.deadline_date g) as [dl|e] eqn:Hdl.
    + now destruct (Hnone dl).
    + now rewrite (deadline_date_Raise g e Hdl).
  - intros Hov nows. simpl. rewrite (Hfwd Hov).
    rewrite check_failed_seq_terminal by (right; reflexivity).
    split; reflexivity.
Qed.

(** The scenario of the specification: a goal with [deadline_days = 0]
    created at [T], swept one second later. *)
Lemma check_failed_iff_witness :
  let g := Goal.construct 63840000000000000 "Ship report" 0 in
  let now := 63840000000000000 + DateTime.us_per_second in
  Goal.check_failed_seq [now; now; now + 5] g =
    ([Ok true; Ok false; Ok false], Goal.set_failed g true) /\
  Goal.failed (snd (Goal.check_failed_seq [now; now; now + 5] g)) = true.
Proof.
  intros g now.
  destruct (check_failed_iff now g) as (_ & _ & _ & _ & _ & _ & Hseq).
  apply Hseq.
  repeat split. exists 63840000000000000. split; [reflexivity|]. subst now.
  unfold DateTime.us_per_second. lia.
Defined.

(** ** Goal: days left right after construction *)

(** C9, as stated, fails for a goal whose deadline date is not a datetime:
    with four million days, [days_left] read at the very clock reading of
    the construction raises [OverflowError] instead of returning four
    million or one less. *)
Lemma days_left_unrepresentable :
  let now := 63839664000000000 in
  let g := Goal.construct now "Read a book" 4000000 in
  Goal.completed g = false /\ Goal.failed g = false /\
  Goal.created_at g = now /\
  Goal.days_left now g = Raise OverflowError /\
  Goal.days_left now g <> Ok 4000000 /\
  Goal.days_left now g <> Ok (4000000 - 1).
Proof. intros now g. repeat split; discriminate. Qed.

(** C9, amended.  A goal built by [Goal(name, deadline_days)] at the clock
    reading [now0] has both flags false and [created_at = now0].  When its
    deadline date [now0 + deadline_days] days is a datetime (of the years 1
    to 9999), [days_left] read at [now1], less than a day earlier (a clock
    set back) or at most one day later, is [deadline_days] or
    [deadline_days - 1], and [deadline_days] when the clock has not
    advanced; when it is not, [days_left] raises [OverflowError]. *)
Theorem days_left_after_construct :
  forall (now0 now1 : DateTime.datetime) (name : string) (deadline_days : Z),
    DateTime.valid now0 ->
    now0 - DateTime.us_per_day < now1 <= now0 + DateTime.us_per_day ->
    let g := Goal.construct now0 name deadline_days in
    let representable :=
      DateTime.valid (now0 + deadline_days * DateTime.us_per_day) in
    Goal.completed g = false /\ Goal.failed g = false /\
    Goal.created_at g = now0 /\
    (representable ->
       (Goal.days_left now1 g = Ok deadline_days \/
        Goal.days_left now1 g = Ok (deadline_days - 1)) /\
       (now1 <= now0 -> Goal.days_left now1 g = Ok deadline_days)) /\
    (~ representable -> Goal.days_left now1 g = Raise OverflowError).
Proof.
  intros now0 now1 name d Hnow0 Hclock g representable.
  do 3 (split; [reflexivity|]). split.
  - intros Hvalid.
    assert (Hdl : Goal.deadline_date g = Ok (now0 + d * DateTime.us_per_day))
      by (apply (deadline_date_valid_created g); assumption).
    assert (Hleft : Goal.days_left now1 g
              = Ok ((now0 + d * DateTime.us_per_day - now1) / DateTime.us_per_day)).
    { unfold Goal.days_left. rewrite Hdl. reflexivity. }
    assert (Hday : 0 < DateTime.us_per_day) by reflexivity.
    assert (Hsame : now1 <= now0 ->
              (now0 + d * DateTime.us_per_day - now1) / DateTime.us_per_day = d).
    { intros Hle. symmetry.
      apply Z.div_unique_pos with (r := now0 - now1); lia. }
    split.
    + rewrite Hleft. destruct (Z.le_gt_cases now1 now0) as [Hle|Hgt].
      * left. now rewrite Hsame.
      * right. f_equal. symmetry.
        apply Z.div_unique_pos with (r := now0 + DateTime.us_per_day - now1); lia.
    + intros Hle. rewrite Hleft. now rewrite Hsame.
  - intros Hn. unfold Goal.days_left.
    destruct (Goal.deadline_date g) as [dl|e] eqn:Hdl.
    + exfalso. apply Hn. apply deadline_date_Ok in Hdl as (-> & _ & Hv). exact Hv.
    + now rewrite (deadline_date_Raise g e Hdl).
Qed.

(** A goal of seven days read one hour after its creation. *)
Lemma days_left_after_construct_witness :
  let now0 := 63839664000000000 in
  let now1 := now0 + DateTime.us_per_hour in
  let g := Goal.construct now0 "Read a book" 7 in
  Goal.days_left now1 g = Ok 7 \/ Goal.days_left now1 g = Ok (7 - 1).
Proof.
  intros now0 now1 g.
  destruct (days_left_after_construct now0 now1 "Read a book" 7)
    as (_ & _ & _ & Hrep & _).
  - vm_compute. split; [discriminate|reflexivity].
  - vm_compute. split; [reflexivity|discriminate].
  - apply Hrep. vm_compute. split; [discriminate|reflexivity].
Defined.

(** ** DailyTask: marking today done *)

Section DailyTaskLog.

Import DailyTask.

Lemma date_str_same_day (a b : DateTime.datetime) :
  DateTime.toordinal a = DateTime.toordinal b ->
  DateTime.date_str a = DateTime.date_str b.
Proof.
  intros H. unfold DateTime.date_str, DateTime.to_fields. rewrite H.
  destruct (DateTime.ord2ymd (DateTime.toordinal b)) as [[y m] d]. reflexivity.
Qed.

Lemma weekday_same_day (a b : DateTime.datetime) :
  DateTime.toordinal a = DateTime.toordinal b ->
  DateTime.weekday a = DateTime.weekday b.
Proof. intros H. unfold DateTime.weekday. now rewrite H. Qed.

Lemma occurrences_app (d : string) (l l' : list string) :
  occurrences d (l ++ l') = (occurrences d l + occurrences d l')%nat.
Proof. unfold occurrences. now rewrite filter_app, length_app. Qed.

Lemma occurrences_absent (d : string) (l : list string) :
  d ∉ l -> occurrences d l = 0%nat.
Proof.
  unfold occurrences. induction l as [|x l IH]; intros H; [reflexivity|].
  apply not_elem_of_cons in H as [Hx Hl].
  rewrite filter_cons_False by congruence. auto.
Qed.

Lemma occurrences_present (d : string) (l : list string) :
  d ∈ l -> (1 <= occurrences d l)%nat.
Proof.
  unfold occurrences. induction l as [|x l IH]; intros H.
  - now apply elem_of_nil in H.
  - destruct (decide (x = d)) as [E|N].
    + rewrite filter_cons_True by exact E. simpl. lia.
    + rewrite filter_cons_False by exact N.
      apply elem_of_cons in H as [->|H]; [congruence|auto].
Qed.

Lemma occurrences_NoDup (d : string) (l : list string) :
  NoDup l -> (occurrences d l <= 1)%nat.
Proof.
  unfold occurrences. induction 1 as [|x l Hx Hl IH]; [simpl; lia|].
  destruct (decide (x = d)) as [E|N].
  - rewrite filter_cons_True by exact E. subst x.
    apply occurrences_absent in Hx. unfold occurrences in Hx. simpl. lia.
  - rewrite filter_cons_False by exact N. exact IH.
Qed.

Lemma occurrences_self (d : string) : occurrences d [d] = 1%nat.
Proof. unfold occurrences. now rewrite filter_cons_True. Qed.

Lemma complete_today_logged (now now' : DateTime.datetime) (self : DailyTask.t) :
  DateTime.date_str now ∈ completed_dates self ->
  complete_today now now' self = self.
Proof.
  intros H. unfold complete_today.
  now rewrite (bool_decide_eq_true_2 _ H).
Qed.

Lemma complete_today_NoDup (now now' : DateTime.datetime) (self : DailyTask.t) :
  NoDup (completed_dates self) ->
  NoDup (completed_dates (complete_today now now' self)).
Proof.
  intros H. unfold complete_today.
  destruct (bool_decide_reflect (DateTime.date_str now ∈ completed_dates self));
    simpl; [exact H|].
  destruct (is_active_today now' self); simpl; [|exact H].
  apply NoDup_app. repeat split; [exact H| |apply NoDup_singleton].
  intros x Hx Hx'. apply list_elem_of_singleton in Hx'. congruence.
Qed.

Lemma run_NoDup (calls : list (DateTime.datetime * DateTime.datetime)) :
  forall self : DailyTask.t,
    NoDup (completed_dates self) -> NoDup (completed_dates (run calls self)).
Proof.
  unfold run. induction calls as [|[now now'] calls IH]; intros self H; simpl;
    [exact H|].
  apply IH, complete_today_NoDup, H.
Qed.

Lemma complete_today_cases (now now' : DateTime.datetime) (self : DailyTask.t) :
  DateTime.toordinal now' = DateTime.toordinal now ->
  let D := DateTime.date_str now in
  let loggable := DateTime.weekday now ∈ days_of_week self /\ D ∉ completed_dates self in
  (loggable ->
     complete_today now now' self
     = DailyTask.mk (name self) (days_of_week self) (completed_dates self ++ [D])) /\
  (~ loggable -> complete_today now now' self = self).
Proof.
  intros Hnow' D loggable.
  unfold complete_today, is_active_today. fold D.
  rewrite (weekday_same_day _ _ Hnow'). split.
  - intros [Hact Hnew].
    rewrite (bool_decide_eq_false_2 _ Hnew), (bool_decide_eq_true_2 _ Hact).
    reflexivity.
  - intros Hn.
    destruct (bool_decide_reflect (D ∈ completed_dates self)) as [|Hnew];
      simpl; [reflexivity|].
    destruct (bool_decide_reflect (DateTime.weekday now ∈ days_of_week self))
      as [Hact|]; simpl; [|reflexivity].
    exfalso. apply Hn. split; assumption.
Qed.

End DailyTaskLog.

(** ** DailyTask: the completion rate *)

Section CompletionRate.

Import DailyTask.

Lemma completion_rate_zero (weeks : Z) (self : DailyTask.t) :
  Z.of_nat (length (days_of_week self)) * weeks = 0 ->
  completion_rate weeks self = 0%float.
Proof. intros H. unfold completion_rate. now rewrite H. Qed.

Lemma completion_rate_lengths (weeks : Z) (self other : DailyTask.t) :
  length (days_of_week self) = length (days_of_week other) ->
  length (completed_dates self) = length (completed_dates other) ->
  completion_rate weeks self = completion_rate weeks other /\
  completion_rate_exact weeks self = completion_rate_exact weeks other.
Proof.
  intros Hd Hc. unfold completion_rate, completion_rate_exact.
  now rewrite Hd, Hc.
Qed.

(** One to seven scheduled days and up to four hundred logged dates, by
    evaluation. *)
Lemma rates_checked :
  forallb (fun k => forallb (RateCheck.check k) (seq 0 401)) (seq 1 7) = true.
Proof. vm_cast_no_check (eq_refl true). Qed.

Lemma within_spec (x : float) (q eps : Q) :
  RateCheck.within x q eps = true ->
  exists v : Q, Num.to_Q x = Some v /\ (Qabs (v - q) <= eps)%Q.
Proof.
  unfold RateCheck.within. destruct (Num.to_Q x) as [v|]; [|discriminate].
  intros H. exists v. split; [reflexivity|]. now apply Qle_bool_iff.
Qed.

Lemma check_table (k n : nat) :
  (1 <= k <= 7)%nat -> (n <= 400)%nat -> RateCheck.check k n = true.
Proof.
  intros Hk Hn.
  assert (Hall := rates_checked).
  rewrite forallb_forall in Hall.
  assert (Hrow := Hall k ltac:(apply in_seq; lia)).
  rewrite forallb_forall in Hrow.
  apply Hrow. apply in_seq. lia.
Qed.

Lemma completion_rate_default_close (self : DailyTask.t) :
  (1 <= length (days_of_week self) <= 7)%nat ->
  (length (completed_dates self) <= 400)%nat ->
  exists v : Q,
    Num.to_Q (completion_rate 4 self) = Some v /\
    (Qabs (v - completion_rate_exact 4 self)
     <= completion_rate_exact 4 self * (1 # 4503599627370496))%Q.
Proof.
  intros Hk Hn.
  destruct (completion_rate_lengths 4 self
              (RateCheck.sample (length (days_of_week self))
                                (length (completed_dates self)))) as [Er Ee].
  { symmetry. apply repeat_length. }
  { symmetry. apply repeat_length. }
  rewrite Er, Ee. apply within_spec. apply (check_table _ _ Hk Hn).
Qed.

End CompletionRate.

(** C8, as stated, fails: the rate is a binary64 value.  One completion out
    of three possible days gives 33.33333333333333 (in full,
    4691249611844266 / 2^47), which is not the rational 100/3. *)
Lemma completion_rate_not_exact :
  let task := DailyTask.mk "Exercise" [0] ["2024-01-01"%string] in
  DailyTask.completion_rate 3 task = 0x1.0aaaaaaaaaaaap+5%float /\
  Num.exactly (DailyTask.completion_rate 3 task)
              (inject_Z 4691249611844266 / inject_Z (2 ^ 47))%Q /\
  Qeq (DailyTask.completion_rate_exact 3 task) (100 # 3) /\
  ~ Num.exactly (DailyTask.completion_rate 3 task)
                (DailyTask.completion_rate_exact 3 task).
Proof.
  repeat split.
  intros H. vm_compute in H. discriminate H.
Qed.

(** C8, amended.  [completion_rate(weeks)] is the binary64 number obtained
    by rounding [len(completed_dates) / (len(days_of_week) * weeks)] to
    nearest and then rounding its product with 100; it is the float 0.0,
    which stands for the rational 0 of the exact formula, when
    [len(days_of_week) * weeks] is 0, in particular when [days_of_week] is
    empty or [weeks] is 0.  Over the default window of four weeks, the only
    one the program asks for, with one to seven scheduled days and up to
    four hundred logged dates, it is within a relative error of [2^-52] of
    the exact rate. *)
Theorem completion_rate_float :
  forall (weeks : Z) (self : DailyTask.t),
    let n := Z.of_nat (length (DailyTask.completed_dates self)) in
    let possible_days := Z.of_nat (length (DailyTask.days_of_week self)) * weeks in
    (possible_days <> 0 ->
       DailyTask.completion_rate weeks self
       = (Num.truediv n possible_days * 100)%float) /\
    (possible_days = 0 ->
       DailyTask.completion_rate weeks self = 0%float /\
       Num.exactly (DailyTask.completion_rate weeks self)
                   (DailyTask.completion_rate_exact weeks self)) /\
    (DailyTask.days_of_week self = [] ->
       DailyTask.completion_rate weeks self = 0%float) /\
    (weeks = 0 -> DailyTask.completion_rate weeks self = 0%float) /\
    (weeks = 4 ->
     (1 <= length (DailyTask.days_of_week self) <= 7)%nat ->
     (length (DailyTask.completed_dates self) <= 400)%nat ->
     exists v : Q,
       Num.to_Q (DailyTask.completion_rate weeks self) = Some v /\
       (Qabs (v - DailyTask.completion_rate_exact weeks self)
        <= DailyTask.completion_rate_exact weeks self * (1 # 4503599627370496))%Q).
Proof.
  intros weeks self n possible_days. repeat split.
  - intros H. unfold DailyTask.completion_rate. fold possible_days n.
    destruct (Z.eqb_spec possible_days 0); [contradiction|reflexivity].
  - now apply completion_rate_zero.
  - rewrite (completion_rate_zero weeks self H).
    unfold DailyTask.completion_rate_exact. fold possible_days. rewrite H.
    unfold Num.exactly. change (Num.to_Q 0%float) with (Some 0%Q).
    unfold Qeq. simpl. lia.
  - intros H. apply completion_rate_zero. rewrite H. reflexivity.
  - intros ->. apply completion_rate_zero. lia.
  - intros ->. apply completion_rate_default_close.
Qed.

(** ** GoalManager: statistics *)

Section Stats.

Import GoalManager.

Lemma filter_length_number_with (p : Goal.t -> bool) (gs : list Goal.t) :
  Z.of_nat (length (filter (fun g => p g = true) gs)) = number_with p gs.
Proof.
  induction gs as [|g gs IH]; [reflexivity|]. simpl number_with.
  destruct (p g) eqn:E.
  - rewrite filter_cons_True by exact E. simpl length. lia.
  - rewrite filter_cons_False by congruence. lia.
Qed.

Lemma deref_length {A : Type} (h : gmap positive A) (l : list ref) :
  (forall r, r ∈ l -> is_Some (h !! r)) -> length (deref h l) = length l.
Proof.
  unfold deref. induction l as [|r l IH]; intros H; [reflexivity|].
  destruct (H r) as [x Hx]; [apply list_elem_of_here|].
  simpl. rewrite Hx. simpl. f_equal. apply IH.
  intros r' Hr'. apply H. now apply list_elem_of_further.
Qed.

Lemma number_with_pending (gs : list Goal.t) :
  (forall g, g ∈ gs -> Goal.completed g && Goal.failed g = false) ->
  number_with pending gs
  = Z.of_nat (length gs) - number_with Goal.completed gs - number_with Goal.failed gs.
Proof.
  induction gs as [|g gs IH]; intros H; [reflexivity|].
  assert (Hg := H g (list_elem_of_here _ _)).
  change (length (g :: gs)) with (S (length gs)).
  rewrite Nat2Z.inj_succ. simpl number_with. rewrite IH.
  - unfold pending. destruct (Goal.completed g), (Goal.failed g);
      simpl in *; try discriminate; lia.
  - intros g' Hg'. apply H. now apply list_elem_of_further.
Qed.

Lemma number_with_nonneg (p : Goal.t -> bool) (gs : list Goal.t) :
  0 <= number_with p gs.
Proof. induction gs as [|g gs IH]; simpl; [lia|]. destruct (p g); lia. Qed.

Lemma deref_length_le {A : Type} (h : gmap positive A) (l : list ref) :
  (length (deref h l) <= length l)%nat.
Proof.
  unfold deref. induction l as [|r l IH]; [reflexivity|].
  csimpl. destruct (h !! r); simpl; lia.
Qed.

(** One to two hundred goals and every number of completed ones, by
    evaluation. *)
Lemma stats_rates_checked :
  forallb (fun total => forallb (StatsCheck.check total) (seq 0 (S total)))
          (seq 1 200) = true.
Proof. vm_cast_no_check (eq_refl true). Qed.

Lemma stats_check_table (total completed : nat) :
  (1 <= total <= 200)%nat -> (completed <= total)%nat ->
  StatsCheck.check total completed = true.
Proof.
  intros Ht Hc.
  assert (Hall := stats_rates_checked).
  rewrite forallb_forall in Hall.
  assert (Hrow := Hall total ltac:(apply in_seq; lia)).
  rewrite forallb_forall in Hrow.
  apply Hrow. apply in_seq. lia.
Qed.

End Stats.

(** C7, as stated, fails: the rate is a binary64 value.  With one of three
    goals completed it is 33.33333333333333 (in full,
    4691249611844266 / 2^47), which is not the rational 100/3. *)
Lemma get_goals_stats_rate_not_exact :
  let g := Goal.construct 63839664000000000 "a" 7 in
  let m := GoalManager.mk
             {[ 1%positive := Goal.set_completed g true;
                2%positive := Goal.set_failed g true;
                3%positive := g ]} ∅ [1; 2; 3]%positive [] None in
  let s := GoalManager.get_goals_stats m in
  GoalManager.total s = 3 /\ GoalManager.completed s = 1 /\
  GoalManager.completion_rate s = Num.Float 0x1.0aaaaaaaaaaaap+5%float /\
  Num.exactly 0x1.0aaaaaaaaaaaap+5%float
              (inject_Z 4691249611844266 / inject_Z (2 ^ 47))%Q /\
  ~ Num.exactly 0x1.0aaaaaaaaaaaap+5%float
                (inject_Z (GoalManager.completed s)
                 / inject_Z (GoalManager.total s) * 100)%Q.
Proof.
  repeat split.
  intros H. vm_compute in H. discriminate H.
Qed.

(** C7, amended.  [get_goals_stats()] returns [total], the number of goals;
    [completed] and [failed], the numbers of goals with the respective flag;
    [in_progress = total - completed - failed]; and [completion_rate]: the
    integer 0 when there is no goal, where nothing is divided, and else the
    binary64 number obtained by rounding [completed / total] to nearest and
    then rounding its product with 100, which for up to two hundred goals is
    within a relative error of [2^-52] of the rational
    [completed / total * 100].  On a manager whose goals never have both
    flags, [in_progress] is the number of pending goals. *)
Theorem get_goals_stats_counts :
  forall m : GoalManager.t,
    let s := GoalManager.get_goals_stats m in
    let gs := GoalManager.deref (GoalManager.goal_heap m) (GoalManager.goals m) in
    GoalManager.total s = Z.of_nat (length (GoalManager.goals m)) /\
    GoalManager.completed s = GoalManager.number_with Goal.completed gs /\
    GoalManager.failed s = GoalManager.number_with Goal.failed gs /\
    GoalManager.in_progress s
      = GoalManager.total s - GoalManager.completed s - GoalManager.failed s /\
    (GoalManager.total s <> 0 ->
       GoalManager.completion_rate s
       = Num.Float (Num.truediv (GoalManager.completed s) (GoalManager.total s) * 100)%float) /\
    (GoalManager.total s = 0 ->
       s = GoalManager.mkStats 0 0 0 0 (Num.Int 0)) /\
    (GoalManager.wf m ->
       GoalManager.total s = Z.of_nat (length gs) /\
       ((forall g, g ∈ gs -> Goal.completed g && Goal.failed g = false) ->
        GoalManager.in_progress s = GoalManager.number_with GoalManager.pending gs /\
        0 <= GoalManager.in_progress s)) /\
    (0 <= GoalManager.completed s <= GoalManager.total s) /\
    (1 <= GoalManager.total s <= 200 ->
     exists (x : float) (v : Q),
       GoalManager.completion_rate s = Num.Float x /\
       Num.to_Q x = Some v /\
       let exact := (inject_Z (GoalManager.completed s)
                     / inject_Z (GoalManager.total s) * 100)%Q in
       (Qabs (v - exact) <= exact * (1 # 4503599627370496))%Q).
Proof.
  intros m s gs.
  assert (Hc : GoalManager.completed s = GoalManager.number_with Goal.completed gs)
    by apply filter_length_number_with.
  assert (Hf : GoalManager.failed s = GoalManager.number_with Goal.failed gs)
    by apply filter_length_number_with.
  assert (Hle : (length (filter (fun g => Goal.completed g = true) gs)
                 <= length (GoalManager.goals m))%nat).
  { etransitivity; [apply length_filter|]. apply deref_length_le. }
  split; [reflexivity|]. split; [exact Hc|]. split; [exact Hf|].
  split; [reflexivity|]. split; [|split; [|split; [|split]]].
  - intros H. unfold s, GoalManager.get_goals_stats. simpl.
    simpl in H. destruct (Z.ltb_spec 0 (Z.of_nat (length (GoalManager.goals m))));
      [reflexivity|lia].
  - simpl. intros H.
    assert (Hnil : GoalManager.goals m = [])
      by (destruct (GoalManager.goals m); [reflexivity|simpl in H; lia]).
    unfold s, GoalManager.get_goals_stats. rewrite Hnil. reflexivity.
  - intros (_ & _ & Hlive & _).
    assert (Hlen : GoalManager.total s = Z.of_nat (length gs)).
    { simpl. unfold gs. now rewrite deref_length. }
    split; [exact Hlen|]. intros Hex.
    assert (E : GoalManager.in_progress s
                = GoalManager.number_with GoalManager.pending gs).
    { rewrite number_with_pending by exact Hex. rewrite <- Hlen, <- Hc, <- Hf.
      reflexivity. }
    split; [exact E|]. rewrite E. apply number_with_nonneg.
  - simpl. fold gs. lia.
  - unfold s, GoalManager.get_goals_stats.
    cbn [GoalManager.total GoalManager.completed GoalManager.completion_rate].
    fold gs. intros Ht.
    set (c := length (filter (fun g => Goal.completed g = true) gs)) in *.
    set (t := length (GoalManager.goals m)) in *.
    destruct (Z.ltb_spec 0 (Z.of_nat t)) as [_|Hn]; [|lia].
    assert (Hchk := stats_check_table t c ltac:(lia) Hle).
    apply within_spec in Hchk as (v & Hv & Hbound).
    eexists. exists v. split; [reflexivity|]. split; [exact Hv|exact Hbound].
Qed.

(** Three goals, one completed and one failed: a third of them is done. *)
Example get_goals_stats_three :
  let g := Goal.construct 63839664000000000 "a" 7 in
  let m := GoalManager.mk
             {[ 1%positive := Goal.set_completed g true;
                2%positive := Goal.set_failed g true;
                3%positive := g ]} ∅ [1; 2; 3]%positive [] None in
  GoalManager.get_goals_stats m
  = GoalManager.mkStats 3 1 1 1 (Num.Float 0x1.0aaaaaaaaaaaap+5%float).
Proof. vm_compute. reflexivity. Qed.

(** ** GoalManager: adding and deleting goals *)

Section Collections.

Import GoalManager.

Lemma deref_app {A : Type} (h : gmap positive A) (l l' : list ref) :
  deref h (l ++ l') = deref h l ++ deref h l'.
Proof. apply omap_app. Qed.

Lemma deref_insert_other {A : Type} (h : gmap positive A) (r : ref) (x : A)
    (l : list ref) :
  r ∉ l -> deref (<[r := x]> h) l = deref h l.
Proof.
  unfold deref. induction l as [|r' l IH]; intros H; [reflexivity|].
  apply not_elem_of_cons in H as [Hne Hl]. csimpl.
  rewrite lookup_insert_ne by exact Hne. now rewrite IH.
Qed.

Lemma fresh_not_listed {A : Type} (h : gmap positive A) (l : list ref) :
  (forall r, r ∈ l -> is_Some (h !! r)) -> fresh (dom h) ∉ l.
Proof.
  intros Hlive Hin. apply (is_fresh (dom h)). apply elem_of_dom. now apply Hlive.
Qed.

Lemma fresh_unused {A : Type} (h : gmap positive A) : h !! (fresh (dom h)) = None.
Proof. apply not_elem_of_dom. apply is_fresh. Qed.

Lemma list_remove_at (x : ref) (l1 l2 : list ref) :
  x ∉ l1 -> list_remove x (l1 ++ x :: l2) = Some (l1 ++ l2).
Proof.
  induction l1 as [|y l1 IH]; intros H; simpl.
  - now rewrite decide_True.
  - apply not_elem_of_cons in H as [Hne H].
    rewrite decide_False by exact Hne. now rewrite IH.
Qed.

Lemma list_remove_Some (x : ref) (l l' : list ref) :
  list_remove x l = Some l' ->
  exists l1 l2, l = l1 ++ x :: l2 /\ (x ∉ l1) /\ l' = l1 ++ l2.
Proof.
  revert l'. induction l as [|y l IH]; intros l'; simpl; [discriminate|].
  destruct (decide (x = y)) as [->|Hne].
  - intros [= <-]. exists [], l. repeat split. apply not_elem_of_nil.
  - destruct (list_remove x l) as [l''|]; [|discriminate].
    intros [= <-]. destruct (IH l'' eq_refl) as (l1 & l2 & -> & Hn & ->).
    exists (y :: l1), l2. repeat split.
    apply not_elem_of_cons. split; assumption.
Qed.

Lemma list_remove_None (x : ref) (l : list ref) :
  list_remove x l = None <-> x ∉ l.
Proof.
  induction l as [|y l IH]; simpl.
  - split; [intros _; apply not_elem_of_nil|reflexivity].
  - rewrite not_elem_of_cons. destruct (decide (x = y)) as [->|Hne].
    + split; [discriminate|]. intros [H _]. congruence.
    + destruct (list_remove x l).
      * split; [discriminate|]. intros [_ H]. apply IH in H. discriminate.
      * split; [|reflexivity]. intros _. split; [exact Hne|]. now apply IH.
Qed.

Lemma add_goal_wf (now : DateTime.datetime) (name : string) (deadline_days : Z)
    (m : GoalManager.t) :
  wf m -> wf (snd (add_goal now name deadline_days m)).
Proof.
  intros (Hg & Ht & Hlg & Hlt). unfold add_goal, alloc. simpl.
  repeat split; simpl; try assumption.
  - apply NoDup_app. repeat split; [exact Hg| |apply NoDup_singleton].
    intros r Hr Hr'. apply list_elem_of_singleton in Hr'. subst r.
    now apply (fresh_not_listed (goal_heap m) (goals m)).
  - intros r Hr. apply elem_of_app in Hr as [Hr|Hr].
    + destruct (decide (fresh (dom (goal_heap m)) = r)) as [<-|Hne].
      * rewrite lookup_insert_eq. eauto.
      * rewrite lookup_insert_ne by exact Hne. now apply Hlg.
    + apply list_elem_of_singleton in Hr. subst r. rewrite lookup_insert_eq. eauto.
Qed.

Lemma delete_goal_wf (goal : ref) (m : GoalManager.t) :
  wf m -> wf (snd (delete_goal goal m)).
Proof.
  intros Hwf. unfold delete_goal.
  destruct (list_remove goal (goals m)) as [l|] eqn:Hrm; [|exact Hwf].
  apply list_remove_Some in Hrm as (l1 & l2 & E & Hn & ->).
  destruct Hwf as (Hg & Ht & Hlg & Hlt). rewrite E in Hg, Hlg.
  repeat split; simpl; try assumption.
  - apply NoDup_app in Hg as (H1 & H12 & H2). apply NoDup_cons in H2 as [_ H2].
    apply NoDup_app. repeat split; try assumption.
    intros r Hr Hr'. apply (H12 r Hr). now apply list_elem_of_further.
  - intros r Hr. apply Hlg. apply elem_of_app in Hr as [Hr|Hr]; apply elem_of_app;
      [left; exact Hr|right; now apply list_elem_of_further].
Qed.

End Collections.

(** C5, as stated, fails: [add_goal] validates nothing.  With an empty
    name and a negative number of days it returns normally, and the goal is
    appended and written to the file. *)
Lemma add_goal_accepts_any_input :
  let m := GoalManager.empty None in
  let now := 63839664000000000 in
  let out := GoalManager.add_goal now "" (-1) m in
  fst out = Ok tt /\
  (forall e, fst out <> Raise e) /\
  GoalManager.deref (GoalManager.goal_heap (snd out)) (GoalManager.goals (snd out))
  = [Goal.mk "" (-1) now false false] /\
  GoalManager.disk (snd out)
  = DataManager.save_data [Goal.mk "" (-1) now false false] [].
Proof.
  intros m now out. split; [reflexivity|]. split; [discriminate|].
  split; vm_compute; reflexivity.
Qed.

(** C5, amended.  For every name and number of days, empty and negative
    ones included, [add_goal] returns normally: it constructs a goal
    with both flags false and the clock reading as creation time, a new
    object, appends it to the goals, leaves the daily tasks alone and writes
    the snapshot of the new collections to the file. *)
Theorem add_goal_appends :
  forall (now : DateTime.datetime) (name : string) (deadline_days : Z)
         (m : GoalManager.t),
    let out := GoalManager.add_goal now name deadline_days m in
    let m' := snd out in
    let r := fresh (dom (GoalManager.goal_heap m)) in
    let g := Goal.mk name deadline_days now false false in
    fst out = Ok tt /\
    GoalManager.goal_heap m !! r = None /\
    GoalManager.goals m' = GoalManager.goals m ++ [r] /\
    GoalManager.goal_heap m' = <[r := g]> (GoalManager.goal_heap m) /\
    GoalManager.daily_tasks m' = GoalManager.daily_tasks m /\
    GoalManager.task_heap m' = GoalManager.task_heap m /\
    GoalManager.disk m'
    = DataManager.save_data
        (GoalManager.deref (GoalManager.goal_heap m') (GoalManager.goals m'))
        (GoalManager.deref (GoalManager.task_heap m') (GoalManager.daily_tasks m')) /\
    (GoalManager.wf m ->
       GoalManager.wf m' /\
       GoalManager.deref (GoalManager.goal_heap m') (GoalManager.goals m')
       = GoalManager.deref (GoalManager.goal_heap m) (GoalManager.goals m) ++ [g]).
Proof.
  intros now name d m out m' r g.
  split; [reflexivity|]. split; [apply fresh_unused|].
  do 5 (split; [reflexivity|]).
  intros Hwf. split; [apply add_goal_wf, Hwf|].
  destruct Hwf as (_ & _ & Hlive & _).
  change (GoalManager.deref (<[r := g]> (GoalManager.goal_heap m))
            (GoalManager.goals m ++ [r])
          = GoalManager.deref (GoalManager.goal_heap m) (GoalManager.goals m) ++ [g]).
  rewrite deref_app, deref_insert_other by now apply fresh_not_listed.
  f_equal. unfold GoalManager.deref. simpl. now rewrite lookup_insert_eq.
Qed.

(** C6. [delete_goal(goal)] removes the object [goal] itself from the goals
    when it is there: the goals before it and after it stay, in order, the
    objects are untouched and the new collections are written to the file;
    on a manager that lists no object twice, [goal] is then no longer
    there.  When [goal] is not in the list the call raises [ValueError]
    (the failure the specification calls NotFound) and nothing changes. *)
Theorem delete_goal_by_identity :
  forall (goal : GoalManager.ref) (m : GoalManager.t),
    let out := GoalManager.delete_goal goal m in
    let m' := snd out in
    (goal ∈ GoalManager.goals m ->
       fst out = Ok tt /\
       (exists before after,
          GoalManager.goals m = before ++ goal :: after /\
          (goal ∉ before) /\
          GoalManager.goals m' = before ++ after) /\
       GoalManager.goal_heap m' = GoalManager.goal_heap m /\
       GoalManager.daily_tasks m' = GoalManager.daily_tasks m /\
       GoalManager.task_heap m' = GoalManager.task_heap m /\
       GoalManager.disk m'
       = DataManager.save_data
           (GoalManager.deref (GoalManager.goal_heap m') (GoalManager.goals m'))
           (GoalManager.deref (GoalManager.task_heap m') (GoalManager.daily_tasks m')) /\
       (NoDup (GoalManager.goals m) ->
          (goal ∉ GoalManager.goals m') /\
          forall r, r <> goal -> (r ∈ GoalManager.goals m' <-> r ∈ GoalManager.goals m))) /\
    (goal ∉ GoalManager.goals m -> out = (Raise ValueError, m)) /\
    (GoalManager.wf m -> GoalManager.wf m').
Proof.
  intros goal m out m'. split; [|split].
  - intros Hin. unfold m', out, GoalManager.delete_goal.
    destruct (GoalManager.list_remove goal (GoalManager.goals m)) as [l|] eqn:Hrm.
    + apply list_remove_Some in Hrm as (l1 & l2 & E & Hn & ->).
      split; [reflexivity|]. split; [exists l1, l2; auto|].
      do 4 (split; [reflexivity|]). simpl.
      intros Hnd. rewrite E in Hnd.
      apply NoDup_app in Hnd as (H1 & H12 & H2). apply NoDup_cons in H2 as [H2 _].
      split.
      * intros H. apply elem_of_app in H as [H|H]; [now apply Hn|now apply H2].
      * intros r Hr. rewrite E, !elem_of_app, elem_of_cons. tauto.
    + apply list_remove_None in Hrm. contradiction.
  - intros Hn. apply list_remove_None in Hn.
    unfold out, GoalManager.delete_goal. now rewrite Hn.
  - apply delete_goal_wf.
Qed.

(** Two goals with the same fields are two objects: deleting the second
    leaves the first, and deleting it again fails. *)
Lemma delete_goal_by_identity_witness :
  let g := Goal.construct 63839664000000000 "Run" 3 in
  let m := GoalManager.mk {[ 1%positive := g; 2%positive := g ]} ∅
             [1; 2]%positive [] None in
  let m' := snd (GoalManager.delete_goal 2%positive m) in
  GoalManager.goals m' = [1%positive] /\
  GoalManager.delete_goal 2%positive m' = (Raise ValueError, m').
Proof.
  intros g m m'.
  destruct (delete_goal_by_identity 2%positive m) as (Hin & _ & _).
  destruct (delete_goal_by_identity 2%positive m') as (_ & Hout & _).
  split; [reflexivity|]. apply Hout.
  change (GoalManager.goals m') with [1%positive].
  intros H. apply list_elem_of_singleton in H. discriminate H.
Defined.

(** ** Loading does not check the flags *)

(** C10. [Goal.from_dict] does not enforce the exclusion of the two flags:
    from a dictionary with [completed] and [failed] both true it returns a
    goal with both flags true; [load_data] accepts a snapshot holding that
    dictionary, and the goal writes back as the same dictionary; a manager
    started on the snapshot keeps the goal as it is (the sweep skips a
    completed goal whatever the clock), and its statistics report
    [in_progress = total - completed - failed = 1 - 1 - 1 = -1]. *)
Theorem from_dict_accepts_both_flags :
  exists (data : Json.value) (g : Goal.t),
    Json.getitem data "completed" = Ok (Json.Bool true) /\
    Json.getitem data "failed" = Ok (Json.Bool true) /\
    GoalDict.from_dict data = Ok g /\
    Goal.completed g = true /\ Goal.failed g = true /\
    GoalDict.to_dict g = data /\
    let snapshot :=
      Some (Json.Dict [("goals", Json.List [data]);
                       ("daily_tasks", Json.List [])]%string) in
    DataManager.load_data snapshot = Ok ([g], []) /\
    forall clock : GoalManager.ref -> DateTime.datetime,
    exists m : GoalManager.t,
      GoalManager.init clock snapshot = (Ok tt, m) /\
      GoalManager.deref (GoalManager.goal_heap m) (GoalManager.goals m) = [g] /\
      GoalManager.disk m = snapshot /\
      let s := GoalManager.get_goals_stats m in
      GoalManager.total s = 1 /\ GoalManager.completed s = 1 /\
      GoalManager.failed s = 1 /\
      GoalManager.in_progress s
        = GoalManager.total s - GoalManager.completed s - GoalManager.failed s /\
      GoalManager.in_progress s = -1 /\
      GoalManager.in_progress s < 0.
Proof.
  exists (Json.Dict [("name", Json.Str "Ship report");
                     ("deadline_days", Json.Int 7);
                     ("created_at", Json.Str "2024-01-01T08:30:00.250000");
                     ("completed", Json.Bool true);
                     ("failed", Json.Bool true)]%string).
  exists (Goal.mk "Ship report" 7 63839694600250000 true true).
  do 6 (split; [vm_compute; reflexivity|]).
  split; [vm_compute; reflexivity|].
  intros clock. eexists. split; [vm_compute; reflexivity|].
  repeat split.
Qed.

(** ** The calendar: a datetime and its fields *)

Section Calendar.

Import DateTime.

Lemma all_from_spec (fuel : nat) : forall (r0 : Z) (f : Z -> bool),
  Cycle.all_from fuel r0 f = true ->
  forall r, r0 <= r < r0 + Z.of_nat fuel -> f r = true.
Proof.
  induction fuel as [|k IH]; intros r0 f H r Hr; [lia|].
  simpl in H. apply andb_prop in H as [H1 H2].
  destruct (Z.eq_dec r r0) as [->|Hne]; [exact H1|].
  apply (IH (r0 + 1) f H2). lia.
Qed.

(** Every day of the first cycle, by evaluation. *)
Lemma cycle_checked : Cycle.all_from (Z.to_nat 146097) 0 Cycle.check = true.
Proof. vm_cast_no_check (eq_refl true). Qed.

Lemma is_leap_shift (q y : Z) : is_leap (400 * q + y) = is_leap y.
Proof.
  unfold is_leap.
  replace ((400 * q + y) mod 4) with (y mod 4)
    by (replace (400 * q + y) with (y + (100 * q) * 4) by lia;
        now rewrite Z_mod_plus_full).
  replace ((400 * q + y) mod 100) with (y mod 100)
    by (replace (400 * q + y) with (y + (4 * q) * 100) by lia;
        now rewrite Z_mod_plus_full).
  replace ((400 * q + y) mod 400) with (y mod 400)
    by (replace (400 * q + y) with (y + q * 400) by lia;
        now rewrite Z_mod_plus_full).
  reflexivity.
Qed.

Lemma days_before_year_shift (q y : Z) :
  days_before_year (400 * q + y) = 146097 * q + days_before_year y.
Proof.
  unfold days_before_year. cbv zeta.
  replace ((400 * q + y - 1) / 4) with ((y - 1) / 4 + 100 * q)
    by (replace (400 * q + y - 1) with (y - 1 + (100 * q) * 4) by lia;
        now rewrite Z_div_plus_full).
  replace ((400 * q + y - 1) / 100) with ((y - 1) / 100 + 4 * q)
    by (replace (400 * q + y - 1) with (y - 1 + (4 * q) * 100) by lia;
        now rewrite Z_div_plus_full).
  replace ((400 * q + y - 1) / 400) with ((y - 1) / 400 + q)
    by (replace (400 * q + y - 1) with (y - 1 + q * 400) by lia;
        now rewrite Z_div_plus_full).
  lia.
Qed.

Lemma ymd2ord_shift (q y m d : Z) :
  ymd2ord (400 * q + y) m d = 146097 * q + ymd2ord y m d.
Proof.
  unfold ymd2ord, days_before_month.
  rewrite days_before_year_shift, is_leap_shift. lia.
Qed.

Lemma days_in_month_shift (q y m : Z) :
  days_in_month (400 * q + y) m = days_in_month y m.
Proof. unfold days_in_month. now rewrite is_leap_shift. Qed.

Lemma ord2ymd_shift (q r : Z) :
  0 <= r < 146097 ->
  ord2ymd (146097 * q + r + 1)
  = let '(y, m, d) := ord2ymd (r + 1) in (400 * q + y, m, d).
Proof.
  intros Hr. unfold ord2ymd, DI400Y, DI100Y, DI4Y.
  replace (146097 * q + r + 1 - 1) with (r + q * 146097) by lia.
  replace (r + 1 - 1) with r by lia.
  rewrite Z_div_plus_full, Z_mod_plus_full by lia.
  rewrite (Z.div_small r 146097), (Z.mod_small r 146097) by lia.
  cbv zeta.
  repeat match goal with
         | |- context [if ?c then _ else _] => destruct c
         end; f_equal; f_equal; lia.
Qed.

(** [ord2ymd] yields a date the [datetime] constructor accepts, and
    [ymd2ord] inverts it, on every ordinal of the range. *)
Lemma ord2ymd_ok (n : Z) :
  1 <= n <= MAXORDINAL ->
  let '(y, m, d) := ord2ymd n in
  MINYEAR <= y <= MAXYEAR /\ 1 <= m <= 12 /\ 1 <= d <= days_in_month y m /\
  ymd2ord y m d = n.
Proof.
  unfold MAXORDINAL, MINYEAR, MAXYEAR. intros Hn.
  pose (q := (n - 1) / 146097). pose (r := (n - 1) mod 146097).
  assert (Hqr : n - 1 = 146097 * q + r) by (apply Z.div_mod; lia).
  assert (Hr : 0 <= r < 146097) by (apply Z.mod_pos_bound; lia).
  assert (Hq : 0 <= q <= 24) by lia.
  replace n with (146097 * q + r + 1) by lia.
  rewrite (ord2ymd_shift q r Hr).
  assert (Hc := all_from_spec _ _ _ cycle_checked r).
  rewrite Z2Nat.id in Hc by lia. specialize (Hc ltac:(lia)).
  unfold Cycle.check in Hc.
  destruct (ord2ymd (r + 1)) as [[y m] d].
  repeat (apply andb_prop in Hc as [Hc ?]).
  repeat match goal with
         | H : (_ <=? _) = true |- _ => apply Z.leb_le in H
         | H : (_ =? _) = true |- _ => apply Z.eqb_eq in H
         | H : (_ || _) = true |- _ => apply orb_prop in H
         end.
  rewrite days_in_month_shift, ymd2ord_shift.
  repeat split; lia.
Qed.

End Calendar.

(** ** The ISO format: printing and reading back *)

Section IsoFormat.

Import DateTime.

Lemma time_of_day_fields (tod : Z) :
  0 <= tod < us_per_day ->
  0 <= tod / us_per_hour < 24 /\
  0 <= (tod mod us_per_hour) / us_per_minute < 60 /\
  0 <= (tod mod us_per_minute) / us_per_second < 60 /\
  0 <= tod mod us_per_second < 1000000 /\
  tod / us_per_hour * us_per_hour
  + (tod mod us_per_hour) / us_per_minute * us_per_minute
  + (tod mod us_per_minute) / us_per_second * us_per_second
  + tod mod us_per_second = tod.
Proof.
  change us_per_day with 86400000000. change us_per_hour with 3600000000.
  change us_per_minute with 60000000. change us_per_second with 1000000.
  intros H. Z.div_mod_to_equations. lia.
Qed.

Lemma toordinal_range (t : datetime) :
  valid t -> 1 <= toordinal t <= MAXORDINAL.
Proof.
  unfold valid, max_us, toordinal. intros [H0 H1].
  assert (Hd : 0 < us_per_day) by reflexivity.
  assert (0 <= t / us_per_day) by (apply Z.div_pos; lia).
  assert (t / us_per_day < MAXORDINAL)
    by (apply Z.div_lt_upper_bound; lia).
  lia.
Qed.

(** The fields of a datetime pass the constructor's checks, and rebuild
    the datetime to the microsecond. *)
Lemma of_fields_to_fields (t : datetime) :
  valid t -> fields_ok (to_fields t) = true /\ of_fields (to_fields t) = Ok t.
Proof.
  intros Hv.
  assert (Hcal := ord2ymd_ok (toordinal t) (toordinal_range t Hv)).
  assert (Htod : 0 <= t mod us_per_day < us_per_day)
    by (apply Z.mod_pos_bound; reflexivity).
  destruct (time_of_day_fields _ Htod) as (Hh & Hm & Hs & Hu & Hsum).
  unfold of_fields, to_fields.
  destruct (ord2ymd (toordinal t)) as [[y m] d] eqn:Hymd.
  destruct Hcal as (Hy & Hmo & Hd & Hord).
  assert (Hok : fields_ok
            {| year := y; month := m; day := d;
               hour := t mod us_per_day / us_per_hour;
               minute := (t mod us_per_day) mod us_per_hour / us_per_minute;
               second := (t mod us_per_day) mod us_per_minute / us_per_second;
               microsecond := (t mod us_per_day) mod us_per_second |} = true).
  { unfold fields_ok. simpl.
    repeat (apply andb_true_intro; split);
      first [apply Z.leb_le | apply Z.ltb_lt]; lia. }
  split; [exact Hok|]. rewrite Hok. simpl. f_equal.
  rewrite Hord. unfold toordinal.
  assert (Hdm := Z.div_mod t us_per_day ltac:(discriminate)).
  lia.
Qed.

Lemma digit_val_char (d : Z) : 0 <= d <= 9 -> digit_val (digit_char d) = Some d.
Proof.
  intros H.
  assert (E : d = 0 \/ d = 1 \/ d = 2 \/ d = 3 \/ d = 4 \/ d = 5 \/ d = 6
              \/ d = 7 \/ d = 8 \/ d = 9) by lia.
  repeat (destruct E as [->|E]; [reflexivity|]). subst d. reflexivity.
Qed.

Lemma take_digits_app (k j : nat) : forall (a : Z) (s : string),
  take_digits (k + j) a s
  = match take_digits k a s with
    | Some (a', s') => take_digits j a' s'
    | None => None
    end.
Proof.
  induction k as [|k IH]; intros a s; simpl; [reflexivity|].
  destruct s as [|c s]; [reflexivity|].
  destruct (digit_val c); [apply IH|reflexivity].
Qed.

Lemma take_digits_zero_pad (w : nat) : forall (n a : Z) (rest : string),
  0 <= n < 10 ^ Z.of_nat w ->
  take_digits w a (zero_pad w n rest) = Some (a * 10 ^ Z.of_nat w + n, rest).
Proof.
  induction w as [|k IH]; intros n a rest Hn.
  - simpl in *. f_equal. f_equal. lia.
  - rewrite Nat2Z.inj_succ, Z.pow_succ_r in * by lia.
    assert (Hdm := Z.div_mod n 10 ltac:(discriminate)).
    assert (Hmod := Z.mod_pos_bound n 10 ltac:(reflexivity)).
    replace (S k) with (k + 1)%nat at 1 by lia. simpl zero_pad.
    rewrite take_digits_app, IH by lia.
    simpl. rewrite digit_val_char by lia. f_equal. f_equal. lia.
Qed.

Lemma read_zero_pad (w : nat) (n : Z) (rest : string) :
  0 <= n < 10 ^ Z.of_nat w ->
  take_digits w 0 (zero_pad w n rest) = Some (n, rest).
Proof. intros H. now rewrite take_digits_zero_pad. Qed.

Lemma fields_ok_bounds (f : fields) :
  fields_ok f = true ->
  0 <= year f < 10 ^ Z.of_nat 4 /\ 0 <= month f < 10 ^ Z.of_nat 2 /\
  0 <= day f < 10 ^ Z.of_nat 2 /\ 0 <= hour f < 10 ^ Z.of_nat 2 /\
  0 <= minute f < 10 ^ Z.of_nat 2 /\ 0 <= second f < 10 ^ Z.of_nat 2 /\
  0 <= microsecond f < 10 ^ Z.of_nat 6.
Proof.
  unfold fields_ok, MINYEAR, MAXYEAR. intros H.
  repeat (apply andb_prop in H as [H ?]).
  assert (Hdim : days_in_month (year f) (month f) <= 31).
  { unfold days_in_month, DAYS_IN_MONTH.
    destruct ((month f =? 2) && is_leap (year f)); [lia|].
    destruct (month f) as [|p|p]; try lia.
    do 4 (destruct p as [p|p|]; try lia). }
  change (10 ^ Z.of_nat 4) with 10000. change (10 ^ Z.of_nat 2) with 100.
  change (10 ^ Z.of_nat 6) with 1000000. lia.
Qed.

Lemma append_char (c : ascii) (s : string) :
  String.append (String c EmptyString) s = String c s.
Proof. reflexivity. Qed.

Lemma parse_iso_isoformat (t : datetime) :
  valid t -> parse_iso (isoformat t) = Some (to_fields t).
Proof.
  intros Hv. destruct (of_fields_to_fields t Hv) as [Hok _].
  apply fields_ok_bounds in Hok. unfold isoformat.
  destruct (to_fields t) as [y m d hh mi ss us]. simpl in Hok.
  destruct Hok as (Hy & Hm & Hd & Hhh & Hmi & Hss & Hus).
  cbn [year month day hour minute second microsecond].
  rewrite !append_char. unfold parse_iso.
  rewrite read_zero_pad by exact Hy. cbn -[zero_pad take_digits].
  rewrite read_zero_pad by exact Hm. cbn -[zero_pad take_digits].
  rewrite read_zero_pad by exact Hd. cbn -[zero_pad take_digits].
  unfold parse_time.
  rewrite read_zero_pad by exact Hhh. cbn -[zero_pad take_digits].
  rewrite read_zero_pad by exact Hmi. cbn -[zero_pad take_digits].
  rewrite read_zero_pad by exact Hss.
  destruct (Z.eqb_spec us 0) as [->|Hne]; [reflexivity|].
  cbn -[zero_pad take_digits]. unfold parse_fraction.
  rewrite read_zero_pad by exact Hus. reflexivity.
Qed.

(** A datetime written by [isoformat] is read back by [fromisoformat]
    unchanged, microseconds included. *)
Lemma fromisoformat_isoformat (t : datetime) :
  valid t -> fromisoformat (isoformat t) = Ok t.
Proof.
  intros Hv. unfold fromisoformat. rewrite (parse_iso_isoformat t Hv).
  apply of_fields_to_fields, Hv.
Qed.

End IsoFormat.

(** ** The date string names the day *)

Section DateString.

Import DateTime.

Lemma parse_iso_date_str (t : datetime) :
  valid t ->
  parse_iso (date_str t)
  = Some (mkFields (year (to_fields t)) (month (to_fields t)) (day (to_fields t))
                   0 0 0 0).
Proof.
  intros Hv. destruct (of_fields_to_fields t Hv) as [Hok _].
  apply fields_ok_bounds in Hok. unfold date_str.
  destruct (to_fields t) as [y m d hh mi ss us]. simpl in Hok.
  destruct Hok as (Hy & Hm & Hd & _).
  cbn [year month day]. rewrite !append_char. unfold parse_iso.
  rewrite read_zero_pad by exact Hy. cbn -[zero_pad take_digits].
  rewrite read_zero_pad by exact Hm. cbn -[zero_pad take_digits].
  rewrite read_zero_pad by exact Hd. reflexivity.
Qed.

Lemma to_fields_date (t : datetime) :
  valid t ->
  ymd2ord (year (to_fields t)) (month (to_fields t)) (day (to_fields t))
  = toordinal t.
Proof.
  intros Hv. assert (H := ord2ymd_ok (toordinal t) (toordinal_range t Hv)).
  unfold to_fields. destruct (ord2ymd (toordinal t)) as [[y m] d]. simpl.
  apply H.
Qed.

Lemma date_str_inj (a b : datetime) :
  valid a -> valid b -> date_str a = date_str b -> toordinal a = toordinal b.
Proof.
  intros Ha Hb E.
  assert (P : parse_iso (date_str a) = parse_iso (date_str b)) by now rewrite E.
  rewrite (parse_iso_date_str a Ha), (parse_iso_date_str b Hb) in P.
  injection P as Ey Em Ed.
  rewrite <- (to_fields_date a Ha), <- (to_fields_date b Hb).
  now rewrite Ey, Em, Ed.
Qed.

Lemma fromisoformat_date_str (t : datetime) :
  valid t -> fromisoformat (date_str t) = Ok ((toordinal t - 1) * us_per_day).
Proof.
  intros Hv. unfold fromisoformat. rewrite (parse_iso_date_str t Hv).
  destruct (of_fields_to_fields t Hv) as [Hok _].
  pose proof (to_fields_date t Hv) as Hord.
  unfold of_fields, fields_ok in *.
  destruct (to_fields t) as [y m d hh mi ss us]. cbn [year month day hour minute second microsecond] in *.
  repeat (apply andb_prop in Hok as [Hok ?]).
  repeat (match goal with H : ?b = true |- context [?b] => rewrite H end).
  cbn [andb Z.leb Z.ltb Z.compare]. rewrite Hord. f_equal. lia.
Qed.

End DateString.

(** ** DailyTask: one entry per day *)

(** C3, as stated, fails: the log of a task is whatever the constructor
    was given.  [DailyTask.from_dict] reads a log that holds 2024-01-01
    twice; two calls of [complete_today()] on that Monday leave both
    entries, so the day's date appears twice and not exactly once.  And on
    a day the task is not scheduled for, two calls leave no entry for the
    day. *)
Lemma complete_today_twice_not_one :
  let monday := 63839664000000000 in
  let tuesday := monday + DateTime.us_per_day in
  let data :=
    Json.Dict
      [ ("name", Json.Str "Exercise");
        ("days_of_week", Json.List [Json.Int 0; Json.Int 2; Json.Int 4]);
        ("completed_dates",
         Json.List [Json.Str "2024-01-01"; Json.Str "2024-01-01"]) ]%string in
  let loaded :=
    DailyTask.mk "Exercise" [0; 2; 4] ["2024-01-01"; "2024-01-01"]%string in
  let new := DailyTask.construct "Exercise" [0; 2; 4] in
  let twice := fun (t : DateTime.datetime) (task : DailyTask.t) =>
    DailyTask.complete_today t t (DailyTask.complete_today t t task) in
  DailyTaskDict.from_dict data = Ok loaded /\
  DateTime.date_str monday = "2024-01-01"%string /\
  DateTime.weekday monday = 0 /\
  DailyTask.occurrences "2024-01-01"
    (DailyTask.completed_dates (twice monday loaded)) = 2%nat /\
  DateTime.date_str tuesday = "2024-01-02"%string /\
  DailyTask.occurrences "2024-01-02"
    (DailyTask.completed_dates (twice tuesday new)) = 0%nat.
Proof. repeat split. Qed.

(** C3, amended.  Let both clock readings of [complete_today()] fall on the
    day [D].  The call appends [D]'s date string to [completed_dates]
    exactly when [D]'s weekday is in [days_of_week] and the string is not yet
    in the log; otherwise it returns normally and changes nothing.  A second
    call on the same day changes nothing.  After the two calls the log holds
    [D] once if the first call appended it, and as often as before
    otherwise: none is added on a day that is not scheduled, and the log
    holds [D] more than once only if it did already.  A log without
    repetitions stays so, and then holds [D] exactly once when the task is
    scheduled on [D]; every log grown from a newly constructed task is
    without repetitions.  The string is the ISO date of the day: for a
    clock reading that is a datetime, [fromisoformat] reads it back as the
    day's midnight, and another reading gives the same string exactly on
    the same day. *)
Theorem complete_today_once :
  forall (now now' again again' : DateTime.datetime) (self : DailyTask.t),
    DateTime.toordinal now' = DateTime.toordinal now ->
    DateTime.toordinal again = DateTime.toordinal now ->
    DateTime.toordinal again' = DateTime.toordinal now ->
    let D := DateTime.date_str now in
    let loggable :=
      DateTime.weekday now ∈ DailyTask.days_of_week self /\
      D ∉ DailyTask.completed_dates self in
    let after := DailyTask.complete_today now now' self in
    (loggable ->
       after = DailyTask.mk (DailyTask.name self) (DailyTask.days_of_week self)
                 (DailyTask.completed_dates self ++ [D])) /\
    (~ loggable -> after = self) /\
    (DailyTask.completed_dates after = DailyTask.completed_dates self ++ [D]
       <-> loggable) /\
    DailyTask.complete_today again again' after = after /\
    (loggable -> DailyTask.occurrences D (DailyTask.completed_dates after) = 1%nat) /\
    (~ loggable ->
       DailyTask.occurrences D (DailyTask.completed_dates after)
       = DailyTask.occurrences D (DailyTask.completed_dates self)) /\
    (NoDup (DailyTask.completed_dates self) ->
       NoDup (DailyTask.completed_dates after) /\
       (DailyTask.occurrences D (DailyTask.completed_dates after) <= 1)%nat /\
       (DateTime.weekday now ∈ DailyTask.days_of_week self ->
          DailyTask.occurrences D (DailyTask.completed_dates after) = 1%nat)) /\
    (forall name days calls,
       NoDup (DailyTask.completed_dates
                (DailyTask.run calls (DailyTask.construct name days)))) /\
    (DateTime.valid now ->
       DateTime.fromisoformat D
       = Ok ((DateTime.toordinal now - 1) * DateTime.us_per_day) /\
       forall other, DateTime.valid other ->
         (DateTime.date_str other = D
          <-> DateTime.toordinal other = DateTime.toordinal now)).
Proof.
  intros now now' again again' self Hnow' Hagain Hagain' D loggable after.
  destruct (complete_today_cases now now' self Hnow') as [Hyes Hno].
  fold D in Hyes, Hno. fold loggable in Hyes, Hno. fold after in Hyes, Hno.
  assert (Hdec : loggable \/ ~ loggable).
  { destruct (decide (DateTime.weekday now ∈ DailyTask.days_of_week self));
    destruct (decide (D ∈ DailyTask.completed_dates self));
    unfold loggable; tauto. }
  assert (Hone : loggable ->
    DailyTask.occurrences D (DailyTask.completed_dates after) = 1%nat).
  { intros H. rewrite (Hyes H). simpl. rewrite occurrences_app, occurrences_self.
    rewrite occurrences_absent by apply H. reflexivity. }
  assert (HD : DateTime.date_str again = D)
    by (apply date_str_same_day, Hagain).
  assert (Hwd : DateTime.weekday again = DateTime.weekday now)
    by (apply weekday_same_day, Hagain).
  split; [exact Hyes|]. split; [exact Hno|]. split.
  { split; [|intros H; now rewrite (Hyes H)].
    intros E. destruct Hdec as [H|H]; [exact H|]. rewrite (Hno H) in E.
    apply (f_equal length) in E. rewrite length_app in E. simpl in E. lia. }
  split.
  { destruct Hdec as [H|H].
    - apply complete_today_logged. rewrite HD, (Hyes H). simpl.
      apply elem_of_app. right. now apply list_elem_of_singleton.
    - rewrite (Hno H).
      apply (complete_today_cases again again' self); [congruence|].
      rewrite HD, Hwd. exact H. }
  split; [exact Hone|]. split; [intros H; now rewrite (Hno H)|]. split.
  { intros Hnd. split; [apply complete_today_NoDup, Hnd|].
    assert (Hle : (DailyTask.occurrences D (DailyTask.completed_dates after) <= 1)%nat)
      by (apply occurrences_NoDup, complete_today_NoDup, Hnd).
    split; [exact Hle|]. intros Hact.
    destruct Hdec as [H|H]; [exact (Hone H)|].
    rewrite (Hno H) in *.
    assert (Hin : D ∈ DailyTask.completed_dates self).
    { destruct (decide (D ∈ DailyTask.completed_dates self)) as [Hin|Hnin];
        [exact Hin|]. exfalso. apply H. split; assumption. }
    apply occurrences_present in Hin. lia. }
  split.
  { intros name days calls. apply run_NoDup. simpl. apply NoDup_nil_2. }
  intros Hv. split; [now apply fromisoformat_date_str|].
  intros other Hother. split; [now apply date_str_inj|apply date_str_same_day].
Qed.

(** The scenario of the specification: "Exercise" on Monday, Wednesday and
    Friday, marked done twice on Monday 2024-01-01. *)
Lemma complete_today_once_witness :
  let monday := 63839664000000000 in
  let exercise := DailyTask.construct "Exercise" [0; 2; 4] in
  let after := DailyTask.complete_today (monday + 7) (monday + 8) exercise in
  DailyTask.completed_dates after = ["2024-01-01"%string] /\
  DailyTask.complete_today (monday + 9) (monday + 10) after = after.
Proof.
  intros monday exercise after.
  destruct (complete_today_once (monday + 7) (monday + 8) (monday + 9) (monday + 10)
              exercise eq_refl eq_refl eq_refl)
    as (Hyes & _ & _ & Hidem & _).
  split; [|exact Hidem].
  fold after in Hyes. rewrite Hyes; [reflexivity|].
  split.
  - replace (DateTime.weekday (monday + 7)) with 0 by reflexivity.
    simpl. apply list_elem_of_here.
  - simpl. apply not_elem_of_nil.
Defined.

(** On Tuesday 2024-01-02 the same task is inactive: the call is a no-op. *)
Example complete_today_inactive :
  let tuesday := 63839664000000000 + DateTime.us_per_day in
  let exercise := DailyTask.construct "Exercise" [0; 2; 4] in
  DateTime.weekday tuesday = 1 /\
  DailyTask.complete_today tuesday tuesday exercise = exercise.
Proof. split; reflexivity. Qed.

(** ** The snapshot: saving and loading *)

Section RoundTrip.

Lemma mapM_map {A B : Type} (f : B -> result A) (g : A -> B) (l : list A) :
  Forall (fun x => f (g x) = Ok x) l -> mapM f (map g l) = Ok l.
Proof.
  induction 1 as [|x l Hx Hl IH]; simpl; [reflexivity|].
  now rewrite Hx, IH.
Qed.

Lemma goal_from_dict_to_dict (g : Goal.t) :
  DateTime.valid (Goal.created_at g) ->
  GoalDict.from_dict (GoalDict.to_dict g) = Ok g.
Proof.
  destruct g as [name days created completed failed]. simpl. intros Hv.
  unfold GoalDict.from_dict, GoalDict.to_dict.
  cbn -[DateTime.isoformat DateTime.fromisoformat].
  rewrite (fromisoformat_isoformat created Hv). reflexivity.
Qed.

Lemma task_from_dict_to_dict (t : DailyTask.t) :
  DailyTaskDict.from_dict (DailyTaskDict.to_dict t) = Ok t.
Proof.
  destruct t as [name days dates].
  unfold DailyTaskDict.from_dict, DailyTaskDict.to_dict.
  cbn -[mapM].
  rewrite (mapM_map Json.as_int Json.Int days)
    by (apply Forall_forall; reflexivity).
  cbn -[mapM].
  rewrite (mapM_map Json.as_str Json.Str dates)
    by (apply Forall_forall; reflexivity).
  cbn. unfold DailyTask.init. destruct dates; reflexivity.
Qed.

End RoundTrip.

(** C4. Loading the snapshot that [save_data] writes for the goals [G] and
    the daily tasks [T] returns [G] and [T], equal field for field (the
    [created_at] of every goal being a datetime of the type's range).  In
    particular every creation time is read back to the microsecond, so the
    deadline date and the days left of a reloaded goal are those of the
    original, at every clock reading. *)
Theorem load_save_round_trip :
  forall (goals : list Goal.t) (daily_tasks : list DailyTask.t),
    Forall (fun g => DateTime.valid (Goal.created_at g)) goals ->
    DataManager.load_data (DataManager.save_data goals daily_tasks)
    = Ok (goals, daily_tasks) /\
    Forall (fun g =>
              DateTime.fromisoformat (DateTime.isoformat (Goal.created_at g))
              = Ok (Goal.created_at g)) goals /\
    forall goals' daily_tasks',
      DataManager.load_data (DataManager.save_data goals daily_tasks)
      = Ok (goals', daily_tasks') ->
      map Goal.name goals' = map Goal.name goals /\
      map Goal.deadline_days goals' = map Goal.deadline_days goals /\
      map Goal.created_at goals' = map Goal.created_at goals /\
      map Goal.completed goals' = map Goal.completed goals /\
      map Goal.failed goals' = map Goal.failed goals /\
      map Goal.deadline_date goals' = map Goal.deadline_date goals /\
      (forall now, map (Goal.days_left now) goals' = map (Goal.days_left now) goals) /\
      daily_tasks' = daily_tasks.
Proof.
  intros goals tasks Hvalid.
  assert (Hload : DataManager.load_data (DataManager.save_data goals tasks)
                  = Ok (goals, tasks)).
  { unfold DataManager.load_data, DataManager.save_data.
    cbn -[mapM GoalDict.from_dict GoalDict.to_dict
          DailyTaskDict.from_dict DailyTaskDict.to_dict].
    rewrite (mapM_map GoalDict.from_dict GoalDict.to_dict goals).
    - cbn -[mapM DailyTaskDict.from_dict DailyTaskDict.to_dict].
      rewrite (mapM_map DailyTaskDict.from_dict DailyTaskDict.to_dict tasks).
      + reflexivity.
      + apply Forall_forall. intros t _. apply task_from_dict_to_dict.
    - eapply Forall_impl; [exact Hvalid|].
      intros g Hg. now apply goal_from_dict_to_dict. }
  split; [exact Hload|]. split.
  - eapply Forall_impl; [exact Hvalid|].
    intros g Hg. now apply fromisoformat_isoformat.
  - intros goals' tasks' H. rewrite Hload in H. injection H as <- <-.
    repeat split.
Qed.

(** A goal created at 2024-01-01T08:30:00.250000 and a task with an empty
    log and a single day come back as they were. *)
Lemma load_save_round_trip_witness :
  let g := Goal.mk "Ship report" 7 63839694600250000 false false in
  let t := DailyTask.mk "Exercise" [0] [] in
  DataManager.load_data (DataManager.save_data [g] [t]) = Ok ([g], [t]).
Proof.
  intros g t.
  refine (proj1 (load_save_round_trip [g] [t] _)).
  constructor; [|constructor].
  vm_compute. split; [discriminate|reflexivity].
Defined.

(** * Further properties of the code *)

(** ** Goal: the sweep and the days left agree *)

(** X1. At one clock reading and with a deadline date that is a datetime,
    [check_failed()] returns true exactly on a goal that is neither
    completed nor failed and whose [days_left] is negative: the goal fails
    in the sweep that first sees a negative number of days. *)
Theorem check_failed_iff_days_left_negative :
  forall (now dl : DateTime.datetime) (g : Goal.t),
    Goal.deadline_date g = Ok dl ->
    (fst (Goal.check_failed now g) = Ok true <->
     Goal.completed g = false /\ Goal.failed g = false /\
     exists k, Goal.days_left now g = Ok k /\ k < 0).
Proof.
  intros now dl g Hdl.
  assert (Hleft : Goal.days_left now g = Ok ((dl - now) / DateTime.us_per_day))
    by (unfold Goal.days_left; now rewrite Hdl).
  assert (Hneg : (dl - now) / DateTime.us_per_day < 0 <-> dl < now).
  { change DateTime.us_per_day with 86400000000.
    split; intros H; Z.div_mod_to_equations; lia. }
  unfold Goal.check_failed. rewrite Hdl. unfold DateTime.gt.
  destruct (Goal.completed g), (Goal.failed g); simpl;
    try (split; [discriminate|intros (? & ? & _); discriminate]).
  destruct (Z.ltb_spec dl now) as [Hlt|Hge]; simpl.
  - split; [|reflexivity]. intros _. repeat split.
    eexists. split; [exact Hleft|]. now apply Hneg.
  - split; [discriminate|]. intros (_ & _ & k & Hk & Hk0).
    rewrite Hleft in Hk. injection Hk as <-. apply Hneg in Hk0. lia.
Qed.

(** A goal of zero days, one second after its creation. *)
Lemma check_failed_iff_days_left_negative_witness :
  let g := Goal.construct 63839664000000000 "Ship report" 0 in
  let now := 63839664000000000 + DateTime.us_per_second in
  fst (Goal.check_failed now g) = Ok true <->
  Goal.completed g = false /\ Goal.failed g = false /\
  exists k, Goal.days_left now g = Ok k /\ k < 0.
Proof.
  intros g now.
  apply (check_failed_iff_days_left_negative now 63839664000000000 g).
  reflexivity.
Defined.

(** ** Goal: the days left as time passes *)

(** X2. When [days_left] is [d] at some clock reading, it is [d - k]
    exactly [k] days later (or [-k] days earlier), and at any later reading
    it has a value that is at most [d]: the number shown never grows with
    time and loses one per elapsed day. *)
Theorem days_left_elapsed :
  forall (now : DateTime.datetime) (g : Goal.t) (d : Z),
    Goal.days_left now g = Ok d ->
    (forall k, Goal.days_left (now + k * DateTime.us_per_day) g = Ok (d - k)) /\
    (forall later, now <= later ->
       exists d', Goal.days_left later g = Ok d' /\ d' <= d).
Proof.
  intros now g d H. unfold Goal.days_left in *.
  destruct (Goal.deadline_date g) as [dl|e]; simpl in *; [|discriminate].
  injection H as <-. unfold DateTime.sub_days. split.
  - intros k. f_equal.
    replace (dl - (now + k * DateTime.us_per_day))
      with (dl - now + (- k) * DateTime.us_per_day) by lia.
    rewrite Z_div_plus_full by discriminate. lia.
  - intros later Hle. eexists. split; [reflexivity|].
    apply Z.div_le_mono; [reflexivity|lia].
Qed.

(** Seven days left at creation, four left three days later. *)
Lemma days_left_elapsed_witness :
  let now := 63839664000000000 in
  let g := Goal.construct now "Read a book" 7 in
  Goal.days_left (now + 3 * DateTime.us_per_day) g = Ok (7 - 3).
Proof.
  intros now g.
  destruct (days_left_elapsed now g 7 eq_refl) as [Hk _]. apply Hk.
Defined.

(** ** DailyTask: the log only grows *)

Section DailyTaskMore.

Import DailyTask.

Lemma weekday_range (t : DateTime.datetime) : 0 <= DateTime.weekday t <= 6.
Proof.
  unfold DateTime.weekday.
  assert (H := Z.mod_pos_bound (DateTime.toordinal t + 6) 7 ltac:(reflexivity)).
  lia.
Qed.

Lemma complete_today_grows (now now' : DateTime.datetime) (self : DailyTask.t) :
  name (complete_today now now' self) = name self /\
  days_of_week (complete_today now now' self) = days_of_week self /\
  (completed_dates (complete_today now now' self) = completed_dates self \/
   completed_dates (complete_today now now' self)
   = completed_dates self ++ [DateTime.date_str now]).
Proof.
  unfold complete_today.
  destruct (negb _ && _); simpl; auto.
Qed.

End DailyTaskMore.

(** X3. After [complete_today()], on the same day, [is_completed_today] is
    true exactly when the task is active that day or had been marked
    before: the mark is set on every active day and never on an inactive
    one. *)
Theorem is_completed_today_after_complete :
  forall (now now' later : DateTime.datetime) (self : DailyTask.t),
    DateTime.toordinal now' = DateTime.toordinal now ->
    DateTime.toordinal later = DateTime.toordinal now ->
    DailyTask.is_completed_today later (DailyTask.complete_today now now' self)
    = DailyTask.is_completed_today now self || DailyTask.is_active_today now self.
Proof.
  intros now now' later self Hnow' Hlater.
  unfold DailyTask.is_completed_today, DailyTask.complete_today,
    DailyTask.is_active_today.
  rewrite (date_str_same_day _ _ Hlater), (weekday_same_day _ _ Hnow').
  destruct (bool_decide_reflect
              (DateTime.date_str now ∈ DailyTask.completed_dates self)) as [Hin|Hnin];
    simpl.
  - now apply bool_decide_eq_true_2.
  - destruct (bool_decide (DateTime.weekday now ∈ DailyTask.days_of_week self));
      simpl.
    + apply bool_decide_eq_true_2, elem_of_app. right.
      now apply list_elem_of_singleton.
    + now apply bool_decide_eq_false_2.
Qed.

(** Monday 2024-01-01, a task of Mondays: marked after the call. *)
Lemma is_completed_today_after_complete_witness :
  let monday := 63839664000000000 in
  let task := DailyTask.construct "Exercise" [0] in
  DailyTask.is_completed_today (monday + 9)
    (DailyTask.complete_today monday (monday + 1) task) = true.
Proof.
  intros monday task.
  rewrite (is_completed_today_after_complete monday (monday + 1) (monday + 9) task
             eq_refl eq_refl).
  reflexivity.
Defined.

(** X4. Whatever the clock readings, a sequence of [complete_today()]
    calls never changes the name or the scheduled days of a task, never
    removes or reorders an entry of the log (the old log is a prefix of
    the new one), and adds at most one entry per call. *)
Theorem complete_today_append_only :
  forall (calls : list (DateTime.datetime * DateTime.datetime))
         (self : DailyTask.t),
    let after := DailyTask.run calls self in
    DailyTask.name after = DailyTask.name self /\
    DailyTask.days_of_week after = DailyTask.days_of_week self /\
    DailyTask.completed_dates self `prefix_of` DailyTask.completed_dates after /\
    (length (DailyTask.completed_dates after)
     <= length (DailyTask.completed_dates self) + length calls)%nat.
Proof.
  unfold DailyTask.run. induction calls as [|[now now'] calls IH]; intros self.
  - simpl. repeat split; [reflexivity|]. lia.
  - simpl. specialize (IH (DailyTask.complete_today now now' self)).
    destruct (complete_today_grows now now' self) as (Hn & Hd & Hc).
    destruct IH as (IHn & IHd & IHp & IHl).
    rewrite Hn in IHn. rewrite Hd in IHd.
    split; [exact IHn|]. split; [exact IHd|].
    destruct Hc as [Hc|Hc]; rewrite Hc in IHp, IHl.
    + split; [exact IHp|]. lia.
    + split.
      * etransitivity; [|exact IHp]. now apply prefix_app_r.
      * rewrite length_app in IHl. simpl in IHl. lia.
Qed.

(** X5. A task none of whose scheduled days is one of 0..6 (in particular
    one with no day at all) is never active, and no sequence of
    [complete_today()] calls ever changes it: [add_daily_task] accepts such
    a task, and it can then never be marked done. *)
Theorem never_active_without_weekday :
  forall self : DailyTask.t,
    (forall d, d ∈ DailyTask.days_of_week self -> d < 0 \/ 6 < d) ->
    (forall now, DailyTask.is_active_today now self = false) /\
    (forall calls, DailyTask.run calls self = self).
Proof.
  intros self Hout.
  assert (Hinactive : forall now, DailyTask.is_active_today now self = false).
  { intros now. apply bool_decide_eq_false_2. intros Hin.
    assert (Hr := weekday_range now). apply Hout in Hin. lia. }
  split; [exact Hinactive|].
  unfold DailyTask.run. induction calls as [|[now now'] calls IH]; [reflexivity|].
  simpl. unfold DailyTask.complete_today at 2. rewrite Hinactive, andb_false_r.
  exact IH.
Qed.

(** A task scheduled on "day 7" stays as it is, whenever it is marked. *)
Lemma never_active_without_weekday_witness :
  let task := DailyTask.construct "Exercise" [7] in
  DailyTask.is_active_today 63839664000000000 task = false /\
  DailyTask.run [(63839664000000000, 63839664000000001)] task = task.
Proof.
  intros task.
  destruct (never_active_without_weekday task) as [Hinactive Hrun].
  - intros d Hd. apply list_elem_of_singleton in Hd. subst d. right. reflexivity.
  - split; [apply Hinactive|apply Hrun].
Defined.

(** X6. Two clock readings give the same [today_str] exactly when they
    fall on the same day.  Hence marking a task on two different days on
    which it is active, neither of them logged yet, adds the two dates to
    the log, in that order. *)
Theorem complete_today_two_days :
  forall (a a' b b' : DateTime.datetime) (self : DailyTask.t),
    DateTime.valid a -> DateTime.valid b ->
    DateTime.toordinal a' = DateTime.toordinal a ->
    DateTime.toordinal b' = DateTime.toordinal b ->
    (DateTime.date_str a = DateTime.date_str b
       <-> DateTime.toordinal a = DateTime.toordinal b) /\
    (DateTime.toordinal a <> DateTime.toordinal b ->
     DateTime.weekday a ∈ DailyTask.days_of_week self ->
     DateTime.weekday b ∈ DailyTask.days_of_week self ->
     DateTime.date_str a ∉ DailyTask.completed_dates self ->
     DateTime.date_str b ∉ DailyTask.completed_dates self ->
     DailyTask.completed_dates
       (DailyTask.complete_today b b' (DailyTask.complete_today a a' self))
     = DailyTask.completed_dates self
         ++ [DateTime.date_str a; DateTime.date_str b]).
Proof.
  intros a a' b b' self Ha Hb Ha' Hb'.
  assert (Hiff : DateTime.date_str a = DateTime.date_str b
                 <-> DateTime.toordinal a = DateTime.toordinal b).
  { split; [now apply date_str_inj|apply date_str_same_day]. }
  split; [exact Hiff|].
  intros Hne Hwa Hwb Hna Hnb.
  destruct (complete_today_cases a a' self Ha') as [Hyes _].
  rewrite (Hyes (conj Hwa Hna)).
  destruct (complete_today_cases b b'
              (DailyTask.mk (DailyTask.name self) (DailyTask.days_of_week self)
                 (DailyTask.completed_dates self ++ [DateTime.date_str a])) Hb')
    as [Hyes' _].
  rewrite Hyes'.
  - simpl. now rewrite <- app_assoc.
  - simpl. split; [exact Hwb|].
    intros Hin. apply elem_of_app in Hin as [Hin|Hin]; [now apply Hnb|].
    apply list_elem_of_singleton in Hin. apply Hne, Hiff. now symmetry.
Qed.

(** Monday 2024-01-01 and Wednesday 2024-01-03. *)
Lemma complete_today_two_days_witness :
  let monday := 63839664000000000 in
  let wednesday := monday + 2 * DateTime.us_per_day in
  let task := DailyTask.construct "Exercise" [0; 2; 4] in
  DailyTask.completed_dates
    (DailyTask.complete_today wednesday (wednesday + 1)
       (DailyTask.complete_today monday (monday + 1) task))
  = ["2024-01-01"; "2024-01-03"]%string.
Proof.
  intros monday wednesday task.
  destruct (complete_today_two_days monday (monday + 1) wednesday (wednesday + 1) task)
    as [_ Htwo].
  - vm_compute. split; [discriminate|reflexivity].
  - vm_compute. split; [discriminate|reflexivity].
  - reflexivity.
  - reflexivity.
  - rewrite Htwo; [reflexivity|vm_compute; discriminate| | |simpl; apply not_elem_of_nil
                  |simpl; apply not_elem_of_nil].
    + replace (DateTime.weekday monday) with 0 by reflexivity.
      simpl. apply list_elem_of_here.
    + replace (DateTime.weekday wednesday) with 2 by reflexivity.
      simpl. apply list_elem_of_further, list_elem_of_here.
Defined.

(** ** What is loaded can be saved and loaded again *)

Section LoadedValues.

Import DateTime.

Lemma days_before_year_succ (y : Z) :
  days_before_year (y + 1) = days_before_year y + 365 + (if is_leap y then 1 else 0).
Proof.
  unfold days_before_year, is_leap. cbv zeta.
  replace (y + 1 - 1) with y by lia.
  destruct (Z.eqb_spec (y mod 4) 0), (Z.eqb_spec (y mod 100) 0),
    (Z.eqb_spec (y mod 400) 0); simpl; Z.div_mod_to_equations; lia.
Qed.

Lemma days_before_year_mono (y y' : Z) :
  y <= y' -> days_before_year y <= days_before_year y'.
Proof.
  intros H. unfold days_before_year. cbv zeta.
  Z.div_mod_to_equations. lia.
Qed.

Lemma ymd2ord_range (y m d : Z) :
  MINYEAR <= y <= MAXYEAR -> 1 <= m <= 12 -> 1 <= d <= days_in_month y m ->
  1 <= ymd2ord y m d <= MAXORDINAL.
Proof.
  unfold MINYEAR, MAXYEAR, MAXORDINAL. intros Hy Hm Hd.
  assert (H1 : days_before_year 1 <= days_before_year y)
    by (apply days_before_year_mono; lia).
  assert (H2 : days_before_year (y + 1) <= days_before_year 10000)
    by (apply days_before_year_mono; lia).
  rewrite days_before_year_succ in H2.
  change (days_before_year 1) with 0 in H1.
  change (days_before_year 10000) with 3652059 in H2.
  unfold ymd2ord, days_before_month, days_in_month in *.
  assert (E : m = 1 \/ m = 2 \/ m = 3 \/ m = 4 \/ m = 5 \/ m = 6 \/ m = 7
              \/ m = 8 \/ m = 9 \/ m = 10 \/ m = 11 \/ m = 12) by lia.
  destruct (is_leap y);
    repeat (destruct E as [->|E]; [simpl in *; lia|]); subst m; simpl in *; lia.
Qed.

Lemma of_fields_valid (f : fields) (t : datetime) :
  of_fields f = Ok t -> valid t.
Proof.
  unfold of_fields. destruct (fields_ok f) eqn:Hok; [|discriminate].
  intros [= <-]. unfold fields_ok in Hok.
  repeat (apply andb_prop in Hok as [Hok ?]).
  assert (Hord := ymd2ord_range (year f) (month f) (day f)
                    ltac:(lia) ltac:(lia) ltac:(lia)).
  unfold valid, max_us, MAXORDINAL in *.
  change us_per_day with 86400000000. change us_per_hour with 3600000000.
  change us_per_minute with 60000000. change us_per_second with 1000000.
  lia.
Qed.

Lemma fromisoformat_valid (s : string) (t : datetime) :
  fromisoformat s = Ok t -> valid t.
Proof.
  unfold fromisoformat. destruct (parse_iso s); [apply of_fields_valid|discriminate].
Qed.

Lemma bind_Ok {A B : Type} (r : result A) (k : A -> result B) (b : B) :
  Py.bind r k = Ok b -> exists a, r = Ok a /\ k a = Ok b.
Proof. destruct r as [a|e]; simpl; [eauto|discriminate]. Qed.

Lemma from_dict_valid (data : Json.value) (g : Goal.t) :
  GoalDict.from_dict data = Ok g -> valid (Goal.created_at g).
Proof.
  unfold GoalDict.from_dict, mbind, result_bind. intros H.
  repeat (apply bind_Ok in H as (? & ? & H)).
  injection H as <-. simpl. eapply fromisoformat_valid. eassumption.
Qed.

Lemma mapM_Forall {A B : Type} (f : A -> result B) (P : B -> Prop) (l : list A) :
  (forall x y, f x = Ok y -> P y) ->
  forall l', mapM f l = Ok l' -> Forall P l'.
Proof.
  intros Hf. induction l as [|x l IH]; simpl; intros l' H.
  - injection H as <-. constructor.
  - apply bind_Ok in H as (y & Hy & H). apply bind_Ok in H as (ys & Hys & H).
    injection H as <-. constructor; eauto.
Qed.

Lemma load_data_valid (f : DataManager.file) (goals : list Goal.t)
    (tasks : list DailyTask.t) :
  DataManager.load_data f = Ok (goals, tasks) ->
  Forall (fun g => valid (Goal.created_at g)) goals.
Proof.
  unfold DataManager.load_data. destruct f as [data|].
  - unfold mbind, result_bind. intros H.
    repeat (apply bind_Ok in H as (? & ? & H)).
    injection H as <- <-.
    eapply mapM_Forall; [|eassumption]. apply from_dict_valid.
  - intros [= <- <-]. constructor.
Qed.

Lemma load_data_save_data (goals : list Goal.t) (tasks : list DailyTask.t) :
  Forall (fun g => valid (Goal.created_at g)) goals ->
  DataManager.load_data (DataManager.save_data goals tasks) = Ok (goals, tasks).
Proof.
  intros Hvalid. unfold DataManager.load_data, DataManager.save_data.
  cbn -[mapM GoalDict.from_dict GoalDict.to_dict
        DailyTaskDict.from_dict DailyTaskDict.to_dict].
  rewrite (mapM_map GoalDict.from_dict GoalDict.to_dict goals).
  - cbn -[mapM DailyTaskDict.from_dict DailyTaskDict.to_dict].
    rewrite (mapM_map DailyTaskDict.from_dict DailyTaskDict.to_dict tasks).
    + reflexivity.
    + apply Forall_forall. intros t _. apply task_from_dict_to_dict.
  - eapply Forall_impl; [exact Hvalid|].
    intros g Hg. now apply goal_from_dict_to_dict.
Qed.

End LoadedValues.



(** The date 2024-02-30 is refused. *)
Example fromisoformat_refuses_bad_date :
  DateTime.fromisoformat "2024-02-30T10:00:00" = Raise ValueError /\
  DateTime.fromisoformat "2024-02-29T10:00:00" = Ok 63844797600000000.
Proof. split; reflexivity. Qed.

(** ** GoalManager: a restart finds what was saved *)

Section Restart.

Import GoalManager.

Lemma alloc_all_spec {A : Type} (xs : list A) : forall h : gmap positive A,
  deref (snd (alloc_all h xs)) (fst (alloc_all h xs)) = xs /\
  NoDup (fst (alloc_all h xs)) /\
  (forall r, r ∈ fst (alloc_all h xs) -> h !! r = None) /\
  (forall r, r ∈ fst (alloc_all h xs) -> is_Some (snd (alloc_all h xs) !! r)) /\
  (forall r, is_Some (h !! r) -> snd (alloc_all h xs) !! r = h !! r).
Proof.
  induction xs as [|x xs IH]; intros h.
  - simpl. split; [reflexivity|]. split; [apply NoDup_nil_2|].
    split; [|split]; try (intros r Hr; now apply elem_of_nil in Hr).
    reflexivity.
  - simpl. unfold alloc.
    set (r := fresh (dom h)). set (h1 := <[r := x]> h).
    specialize (IH h1).
    destruct (alloc_all h1 xs) as [rs h2]. simpl in *.
    destruct IH as (Hd & Hn & Hnew & Hlive & Hkeep).
    assert (Hr1 : h1 !! r = Some x) by apply lookup_insert_eq.
    assert (Hr2 : h2 !! r = Some x) by (rewrite Hkeep; [exact Hr1|eauto]).
    assert (Hfresh : h !! r = None) by apply fresh_unused.
    repeat split.
    + unfold deref in *. csimpl. rewrite Hr2. simpl. now rewrite Hd.
    + apply NoDup_cons. split; [|exact Hn].
      intros Hin. apply Hnew in Hin. congruence.
    + intros q Hq. apply elem_of_cons in Hq as [->|Hq]; [exact Hfresh|].
      apply Hnew in Hq. unfold h1 in Hq.
      apply lookup_insert_None in Hq. tauto.
    + intros q Hq. apply elem_of_cons in Hq as [->|Hq]; [eauto|now apply Hlive].
    + intros q Hq.
      assert (Hne : r <> q).
      { intros E. subst q. destruct Hq as [y Hy].
        pose proof (eq_trans (eq_sym Hy) Hfresh) as Habs. discriminate Habs. }
      assert (Hq1 : h1 !! q = h !! q) by (unfold h1; now apply lookup_insert_ne).
      rewrite Hkeep; [exact Hq1|]. now rewrite Hq1.
Qed.

Lemma empty_wf (f : DataManager.file) : wf (empty f).
Proof.
  repeat split; simpl; try apply NoDup_nil_2;
    intros r Hr; now apply elem_of_nil in Hr.
Qed.

Lemma load_data_loaded (f : DataManager.file) (gs : list Goal.t)
    (ts : list DailyTask.t) :
  DataManager.load_data f = Ok (gs, ts) ->
  fst (load_data (empty f)) = Ok tt /\
  deref (goal_heap (snd (load_data (empty f)))) (goals (snd (load_data (empty f)))) = gs /\
  deref (task_heap (snd (load_data (empty f))))
        (daily_tasks (snd (load_data (empty f)))) = ts /\
  disk (snd (load_data (empty f))) = f /\
  wf (snd (load_data (empty f))).
Proof.
  intros H. unfold load_data. simpl. rewrite H.
  destruct (alloc_all_spec gs (∅ : gmap positive Goal.t)) as (Hg & Hgn & _ & Hgl & _).
  destruct (alloc_all_spec ts (∅ : gmap positive DailyTask.t)) as (Ht & Htn & _ & Htl & _).
  destruct (alloc_all ∅ gs) as [grefs gh].
  destruct (alloc_all ∅ ts) as [trefs th]. simpl in *.
  repeat split; assumption.
Qed.

End Restart.

(** X8. A manager started on the file that [save_data] has written finds
    the goals and the daily tasks that were in memory, in the same order and
    with the same fields (their creation times being datetimes, as those of
    constructed and of loaded goals are): the collections read by
    [load_data] are those saved, each object is new and listed once, and the
    file is left as it is. *)
Theorem restart_finds_saved :
  forall m : GoalManager.t,
    Forall (fun g => DateTime.valid (Goal.created_at g))
           (GoalManager.deref (GoalManager.goal_heap m) (GoalManager.goals m)) ->
    let f := GoalManager.disk (GoalManager.save_data m) in
    let out := GoalManager.load_data (GoalManager.empty f) in
    fst out = Ok tt /\
    GoalManager.deref (GoalManager.goal_heap (snd out)) (GoalManager.goals (snd out))
    = GoalManager.deref (GoalManager.goal_heap m) (GoalManager.goals m) /\
    GoalManager.deref (GoalManager.task_heap (snd out)) (GoalManager.daily_tasks (snd out))
    = GoalManager.deref (GoalManager.task_heap m) (GoalManager.daily_tasks m) /\
    GoalManager.disk (snd out) = f /\
    GoalManager.wf (snd out).
Proof.
  intros m Hvalid f out.
  apply load_data_loaded. unfold f, GoalManager.save_data. simpl.
  now apply load_data_save_data.
Qed.

(** Two goals added to an empty manager, then a restart. *)
Lemma restart_finds_saved_witness :
  let now := 63839664000000000 in
  let m := snd (GoalManager.add_goal (now + 5) "Run" 3
             (snd (GoalManager.add_goal now "Read a book" 7
                     (GoalManager.empty None)))) in
  let out := GoalManager.load_data
               (GoalManager.empty (GoalManager.disk (GoalManager.save_data m))) in
  GoalManager.deref (GoalManager.goal_heap (snd out)) (GoalManager.goals (snd out))
  = [Goal.mk "Read a book" 7 now false false; Goal.mk "Run" 3 (now + 5) false false].
Proof.
  intros now m out.
  assert (E : GoalManager.deref (GoalManager.goal_heap m) (GoalManager.goals m)
              = [Goal.mk "Read a book" 7 now false false;
                 Goal.mk "Run" 3 (now + 5) false false])
    by (vm_compute; reflexivity).
  destruct (restart_finds_saved m) as (_ & Hgoals & _).
  - rewrite E. repeat constructor; simpl; vm_compute; discriminate || reflexivity.
  - unfold out. rewrite Hgoals. exact E.
Defined.

(** ** GoalManager: the sweep over the goals *)

Section Sweep.

Import GoalManager.

Lemma check_failed_cases (now : DateTime.datetime) (g : Goal.t) :
  (Goal.check_failed now g = (Ok true, Goal.set_failed g true) /\
   Goal.completed g = false /\ Goal.failed g = false) \/
  Goal.check_failed now g = (Ok false, g) \/
  (Goal.check_failed now g = (Raise OverflowError, g) /\
   Goal.completed g = false /\ Goal.failed g = false /\
   forall dl, Goal.deadline_date g <> Ok dl).
Proof.
  unfold Goal.check_failed.
  destruct (Goal.completed g), (Goal.failed g); simpl; auto.
  destruct (Goal.deadline_date g) as [dl|e] eqn:Hdl.
  - destruct (DateTime.gt now dl); auto.
  - right. right. rewrite (deadline_date_Raise g e Hdl).
    repeat split. intros dl. discriminate.
Qed.

Lemma check_failed_again (now : DateTime.datetime) (g : Goal.t) (b : bool) :
  fst (Goal.check_failed now g) = Ok b ->
  Goal.check_failed now (snd (Goal.check_failed now g))
  = (Ok false, snd (Goal.check_failed now g)).
Proof.
  destruct (check_failed_cases now g) as [(E & _)|[E|(E & _)]]; rewrite E; simpl.
  - intros _. apply check_failed_terminal. now right.
  - intros _. exact E.
  - discriminate.
Qed.

Lemma check_failed_representable (now : DateTime.datetime) (g : Goal.t)
    (dl : DateTime.datetime) :
  Goal.deadline_date g = Ok dl -> exists b, fst (Goal.check_failed now g) = Ok b.
Proof.
  intros Hdl.
  destruct (check_failed_cases now g) as [(E & _)|[E|(_ & _ & _ & Hn)]].
  - rewrite E. eauto.
  - rewrite E. eauto.
  - now destruct (Hn dl).
Qed.

(** The sweep when no call raises: every goal of the list is replaced by
    its state after [check_failed], nothing else moves, and the flag tells
    whether some call returned true. *)
Lemma sweep_ok (clock : ref -> DateTime.datetime) (todo : list ref) :
  forall (h : gmap positive Goal.t) (u : bool),
    NoDup todo ->
    (forall r g, r ∈ todo -> h !! r = Some g ->
       exists b, fst (Goal.check_failed (clock r) g) = Ok b) ->
    exists b h',
      sweep clock todo h u = (Ok b, h') /\
      (b = true <->
       u = true \/
       exists r g, r ∈ todo /\ h !! r = Some g /\
                   fst (Goal.check_failed (clock r) g) = Ok true) /\
      (forall r, r ∈ todo ->
         h' !! r = (fun g => snd (Goal.check_failed (clock r) g)) <$> (h !! r)) /\
      (forall r, r ∉ todo -> h' !! r = h !! r).
Proof.
  induction todo as [|r rest IH]; intros h u Hnd Hok.
  - exists u, h. simpl. split; [reflexivity|]. split; [|split].
    + split; [auto|]. intros [H|(r & g & Hr & _)]; [exact H|].
      now apply elem_of_nil in Hr.
    + intros r Hr. now apply elem_of_nil in Hr.
    + reflexivity.
  - apply NoDup_cons in Hnd as [Hr Hnd]. simpl.
    destruct (h !! r) as [g|] eqn:Hg.
    + destruct (Hok r g (list_elem_of_here _ _) Hg) as [b0 Hb0].
      destruct (Goal.check_failed (clock r) g) as [res g'] eqn:Hcf.
      simpl in Hb0. subst res.
      assert (Hother : forall q, q <> r -> <[r := g']> h !! q = h !! q)
        by (intros q Hq; now apply lookup_insert_ne).
      destruct (IH (<[r := g']> h) (b0 || u) Hnd) as (b & h' & Hs & Hb & Hin & Hout).
      { intros q gq Hq Hgq. rewrite Hother in Hgq by (intros ->; contradiction).
        apply (Hok q gq); [now apply list_elem_of_further|exact Hgq]. }
      exists b, h'. split; [exact Hs|]. split; [|split].
      * rewrite Hb. split.
        -- intros [H|(q & gq & Hq & Hgq & Htrue)].
           ++ apply orb_prop in H as [->|H]; [|now left].
              right. exists r, g. rewrite Hcf. auto using list_elem_of_here.
           ++ right. exists q, gq.
              rewrite Hother in Hgq by (intros ->; contradiction).
              auto using list_elem_of_further.
        -- intros [->|(q & gq & Hq & Hgq & Htrue)];
             [left; apply orb_true_r|].
           apply elem_of_cons in Hq as [->|Hq].
           ++ left. rewrite Hg in Hgq. injection Hgq as <-.
              rewrite Hcf in Htrue. simpl in Htrue. injection Htrue as ->.
              reflexivity.
           ++ right. exists q, gq.
              rewrite Hother by (intros ->; contradiction). auto.
      * intros q Hq. apply elem_of_cons in Hq as [->|Hq].
        -- rewrite (Hout r Hr), lookup_insert_eq, Hg. simpl. now rewrite Hcf.
        -- rewrite (Hin q Hq), Hother by (intros ->; contradiction). reflexivity.
      * intros q Hq. apply not_elem_of_cons in Hq as [Hqr Hq].
        now rewrite (Hout q Hq), Hother.
    + destruct (IH h u Hnd) as (b & h' & Hs & Hb & Hin & Hout).
      { intros q gq Hq. apply Hok. now apply list_elem_of_further. }
      exists b, h'. split; [exact Hs|]. split; [|split].
      * rewrite Hb. split.
        -- intros [H|(q & gq & Hq & Hrest)]; [now left|].
           right. exists q, gq. auto using list_elem_of_further.
        -- intros [H|(q & gq & Hq & Hgq & Htrue)]; [now left|].
           apply elem_of_cons in Hq as [->|Hq]; [congruence|].
           right. exists q, gq. auto.
      * intros q Hq. apply elem_of_cons in Hq as [->|Hq].
        -- now rewrite (Hout r Hr), Hg.
        -- now apply Hin.
      * intros q Hq. apply not_elem_of_cons in Hq as [_ Hq]. now apply Hout.
Qed.

(** The sweep when some pending goal of the list has no deadline date:
    [OverflowError], at that goal or at one before it. *)
Lemma sweep_raises (clock : ref -> DateTime.datetime) (todo : list ref) :
  forall (h : gmap positive Goal.t) (u : bool) (r : ref) (g : Goal.t),
    NoDup todo -> r ∈ todo -> h !! r = Some g ->
    Goal.completed g = false -> Goal.failed g = false ->
    (forall dl, Goal.deadline_date g <> Ok dl) ->
    fst (sweep clock todo h u) = Raise OverflowError.
Proof.
  induction todo as [|q rest IH]; intros h u r g Hnd Hr Hg Hc Hf Hdl.
  - now apply elem_of_nil in Hr.
  - apply NoDup_cons in Hnd as [Hq Hnd]. simpl.
    apply elem_of_cons in Hr as [->|Hr].
    + rewrite Hg.
      destruct (check_failed_cases (clock q) g)
        as [(E & _)|[E|(E & _)]]; rewrite E; [| |reflexivity].
      * exfalso. revert E. unfold Goal.check_failed. rewrite Hc, Hf. simpl.
        destruct (Goal.deadline_date g) as [dl|e]; [now destruct (Hdl dl)|discriminate].
      * exfalso. revert E. unfold Goal.check_failed. rewrite Hc, Hf. simpl.
        destruct (Goal.deadline_date g) as [dl|e]; [now destruct (Hdl dl)|discriminate].
    + assert (Hne : q <> r) by (intros ->; contradiction).
      destruct (h !! q) as [gq|] eqn:Hgq; [|now apply (IH h u r g)].
      destruct (check_failed_cases (clock q) gq)
        as [(E & _)|[E|(E & _)]]; rewrite E; [| |reflexivity].
      * apply (IH _ _ r g); try assumption. now rewrite lookup_insert_ne.
      * apply (IH _ _ r g); try assumption. now rewrite lookup_insert_ne.
Qed.

End Sweep.

(** X9. On a manager that lists no goal twice and whose listed goals all
    have a deadline date, [check_failed_goals()] returns normally; it
    returns true exactly when [check_failed] returns true on some listed
    goal; every listed goal is left in its state after [check_failed], and
    nothing else (unlisted objects, the lists, the daily tasks) changes.
    When it returns true the new collections are written to the file; when
    it returns false neither memory nor the file changes.  A second sweep at
    the same clock readings returns false and changes nothing. *)
Theorem check_failed_goals_sweep :
  forall (clock : GoalManager.ref -> DateTime.datetime) (m : GoalManager.t),
    NoDup (GoalManager.goals m) ->
    (forall r g, r ∈ GoalManager.goals m -> GoalManager.goal_heap m !! r = Some g ->
       exists dl, Goal.deadline_date g = Ok dl) ->
    let out := GoalManager.check_failed_goals clock m in
    let m' := snd out in
    exists b : bool,
      fst out = Ok b /\
      (b = true <->
       exists r g, r ∈ GoalManager.goals m /\ GoalManager.goal_heap m !! r = Some g /\
                   fst (Goal.check_failed (clock r) g) = Ok true) /\
      GoalManager.goals m' = GoalManager.goals m /\
      GoalManager.daily_tasks m' = GoalManager.daily_tasks m /\
      GoalManager.task_heap m' = GoalManager.task_heap m /\
      (forall r, r ∈ GoalManager.goals m ->
         GoalManager.goal_heap m' !! r
         = (fun g => snd (Goal.check_failed (clock r) g))
             <$> (GoalManager.goal_heap m !! r)) /\
      (forall r, r ∉ GoalManager.goals m ->
         GoalManager.goal_heap m' !! r = GoalManager.goal_heap m !! r) /\
      (b = true ->
       GoalManager.disk m'
       = DataManager.save_data
           (GoalManager.deref (GoalManager.goal_heap m') (GoalManager.goals m'))
           (GoalManager.deref (GoalManager.task_heap m') (GoalManager.daily_tasks m'))) /\
      (b = false -> m' = m) /\
      GoalManager.check_failed_goals clock m' = (Ok false, m').
Proof.
  assert (Hmain : forall clock m,
    NoDup (GoalManager.goals m) ->
    (forall r g, r ∈ GoalManager.goals m -> GoalManager.goal_heap m !! r = Some g ->
       exists b, fst (Goal.check_failed (clock r) g) = Ok b) ->
    exists b : bool,
      fst (GoalManager.check_failed_goals clock m) = Ok b /\
      (b = true <->
       exists r g, r ∈ GoalManager.goals m /\ GoalManager.goal_heap m !! r = Some g /\
                   fst (Goal.check_failed (clock r) g) = Ok true) /\
      GoalManager.goals (snd (GoalManager.check_failed_goals clock m))
      = GoalManager.goals m /\
      GoalManager.daily_tasks (snd (GoalManager.check_failed_goals clock m))
      = GoalManager.daily_tasks m /\
      GoalManager.task_heap (snd (GoalManager.check_failed_goals clock m))
      = GoalManager.task_heap m /\
      (forall r, r ∈ GoalManager.goals m ->
         GoalManager.goal_heap (snd (GoalManager.check_failed_goals clock m)) !! r
         = (fun g => snd (Goal.check_failed (clock r) g))
             <$> (GoalManager.goal_heap m !! r)) /\
      (forall r, r ∉ GoalManager.goals m ->
         GoalManager.goal_heap (snd (GoalManager.check_failed_goals clock m)) !! r
         = GoalManager.goal_heap m !! r) /\
      (b = true ->
       GoalManager.disk (snd (GoalManager.check_failed_goals clock m))
       = DataManager.save_data
           (GoalManager.deref
              (GoalManager.goal_heap (snd (GoalManager.check_failed_goals clock m)))
              (GoalManager.goals (snd (GoalManager.check_failed_goals clock m))))
           (GoalManager.deref
              (GoalManager.task_heap (snd (GoalManager.check_failed_goals clock m)))
              (GoalManager.daily_tasks (snd (GoalManager.check_failed_goals clock m))))) /\
      (b = false -> snd (GoalManager.check_failed_goals clock m) = m)).
  { intros clock m Hnd Hok.
    destruct (sweep_ok clock (GoalManager.goals m) (GoalManager.goal_heap m) false
                Hnd Hok) as (b & h' & Hs & Hb & Hin & Hout).
    exists b. unfold GoalManager.check_failed_goals. rewrite Hs.
    assert (Hb' : b = true <->
       exists r g, r ∈ GoalManager.goals m /\ GoalManager.goal_heap m !! r = Some g /\
                   fst (Goal.check_failed (clock r) g) = Ok true).
    { rewrite Hb. split; [intros [H|H]; [discriminate|exact H]|auto]. }
    split; [reflexivity|]. split; [exact Hb'|].
    destruct b; simpl.
    - repeat split; try assumption. discriminate.
    - repeat split; try assumption; try discriminate.
      intros _. destruct m as [gh th gl tl d]. unfold GoalManager.with_goals.
      simpl in *. f_equal. apply map_eq. intros q.
      unfold GoalManager.ref in *.
      destruct (decide (q ∈ gl)) as [Hq|Hq]; [|now apply Hout].
      rewrite (Hin q Hq). destruct (gh !! q) as [g|] eqn:Hg; [|reflexivity].
      simpl. f_equal.
      destruct (check_failed_cases (clock q) g) as [(E & _)|[E|(E & _)]].
      + exfalso. assert (Hf : false = true); [|discriminate Hf].
        apply Hb'. exists q, g. rewrite E. auto.
      + now rewrite E.
      + now rewrite E. }
  intros clock m Hnd Hdl. cbv zeta.
  assert (Hok : forall r g, r ∈ GoalManager.goals m ->
                  GoalManager.goal_heap m !! r = Some g ->
                  exists b, fst (Goal.check_failed (clock r) g) = Ok b).
  { intros r g Hr Hg. destruct (Hdl r g Hr Hg) as [dl Hd].
    now apply (check_failed_representable _ _ dl). }
  destruct (Hmain clock m Hnd Hok)
    as (b & Hfst & Hb & Hgoals & Htasks & Hth & Hin & Hout & Hdisk & Hsame).
  exists b. set (m' := snd (GoalManager.check_failed_goals clock m)) in *.
  do 9 (split; [assumption|]).
  (* the second sweep *)
  assert (Hok' : forall r g, r ∈ GoalManager.goals m' ->
                   GoalManager.goal_heap m' !! r = Some g ->
                   exists b, fst (Goal.check_failed (clock r) g) = Ok b).
  { intros r g' Hr Hg'. rewrite Hgoals in Hr. rewrite (Hin r Hr) in Hg'.
    destruct (GoalManager.goal_heap m !! r) as [g|] eqn:Hg; [|discriminate].
    simpl in Hg'. injection Hg' as <-.
    destruct (Hok r g Hr Hg) as [b0 Hb0].
    rewrite (check_failed_again _ _ _ Hb0). eauto. }
  assert (Hnd' : NoDup (GoalManager.goals m')) by now rewrite Hgoals.
  destruct (Hmain clock m' Hnd' Hok') as (b2 & Hfst2 & Hb2 & _ & _ & _ & _ & _ & _ & Hsame2).
  assert (Hb2f : b2 = false).
  { destruct b2; [|reflexivity]. exfalso.
    destruct (proj1 Hb2 eq_refl) as (r & g' & Hr & Hg' & Htrue).
    rewrite Hgoals in Hr. rewrite (Hin r Hr) in Hg'.
    destruct (GoalManager.goal_heap m !! r) as [g|] eqn:Hg; [|discriminate].
    simpl in Hg'. injection Hg' as <-.
    destruct (Hok r g Hr Hg) as [b0 Hb0].
    rewrite (check_failed_again _ _ _ Hb0) in Htrue. discriminate. }
  subst b2. specialize (Hsame2 eq_refl).
  destruct (GoalManager.check_failed_goals clock m') as [res m2]. simpl in *.
  now subst.
Qed.

(** Two goals created on 2024-01-01, of zero and of seven days, swept one
    second later: the first fails, and the file is written. *)
Lemma check_failed_goals_sweep_witness :
  let now := 63839664000000000 in
  let m := snd (GoalManager.add_goal now "Read a book" 7
             (snd (GoalManager.add_goal now "Ship report" 0
                     (GoalManager.empty None)))) in
  let out := GoalManager.check_failed_goals (fun _ => now + 1000000) m in
  GoalManager.check_failed_goals (fun _ => now + 1000000) (snd out)
  = (Ok false, snd out) /\
  fst out = Ok true.
Proof.
  intros now m out.
  destruct (check_failed_goals_sweep (fun _ => now + 1000000) m)
    as (b & _ & _ & _ & _ & _ & _ & _ & _ & _ & Hagain).
  - change (GoalManager.goals m) with [1%positive; 2%positive].
    apply NoDup_cons. split; [|apply NoDup_singleton].
    intros H. apply list_elem_of_singleton in H. discriminate H.
  - intros r g Hr Hg.
    change (GoalManager.goals m) with [1%positive; 2%positive] in Hr.
    apply elem_of_cons in Hr as [->|Hr];
      [|apply list_elem_of_singleton in Hr; subst r].
    + assert (Eg : g = Goal.mk "Ship report" 0 now false false)
        by (vm_compute in Hg; injection Hg as <-; reflexivity).
      subst g. exists now. reflexivity.
    + assert (Eg : g = Goal.mk "Read a book" 7 now false false)
        by (vm_compute in Hg; injection Hg as <-; reflexivity).
      subst g. exists (now + 7 * DateTime.us_per_day). reflexivity.
  - split; [exact Hagain|reflexivity].
Defined.

(** X10. [add_goal] accepts a number of days so large (or so negative) that
    the deadline date is not a datetime, and writes the goal to the file;
    from then on every start of a manager on that file fails:
    [GoalManager()] loads the goal, and its sweep raises [OverflowError]. *)
Theorem start_fails_after_unrepresentable_goal :
  forall (clock : GoalManager.ref -> DateTime.datetime) (m : GoalManager.t)
         (now : DateTime.datetime) (name : string) (deadline_days : Z),
    GoalManager.wf m ->
    Forall (fun g => DateTime.valid (Goal.created_at g))
           (GoalManager.deref (GoalManager.goal_heap m) (GoalManager.goals m)) ->
    DateTime.valid now ->
    ~ DateTime.valid (now + deadline_days * DateTime.us_per_day) ->
    let out := GoalManager.add_goal now name deadline_days m in
    fst out = Ok tt /\
    fst (GoalManager.init clock (GoalManager.disk (snd out))) = Raise OverflowError.
Proof.
  intros clock m now name d Hwf Hvalid Hnow Hover out.
  split; [reflexivity|].
  set (g := Goal.construct now name d).
  set (r := fresh (dom (GoalManager.goal_heap m))).
  assert (Hderef :
    GoalManager.deref (<[r := g]> (GoalManager.goal_heap m)) (GoalManager.goals m ++ [r])
    = GoalManager.deref (GoalManager.goal_heap m) (GoalManager.goals m) ++ [g]).
  { destruct Hwf as (_ & _ & Hlive & _).
    rewrite deref_app, deref_insert_other by now apply fresh_not_listed.
    f_equal. unfold GoalManager.deref. simpl. now rewrite lookup_insert_eq. }
  assert (Hload :
    DataManager.load_data (GoalManager.disk (snd out))
    = Ok (GoalManager.deref (GoalManager.goal_heap m) (GoalManager.goals m) ++ [g],
          GoalManager.deref (GoalManager.task_heap m) (GoalManager.daily_tasks m))).
  { assert (Hdisk : GoalManager.disk (snd out)
      = DataManager.save_data
          (GoalManager.deref (<[r := g]> (GoalManager.goal_heap m))
                             (GoalManager.goals m ++ [r]))
          (GoalManager.deref (GoalManager.task_heap m) (GoalManager.daily_tasks m)))
      by reflexivity.
    rewrite Hdisk, Hderef. apply load_data_save_data.
    apply Forall_app. split; [exact Hvalid|]. constructor; [exact Hnow|constructor]. }
  destruct (load_data_loaded _ _ _ Hload) as (Hfst & Hgoals & _ & _ & Hwf').
  unfold GoalManager.init.
  destruct (GoalManager.load_data (GoalManager.empty (GoalManager.disk (snd out))))
    as [res m2]. simpl in Hfst, Hgoals, Hwf'. subst res.
  assert (Hin : g ∈ GoalManager.deref (GoalManager.goal_heap m2) (GoalManager.goals m2)).
  { rewrite Hgoals. apply elem_of_app. right. apply list_elem_of_here. }
  apply list_elem_of_omap in Hin as (q & Hq & Hg).
  assert (Hraise : fst (GoalManager.sweep clock (GoalManager.goals m2)
                          (GoalManager.goal_heap m2) false) = Raise OverflowError).
  { apply (sweep_raises clock _ _ _ q g); try reflexivity; try assumption.
    - apply Hwf'.
    - intros dl Hdl. apply Hover. apply deadline_date_Ok in Hdl as (-> & _ & Hv).
      exact Hv. }
  unfold GoalManager.check_failed_goals.
  destruct (GoalManager.sweep clock (GoalManager.goals m2)
              (GoalManager.goal_heap m2) false) as [res h'].
  simpl in Hraise. subst res. reflexivity.
Qed.

(** The first goal ever added has four million days. *)
Lemma start_fails_after_unrepresentable_goal_witness :
  let now := 63839664000000000 in
  let out := GoalManager.add_goal now "Ship report" 4000000 (GoalManager.empty None) in
  fst out = Ok tt /\
  fst (GoalManager.init (fun _ => now + 1) (GoalManager.disk (snd out)))
  = Raise OverflowError.
Proof.
  intros now out.
  apply (start_fails_after_unrepresentable_goal (fun _ => now + 1)
           (GoalManager.empty None) now "Ship report" 4000000).
  - apply empty_wf.
  - constructor.
  - vm_compute. split; [discriminate|reflexivity].
  - vm_compute. intros [_ H]. discriminate H.
Defined.

(** ** GoalManager: completing a goal and the statistics *)

Section CompleteGoal.

Import GoalManager.

Lemma number_with_app (p : Goal.t -> bool) (l l' : list Goal.t) :
  number_with p (l ++ l') = number_with p l + number_with p l'.
Proof. induction l as [|g l IH]; simpl; [reflexivity|]. rewrite IH. lia. Qed.

Lemma deref_alter_other (f : Goal.t -> Goal.t) (h : gmap positive Goal.t)
    (r : ref) (l : list ref) :
  r ∉ l -> deref (alter f r h) l = deref h l.
Proof.
  unfold deref. induction l as [|q l IH]; intros H; [reflexivity|].
  apply not_elem_of_cons in H as [Hne Hl]. csimpl.
  rewrite lookup_alter_ne by exact Hne. now rewrite IH.
Qed.

Lemma deref_alter (f : Goal.t -> Goal.t) (h : gmap positive Goal.t)
    (r : ref) (g : Goal.t) (l : list ref) :
  NoDup l -> r ∈ l -> h !! r = Some g ->
  exists before after,
    deref h l = before ++ g :: after /\
    deref (alter f r h) l = before ++ f g :: after.
Proof.
  intros Hnd Hin Hg.
  apply list_elem_of_split in Hin as (l1 & l2 & ->).
  apply NoDup_app in Hnd as (_ & H12 & Hnd2).
  apply NoDup_cons in Hnd2 as [Hr2 _].
  assert (Hr1 : r ∉ l1) by (intros H; apply (H12 r H), list_elem_of_here).
  exists (deref h l1), (deref h l2).
  rewrite !deref_app, !deref_alter_other by assumption.
  unfold deref at 2 5. csimpl. rewrite lookup_alter_eq, Hg. simpl.
  fold (deref h l2). fold (deref (alter f r h) l2).
  rewrite deref_alter_other by assumption. split; reflexivity.
Qed.

Lemma sweep_keeps_flags (clock : ref -> DateTime.datetime) (todo : list ref) :
  forall (h : gmap positive Goal.t) (u : bool),
    (forall r g, h !! r = Some g -> Goal.completed g && Goal.failed g = false) ->
    forall r g, snd (sweep clock todo h u) !! r = Some g ->
                Goal.completed g && Goal.failed g = false.
Proof.
  induction todo as [|q rest IH]; intros h u Hh; simpl; [exact Hh|].
  destruct (h !! q) as [gq|] eqn:Hq; [|now apply IH].
  destruct (check_failed_cases (clock q) gq)
    as [(E & Hc & _)|[E|(E & _)]]; rewrite E; [| |exact Hh].
  - apply IH. intros r g Hr.
    destruct (decide (q = r)) as [->|Hne].
    + rewrite lookup_insert_eq in Hr. injection Hr as <-. simpl. now rewrite Hc.
    + rewrite lookup_insert_ne in Hr by exact Hne. now apply (Hh r).
  - apply IH. intros r g Hr.
    destruct (decide (q = r)) as [->|Hne].
    + rewrite lookup_insert_eq in Hr. injection Hr as <-. now apply (Hh r).
    + rewrite lookup_insert_ne in Hr by exact Hne. now apply (Hh r).
Qed.

End CompleteGoal.

(** X11. [complete_goal(goal)] on a listed goal replaces that object by
    its state after [complete()], leaves every other goal object, the task
    objects and both lists alone and writes the file: the snapshot of the
    goals with that one goal replaced and of the daily tasks as they were.
    In the statistics the total and the number
    of failed goals stay; if the goal was pending, the number of completed
    goals grows by one and [in_progress] falls by one; if it was completed
    or failed already, no count changes. *)
Theorem complete_goal_counts :
  forall (goal : GoalManager.ref) (g : Goal.t) (m : GoalManager.t),
    NoDup (GoalManager.goals m) ->
    goal ∈ GoalManager.goals m ->
    GoalManager.goal_heap m !! goal = Some g ->
    let out := GoalManager.complete_goal goal m in
    let s := GoalManager.get_goals_stats m in
    let s' := GoalManager.get_goals_stats (snd out) in
    fst out = Ok tt /\
    GoalManager.goal_heap (snd out) !! goal = Some (Goal.complete g) /\
    (forall r, r <> goal ->
       GoalManager.goal_heap (snd out) !! r = GoalManager.goal_heap m !! r) /\
    GoalManager.goals (snd out) = GoalManager.goals m /\
    GoalManager.daily_tasks (snd out) = GoalManager.daily_tasks m /\
    GoalManager.disk (snd out)
    = DataManager.save_data
        (GoalManager.deref (GoalManager.goal_heap (snd out)) (GoalManager.goals (snd out)))
        (GoalManager.deref (GoalManager.task_heap (snd out))
                           (GoalManager.daily_tasks (snd out))) /\
    GoalManager.task_heap (snd out) = GoalManager.task_heap m /\
    (exists before after,
       GoalManager.deref (GoalManager.goal_heap m) (GoalManager.goals m)
       = before ++ g :: after /\
       GoalManager.deref (GoalManager.goal_heap (snd out)) (GoalManager.goals (snd out))
       = before ++ Goal.complete g :: after /\
       GoalManager.disk (snd out)
       = DataManager.save_data
           (before ++ Goal.complete g :: after)
           (GoalManager.deref (GoalManager.task_heap m) (GoalManager.daily_tasks m))) /\
    GoalManager.total s' = GoalManager.total s /\
    GoalManager.failed s' = GoalManager.failed s /\
    (GoalManager.pending g = true ->
       GoalManager.completed s' = GoalManager.completed s + 1 /\
       GoalManager.in_progress s' = GoalManager.in_progress s - 1) /\
    (GoalManager.pending g = false ->
       GoalManager.completed s' = GoalManager.completed s /\
       GoalManager.in_progress s' = GoalManager.in_progress s).
Proof.
  intros goal g m Hnd Hin Hg out s s'.
  destruct (deref_alter Goal.complete _ _ _ _ Hnd Hin Hg)
    as (before & after & Hold & Hnew).
  assert (Hfile : GoalManager.task_heap (snd out) = GoalManager.task_heap m /\
    exists before after,
      GoalManager.deref (GoalManager.goal_heap m) (GoalManager.goals m)
      = before ++ g :: after /\
      GoalManager.deref (GoalManager.goal_heap (snd out)) (GoalManager.goals (snd out))
      = before ++ Goal.complete g :: after /\
      GoalManager.disk (snd out)
      = DataManager.save_data
          (before ++ Goal.complete g :: after)
          (GoalManager.deref (GoalManager.task_heap m) (GoalManager.daily_tasks m))).
  { split; [reflexivity|]. exists before, after.
    split; [exact Hold|]. split; [exact Hnew|].
    unfold out, GoalManager.complete_goal, GoalManager.save_data.
    cbn [snd GoalManager.disk GoalManager.with_disk GoalManager.with_goals
         GoalManager.goal_heap GoalManager.goals GoalManager.task_heap
         GoalManager.daily_tasks].
    now rewrite Hnew. }
  assert (Hc : GoalManager.completed s
               = GoalManager.number_with Goal.completed
                   (GoalManager.deref (GoalManager.goal_heap m) (GoalManager.goals m)))
    by apply filter_length_number_with.
  assert (Hf : GoalManager.failed s
               = GoalManager.number_with Goal.failed
                   (GoalManager.deref (GoalManager.goal_heap m) (GoalManager.goals m)))
    by apply filter_length_number_with.
  assert (Hc' : GoalManager.completed s'
               = GoalManager.number_with Goal.completed
                   (GoalManager.deref (alter Goal.complete goal (GoalManager.goal_heap m))
                                      (GoalManager.goals m)))
    by apply filter_length_number_with.
  assert (Hf' : GoalManager.failed s'
               = GoalManager.number_with Goal.failed
                   (GoalManager.deref (alter Goal.complete goal (GoalManager.goal_heap m))
                                      (GoalManager.goals m)))
    by apply filter_length_number_with.
  assert (Ht : GoalManager.total s' = GoalManager.total s) by reflexivity.
  assert (Hi : GoalManager.in_progress s
               = GoalManager.total s - GoalManager.completed s - GoalManager.failed s)
    by reflexivity.
  assert (Hi' : GoalManager.in_progress s'
               = GoalManager.total s' - GoalManager.completed s' - GoalManager.failed s')
    by reflexivity.
  assert (Hheap : GoalManager.goal_heap (snd out) !! goal = Some (Goal.complete g))
    by (simpl; now rewrite lookup_alter_eq, Hg).
  assert (Hrest : forall r, r <> goal ->
            GoalManager.goal_heap (snd out) !! r = GoalManager.goal_heap m !! r)
    by (intros r Hr; simpl; apply lookup_alter_ne; congruence).
  split; [reflexivity|]. split; [exact Hheap|]. split; [exact Hrest|].
  do 3 (split; [reflexivity|]).
  split; [exact (proj1 Hfile)|]. split; [exact (proj2 Hfile)|].
  clear Hheap Hrest Hfile.
  set (c := GoalManager.completed s) in *. set (f := GoalManager.failed s) in *.
  set (c' := GoalManager.completed s') in *. set (f' := GoalManager.failed s') in *.
  set (t := GoalManager.total s) in *. set (t' := GoalManager.total s') in *.
  set (i := GoalManager.in_progress s) in *.
  set (i' := GoalManager.in_progress s') in *.
  clearbody c f c' f' t t' i i'. clear s s' out.
  rewrite Hold in Hc, Hf. rewrite Hnew in Hc', Hf'.
  rewrite number_with_app in Hc, Hf, Hc', Hf'.
  cbn [GoalManager.number_with] in Hc, Hf, Hc', Hf'.
  assert (Hfg : Goal.failed (Goal.complete g) = Goal.failed g)
    by (unfold Goal.complete; destruct (negb (Goal.failed g)); reflexivity).
  assert (Hcg : Goal.completed (Goal.complete g)
                = Goal.completed g || negb (Goal.failed g)).
  { unfold Goal.complete. destruct (negb (Goal.failed g)); simpl.
    - now rewrite orb_true_r.
    - now rewrite orb_false_r. }
  rewrite Hfg in Hf'. rewrite Hcg in Hc'.
  split; [exact Ht|]. split; [congruence|].
  unfold GoalManager.pending.
  destruct (Goal.completed g), (Goal.failed g); simpl in *;
    split; intros Hp; try discriminate Hp; lia.
Qed.

(** One pending goal, completed: none in progress, one completed. *)
Lemma complete_goal_counts_witness :
  let now := 63839664000000000 in
  let m := snd (GoalManager.add_goal now "Read a book" 7 (GoalManager.empty None)) in
  let s' := GoalManager.get_goals_stats (snd (GoalManager.complete_goal 1%positive m)) in
  GoalManager.completed s' = GoalManager.completed (GoalManager.get_goals_stats m) + 1 /\
  GoalManager.in_progress s' = GoalManager.in_progress (GoalManager.get_goals_stats m) - 1.
Proof.
  intros now m s'.
  destruct (complete_goal_counts 1%positive (Goal.construct now "Read a book" 7) m)
    as (_ & _ & _ & _ & _ & _ & _ & _ & _ & _ & Hpending & _).
  - change (GoalManager.goals m) with [1%positive]. apply NoDup_singleton.
  - change (GoalManager.goals m) with [1%positive]. apply list_elem_of_here.
  - reflexivity.
  - apply Hpending. reflexivity.
Defined.

(** X12. If no goal object has both flags set, then none has after
    [add_goal], [complete_goal], [delete_goal] or [check_failed_goals]
    (whether the sweep returns or raises), nor after the three operations on
    daily tasks: only loading a file can bring such a goal in. *)
Theorem manager_keeps_flags_exclusive :
  forall m : GoalManager.t,
    let exclusive := fun m' : GoalManager.t =>
      forall r g, GoalManager.goal_heap m' !! r = Some g ->
                  Goal.completed g && Goal.failed g = false in
    exclusive m ->
    (forall now name days, exclusive (snd (GoalManager.add_goal now name days m))) /\
    (forall goal, exclusive (snd (GoalManager.complete_goal goal m))) /\
    (forall goal, exclusive (snd (GoalManager.delete_goal goal m))) /\
    (forall clock, exclusive (snd (GoalManager.check_failed_goals clock m))) /\
    (forall name days, exclusive (snd (GoalManager.add_daily_task name days m))) /\
    (forall now now' task,
       exclusive (snd (GoalManager.complete_daily_task now now' task m))) /\
    (forall task, exclusive (snd (GoalManager.delete_daily_task task m))).
Proof.
  intros m exclusive Hm. unfold exclusive in *. repeat split.
  - intros now name days r g. simpl.
    destruct (decide (fresh (dom (GoalManager.goal_heap m)) = r)) as [<-|Hne].
    + rewrite lookup_insert_eq. intros [= <-]. reflexivity.
    + rewrite lookup_insert_ne by exact Hne. apply Hm.
  - intros goal r g. simpl.
    destruct (decide (goal = r)) as [<-|Hne].
    + rewrite lookup_alter_eq. intros H.
      apply fmap_Some in H as (g0 & Hg0 & ->).
      apply (step_exclusive g0 Goal.Complete), (Hm goal), Hg0.
    + rewrite lookup_alter_ne by exact Hne. apply Hm.
  - intros goal r g. unfold GoalManager.delete_goal.
    destruct (GoalManager.list_remove goal (GoalManager.goals m)); simpl; apply Hm.
  - intros clock r g. unfold GoalManager.check_failed_goals.
    assert (Hs := sweep_keeps_flags clock (GoalManager.goals m)
                    (GoalManager.goal_heap m) false Hm r g).
    destruct (GoalManager.sweep clock (GoalManager.goals m)
                (GoalManager.goal_heap m) false) as [[[|]|e] h']; simpl in *; exact Hs.
  - intros name days r g. simpl. apply Hm.
  - intros now now' task r g. simpl. apply Hm.
  - intros task r g. unfold GoalManager.delete_daily_task.
    destruct (GoalManager.list_remove task (GoalManager.daily_tasks m)); simpl; apply Hm.
Qed.

(** A manager with one new goal. *)
Lemma manager_keeps_flags_exclusive_witness :
  let now := 63839664000000000 in
  let m := snd (GoalManager.add_goal now "Read a book" 0 (GoalManager.empty None)) in
  match GoalManager.goal_heap
          (snd (GoalManager.check_failed_goals (fun _ => now + 1) m)) !! 1%positive with
  | Some g => Goal.completed g && Goal.failed g = false
  | None => True
  end.
Proof.
  intros now m.
  destruct (manager_keeps_flags_exclusive (GoalManager.empty None))
    as (Hadd & _).
  - intros r g. simpl. rewrite lookup_empty. discriminate.
  - destruct (manager_keeps_flags_exclusive m (Hadd now "Read a book" 0))
      as (_ & _ & _ & Hsweep & _).
    specialize (Hsweep (fun _ => now + 1) 1%positive).
    destruct (GoalManager.goal_heap
                (snd (GoalManager.check_failed_goals (fun _ => now + 1) m)) !! 1%positive);
      [now apply Hsweep|exact I].
Defined.

(** ** DailyTask: names for the scheduled days *)

Section DayNamesProps.

Import DayNames.

Lemma getitem_days_names (i : Z) :
  (-7 <= i <= 6 -> getitem days_names i = days_names !! Z.to_nat (i mod 7)) /\
  (-7 <= i <= 6 -> is_Some (getitem days_names i)) /\
  (i < -7 \/ 6 < i -> getitem days_names i = None).
Proof.
  unfold getitem. change (Z.of_nat (length days_names)) with 7.
  repeat split.
  - intros H. destruct (Z.ltb_spec i 0).
    + replace (i mod 7) with (i + 7) by (Z.div_mod_to_equations; lia).
      destruct (Z.leb_spec 0 (i + 7)), (Z.ltb_spec (i + 7) 7); simpl; lia || reflexivity.
    + replace (i mod 7) with i by (Z.div_mod_to_equations; lia).
      destruct (Z.leb_spec 0 i), (Z.ltb_spec i 7); simpl; lia || reflexivity.
  - intros H.
    assert (E : i = -7 \/ i = -6 \/ i = -5 \/ i = -4 \/ i = -3 \/ i = -2 \/ i = -1
                \/ i = 0 \/ i = 1 \/ i = 2 \/ i = 3 \/ i = 4 \/ i = 5 \/ i = 6) by lia.
    repeat (destruct E as [->|E]; [simpl; eauto|]). subst i. simpl. eauto.
  - intros H. destruct (Z.ltb_spec i 0).
    + destruct (Z.leb_spec 0 (i + 7)), (Z.ltb_spec (i + 7) 7); simpl; lia || reflexivity.
    + destruct (Z.leb_spec 0 i), (Z.ltb_spec i 7); simpl; lia || reflexivity.
Qed.

End DayNamesProps.

(** X13. [get_active_days_names()] returns one name per scheduled day, in
    order, exactly when every scheduled day is in [-7 .. 6]; the name of a
    day [i] in that range is entry [i mod 7] of the table, so that [-1]
    is shown as Sunday; a day of 7 or more, or less than -7, makes the call
    raise [IndexError]. *)
Theorem get_active_days_names_bounds :
  forall self : DailyTask.t,
    (Forall (fun i => -7 <= i <= 6) (DailyTask.days_of_week self) <->
     is_Some (DayNames.get_active_days_names self)) /\
    (forall names, DayNames.get_active_days_names self = Some names ->
       length names = length (DailyTask.days_of_week self) /\
       forall k i, DailyTask.days_of_week self !! k = Some i ->
                   names !! k = DayNames.days_names !! Z.to_nat (i mod 7)).
Proof.
  intros [name days dates]. unfold DayNames.get_active_days_names. simpl.
  clear name dates. induction days as [|i days [IHiff IHnames]].
  - simpl. split.
    + split; [eauto|constructor].
    + intros names [= <-]. split; [reflexivity|]. intros k i H. discriminate.
  - destruct (getitem_days_names i) as (Hin & Hsome & Hout). split.
    + split.
      * intros H. apply Forall_cons in H as [Hi Hrest].
        simpl. destruct (Hsome Hi) as [n ->].
        destruct (proj1 IHiff Hrest) as [ns ->]. eauto.
      * simpl. intros [ns H].
        destruct (DayNames.getitem DayNames.days_names i) as [n|] eqn:Hn;
          [|discriminate].
        destruct (DayNames.names_of days) as [ns'|] eqn:Hns; [|discriminate].
        apply Forall_cons. split.
        -- destruct (Z.le_gt_cases (-7) i), (Z.le_gt_cases i 6); try lia;
             pose proof (Hout ltac:(lia)) as X; congruence.
        -- apply IHiff. eauto.
    + simpl. intros names H.
      destruct (DayNames.getitem DayNames.days_names i) as [n|] eqn:Hn;
        [|discriminate].
      destruct (DayNames.names_of days) as [ns'|] eqn:Hns; [|discriminate].
      injection H as <-. destruct (IHnames ns' eq_refl) as [Hlen Hnth].
      split; [simpl; now rewrite Hlen|].
      intros [|k] j Hk; simpl in *.
      * injection Hk as <-.
        assert (Hr : -7 <= i <= 6).
        { destruct (Z.le_gt_cases (-7) i), (Z.le_gt_cases i 6); try lia;
            pose proof (Hout ltac:(lia)) as X; congruence. }
        now rewrite <- (Hin Hr).
      * now apply Hnth.
Qed.

(** Monday, Sunday counted from the end, and a day that does not exist. *)
Example get_active_days_names_examples :
  DayNames.get_active_days_names (DailyTask.construct "Exercise" [0; -1])
  = Some [nth 0 DayNames.days_names ""; nth 6 DayNames.days_names ""]%string /\
  DayNames.get_active_days_names (DailyTask.construct "Exercise" [0; 7]) = None.
Proof. split; reflexivity. Qed.

(** ** GoalManager: adding, completing and deleting daily tasks *)

Section Tasks.

Import GoalManager.

Lemma add_daily_task_wf (name : string) (days_of_week : list Z) (m : GoalManager.t) :
  wf m -> wf (snd (add_daily_task name days_of_week m)).
Proof.
  intros (Hg & Ht & Hlg & Hlt). unfold add_daily_task, alloc. simpl.
  repeat split; simpl; try assumption.
  - apply NoDup_app. repeat split; [exact Ht| |apply NoDup_singleton].
    intros r Hr Hr'. apply list_elem_of_singleton in Hr'. subst r.
    now apply (fresh_not_listed (task_heap m) (daily_tasks m)).
  - intros r Hr. apply elem_of_app in Hr as [Hr|Hr].
    + destruct (decide (fresh (dom (task_heap m)) = r)) as [<-|Hne].
      * rewrite lookup_insert_eq. eauto.
      * rewrite lookup_insert_ne by exact Hne. now apply Hlt.
    + apply list_elem_of_singleton in Hr. subst r. rewrite lookup_insert_eq. eauto.
Qed.

Lemma deref_tasks_alter_other (f : DailyTask.t -> DailyTask.t)
    (h : gmap positive DailyTask.t) (r : ref) (l : list ref) :
  r ∉ l -> deref (alter f r h) l = deref h l.
Proof.
  unfold deref. induction l as [|q l IH]; intros H; [reflexivity|].
  apply not_elem_of_cons in H as [Hne Hl]. csimpl.
  rewrite lookup_alter_ne by exact Hne. now rewrite IH.
Qed.

Lemma complete_daily_task_wf (now now' : DateTime.datetime) (task : ref)
    (m : GoalManager.t) :
  wf m -> wf (snd (complete_daily_task now now' task m)).
Proof.
  intros (Hg & Ht & Hlg & Hlt). unfold complete_daily_task. simpl.
  repeat split; simpl; try assumption.
  intros r Hr. destruct (decide (task = r)) as [<-|Hne].
  - rewrite lookup_alter_eq. destruct (Hlt task Hr) as [x ->]. simpl. eauto.
  - rewrite lookup_alter_ne by exact Hne. now apply Hlt.
Qed.

End Tasks.

(** X14. [add_daily_task] checks nothing: for every name and every list of
    days it constructs a task with an empty log, a new object, appends it
    to the daily tasks and writes the file; the goals are left alone.
    [delete_daily_task] on that object then brings back the daily tasks
    and the file contents of a manager that had saved before the addition,
    and deleting the same object once more raises [ValueError] and
    changes nothing. *)
Theorem add_then_delete_daily_task :
  forall (name : string) (days_of_week : list Z) (m : GoalManager.t),
    GoalManager.wf m ->
    let goals := GoalManager.deref (GoalManager.goal_heap m) (GoalManager.goals m) in
    let tasks := GoalManager.deref (GoalManager.task_heap m) (GoalManager.daily_tasks m) in
    let task := fresh (dom (GoalManager.task_heap m)) in
    let added := GoalManager.add_daily_task name days_of_week m in
    let m1 := snd added in
    let deleted := GoalManager.delete_daily_task task m1 in
    let m2 := snd deleted in
    (fst added = Ok tt /\
     GoalManager.wf m1 /\
     GoalManager.task_heap m !! task = None /\
     GoalManager.daily_tasks m1 = GoalManager.daily_tasks m ++ [task] /\
     GoalManager.deref (GoalManager.task_heap m1) (GoalManager.daily_tasks m1)
     = tasks ++ [DailyTask.mk name days_of_week []] /\
     GoalManager.goals m1 = GoalManager.goals m /\
     GoalManager.goal_heap m1 = GoalManager.goal_heap m /\
     GoalManager.disk m1
     = DataManager.save_data goals (tasks ++ [DailyTask.mk name days_of_week []])) /\
    (fst deleted = Ok tt /\
     GoalManager.wf m2 /\
     GoalManager.daily_tasks m2 = GoalManager.daily_tasks m /\
     GoalManager.deref (GoalManager.task_heap m2) (GoalManager.daily_tasks m2) = tasks /\
     GoalManager.goals m2 = GoalManager.goals m /\
     GoalManager.goal_heap m2 = GoalManager.goal_heap m /\
     GoalManager.disk m2 = GoalManager.disk (GoalManager.save_data m)) /\
    GoalManager.delete_daily_task task m2 = (Raise ValueError, m2).
Proof.
  intros name days m Hwf goals tasks task added m1 deleted m2.
  pose proof (add_daily_task_wf name days m Hwf) as Hwf1.
  destruct Hwf as (Hg & Ht & Hlg & Hlt).
  assert (Hfresh : task ∉ GoalManager.daily_tasks m)
    by now apply fresh_not_listed.
  assert (Hderef : GoalManager.deref
                     (<[task := DailyTask.mk name days []]> (GoalManager.task_heap m))
                     (GoalManager.daily_tasks m ++ [task])
                   = tasks ++ [DailyTask.mk name days []]).
  { rewrite deref_app, deref_insert_other by exact Hfresh.
    f_equal. unfold GoalManager.deref. simpl. now rewrite lookup_insert_eq. }
  assert (Hrm : GoalManager.list_remove task (GoalManager.daily_tasks m ++ [task])
                = Some (GoalManager.daily_tasks m)).
  { rewrite list_remove_at by exact Hfresh. now rewrite app_nil_r. }
  assert (Hderef2 : GoalManager.deref
                      (<[task := DailyTask.mk name days []]> (GoalManager.task_heap m))
                      (GoalManager.daily_tasks m)
                    = tasks)
    by now apply deref_insert_other.
  assert (Em2 : deleted
                = (Ok tt,
                   GoalManager.save_data
                     (GoalManager.with_tasks m1 (GoalManager.task_heap m1)
                        (GoalManager.daily_tasks m)))).
  { unfold deleted, GoalManager.delete_daily_task.
    change (GoalManager.daily_tasks m1) with (GoalManager.daily_tasks m ++ [task]).
    now rewrite Hrm. }
  split; [|split].
  - split; [reflexivity|]. split; [exact Hwf1|]. split; [apply fresh_unused|].
    split; [reflexivity|]. split; [exact Hderef|].
    split; [reflexivity|]. split; [reflexivity|].
    unfold m1, added, GoalManager.add_daily_task, GoalManager.alloc,
      GoalManager.save_data. simpl.
    fold task. unfold DailyTask.construct, DailyTask.init. now rewrite Hderef.
  - unfold m2. rewrite Em2. simpl.
    split; [reflexivity|].
    split.
    { repeat split; simpl; try assumption.
      intros r Hr. destruct (decide (fresh (dom (GoalManager.task_heap m)) = r)) as [<-|Hne].
      - rewrite lookup_insert_eq. eauto.
      - rewrite lookup_insert_ne by exact Hne. now apply Hlt. }
    split; [reflexivity|]. split; [exact Hderef2|].
    split; [reflexivity|]. split; [reflexivity|].
    unfold GoalManager.save_data. simpl. fold task.
    unfold DailyTask.construct, DailyTask.init. now rewrite Hderef2.
  - unfold m2. rewrite Em2. simpl.
    unfold GoalManager.delete_daily_task. simpl.
    apply list_remove_None in Hfresh. now rewrite Hfresh.
Qed.

(** A task for a day that does not exist, added to a manager with one
    task and deleted again. *)
Lemma add_then_delete_daily_task_witness :
  let m := snd (GoalManager.add_daily_task "Exercise" [0; 2; 4]
                  (GoalManager.empty None)) in
  let m1 := snd (GoalManager.add_daily_task "" [9] m) in
  let m2 := snd (GoalManager.delete_daily_task 2%positive m1) in
  GoalManager.deref (GoalManager.task_heap m1) (GoalManager.daily_tasks m1)
  = [DailyTask.mk "Exercise" [0; 2; 4] []; DailyTask.mk "" [9] []] /\
  GoalManager.disk m2 = GoalManager.disk m /\
  GoalManager.delete_daily_task 2%positive m2 = (Raise ValueError, m2).
Proof.
  intros m m1 m2.
  assert (Hwf : GoalManager.wf m)
    by (apply add_daily_task_wf, empty_wf).
  destruct (add_then_delete_daily_task "" [9] m Hwf)
    as ((_ & _ & _ & _ & Hderef & _) & (_ & _ & _ & _ & _ & _ & Hdisk) & Hagain).
  split; [exact Hderef|]. split; [exact Hdisk|exact Hagain].
Defined.

(** X15. [complete_daily_task(task)] on a listed task replaces that object
    by the result of [complete_today()] and writes the file: the list of
    daily tasks, the other tasks and the goals are as before.  On a day the
    task is not scheduled for, or after it was marked done that day, the
    collections do not change, and the file is still rewritten. *)
Theorem complete_daily_task_one :
  forall (now now' : DateTime.datetime) (task : GoalManager.ref)
         (t : DailyTask.t) (before after : list GoalManager.ref)
         (m : GoalManager.t),
    GoalManager.wf m ->
    GoalManager.daily_tasks m = before ++ task :: after ->
    GoalManager.task_heap m !! task = Some t ->
    let out := GoalManager.complete_daily_task now now' task m in
    let m' := snd out in
    let goals := GoalManager.deref (GoalManager.goal_heap m) (GoalManager.goals m) in
    let tasks' :=
      GoalManager.deref (GoalManager.task_heap m) before
      ++ DailyTask.complete_today now now' t
      :: GoalManager.deref (GoalManager.task_heap m) after in
    fst out = Ok tt /\
    GoalManager.wf m' /\
    GoalManager.daily_tasks m' = GoalManager.daily_tasks m /\
    GoalManager.deref (GoalManager.task_heap m') (GoalManager.daily_tasks m') = tasks' /\
    GoalManager.goals m' = GoalManager.goals m /\
    GoalManager.goal_heap m' = GoalManager.goal_heap m /\
    GoalManager.disk m' = DataManager.save_data goals tasks' /\
    (DailyTask.is_active_today now' t = false \/
     DailyTask.is_completed_today now t = true ->
     GoalManager.deref (GoalManager.task_heap m') (GoalManager.daily_tasks m')
     = GoalManager.deref (GoalManager.task_heap m) (GoalManager.daily_tasks m) /\
     GoalManager.disk m' = GoalManager.disk (GoalManager.save_data m)).
Proof.
  intros now now' task t before after m Hwf Hlist Ht out m' goals tasks'.
  pose proof (complete_daily_task_wf now now' task m Hwf) as Hwf'.
  destruct Hwf as (_ & Hnd & _ & _). rewrite Hlist in Hnd.
  apply NoDup_app in Hnd as (_ & H12 & Hnd2).
  apply NoDup_cons in Hnd2 as [Hr2 _].
  assert (Hr1 : task ∉ before) by (intros H; apply (H12 task H), list_elem_of_here).
  assert (Hderef : GoalManager.deref
                     (alter (DailyTask.complete_today now now') task
                            (GoalManager.task_heap m))
                     (before ++ task :: after)
                   = tasks').
  { change (before ++ task :: after) with (before ++ [task] ++ after).
    rewrite !deref_app.
    rewrite (deref_tasks_alter_other _ _ _ before) by assumption.
    rewrite (deref_tasks_alter_other _ _ _ after) by assumption.
    unfold tasks'. f_equal. unfold GoalManager.deref at 1. csimpl.
    rewrite lookup_alter_eq, Ht. reflexivity. }
  assert (Hold : GoalManager.deref (GoalManager.task_heap m) (before ++ task :: after)
                 = GoalManager.deref (GoalManager.task_heap m) before
                   ++ t :: GoalManager.deref (GoalManager.task_heap m) after).
  { change (before ++ task :: after) with (before ++ [task] ++ after).
    rewrite !deref_app. f_equal. unfold GoalManager.deref at 1. csimpl.
    rewrite Ht. reflexivity. }
  assert (Hdisk : GoalManager.disk m' = DataManager.save_data goals tasks').
  { unfold m', out, GoalManager.complete_daily_task, GoalManager.save_data. simpl.
    rewrite Hlist, Hderef. reflexivity. }
  split; [reflexivity|]. split; [exact Hwf'|]. split; [reflexivity|].
  split; [unfold m', out; simpl; rewrite Hlist; exact Hderef|].
  split; [reflexivity|]. split; [reflexivity|]. split; [exact Hdisk|].
  intros Hskip.
  assert (Esame : DailyTask.complete_today now now' t = t).
  { unfold DailyTask.complete_today.
    unfold DailyTask.is_completed_today in Hskip.
    destruct Hskip as [Hskip|Hskip]; rewrite Hskip; simpl;
      [now rewrite andb_false_r|reflexivity]. }
  split.
  - unfold m', out. simpl. rewrite Hlist, Hderef, Hold. unfold tasks'.
    now rewrite Esame.
  - rewrite Hdisk. unfold GoalManager.save_data. simpl.
    rewrite Hlist, Hold. unfold tasks'. now rewrite Esame.
Qed.

(** Monday 2024-01-01: a task for Mondays is marked done; one for Tuesdays
    is left as it is. *)
Lemma complete_daily_task_one_witness :
  let now := 63839664000000000 in
  let m := snd (GoalManager.add_daily_task "Read" [1]
             (snd (GoalManager.add_daily_task "Exercise" [0]
                     (GoalManager.empty None)))) in
  let m' := snd (GoalManager.complete_daily_task now now 1%positive m) in
  let m'' := snd (GoalManager.complete_daily_task now now 2%positive m') in
  GoalManager.deref (GoalManager.task_heap m') (GoalManager.daily_tasks m')
  = [DailyTask.mk "Exercise" [0] ["2024-01-01"]; DailyTask.mk "Read" [1] []] /\
  GoalManager.deref (GoalManager.task_heap m'') (GoalManager.daily_tasks m'')
  = GoalManager.deref (GoalManager.task_heap m') (GoalManager.daily_tasks m').
Proof.
  intros now m m' m''.
  assert (Hwf : GoalManager.wf m)
    by (apply add_daily_task_wf, add_daily_task_wf, empty_wf).
  assert (Hwf' : GoalManager.wf m')
    by (apply complete_daily_task_wf, Hwf).
  destruct (complete_daily_task_one now now 1%positive
              (DailyTask.mk "Exercise" [0] []) [] [2%positive] m Hwf
              eq_refl eq_refl) as (_ & _ & _ & H1 & _).
  destruct (complete_daily_task_one now now 2%positive
              (DailyTask.mk "Read" [1] []) [1%positive] [] m' Hwf'
              eq_refl eq_refl) as (_ & _ & _ & _ & _ & _ & _ & H2).
  split.
  - etransitivity; [exact H1|]. vm_compute. reflexivity.
  - apply H2. left. vm_compute. reflexivity.
Defined.

(** ** Loading a damaged or missing file *)

Section DamagedFile.

Lemma getitem_Ok (key : string) (items : list (string * Json.value))
    (v : Json.value) :
  Json.getitem (Json.Dict items) key = Ok v -> Json.lookup key items = Some v.
Proof.
  unfold Json.getitem. destruct (Json.lookup key items); [|discriminate].
  now intros [= ->].
Qed.

Lemma goal_from_dict_keys (items : list (string * Json.value)) (g : Goal.t) :
  GoalDict.from_dict (Json.Dict items) = Ok g ->
  Forall (fun key => is_Some (Json.lookup key items))
         ["name"; "deadline_days"; "created_at"; "completed"; "failed"]%string.
Proof.
  unfold GoalDict.from_dict, mbind, result_bind. intros H.
  apply bind_Ok in H as (? & ?%getitem_Ok & H). apply bind_Ok in H as (? & _ & H).
  apply bind_Ok in H as (? & ?%getitem_Ok & H). apply bind_Ok in H as (? & _ & H).
  apply bind_Ok in H as (? & ?%getitem_Ok & H). apply bind_Ok in H as (? & _ & H).
  apply bind_Ok in H as (? & _ & H).
  apply bind_Ok in H as (? & ?%getitem_Ok & H). apply bind_Ok in H as (? & _ & H).
  apply bind_Ok in H as (? & ?%getitem_Ok & H). apply bind_Ok in H as (? & _ & H).
  repeat constructor; eauto.
Qed.

Lemma task_from_dict_keys (items : list (string * Json.value)) (t : DailyTask.t) :
  DailyTaskDict.from_dict (Json.Dict items) = Ok t ->
  Forall (fun key => is_Some (Json.lookup key items))
         ["name"; "days_of_week"; "completed_dates"]%string.
Proof.
  unfold DailyTaskDict.from_dict, mbind, result_bind. intros H.
  apply bind_Ok in H as (? & ?%getitem_Ok & H). apply bind_Ok in H as (? & _ & H).
  apply bind_Ok in H as (? & ?%getitem_Ok & H). apply bind_Ok in H as (? & _ & H).
  apply bind_Ok in H as (? & _ & H).
  apply bind_Ok in H as (? & ?%getitem_Ok & H). apply bind_Ok in H as (? & _ & H).
  apply bind_Ok in H as (? & _ & H).
  repeat constructor; eauto.
Qed.

Lemma mapM_Ok_each {A B : Type} (f : A -> result B) (l : list A) (ys : list B) :
  mapM f l = Ok ys -> forall x, x ∈ l -> exists y, f x = Ok y.
Proof.
  revert ys. induction l as [|a l IH]; simpl; intros ys H x Hx.
  - now apply elem_of_nil in Hx.
  - apply bind_Ok in H as (y & Hy & H). apply bind_Ok in H as (ys' & Hys & _).
    apply elem_of_cons in Hx as [->|Hx]; eauto.
Qed.

Lemma get_Ok (key : string) (items : list (string * Json.value))
    (default v w : Json.value) :
  Json.lookup key items = Some v ->
  Json.get (Json.Dict items) key default = Ok w -> w = v.
Proof. unfold Json.get. intros ->. now intros [= <-]. Qed.


Lemma init_load_fails (clock : GoalManager.ref -> DateTime.datetime)
    (f : DataManager.file) :
  (forall loaded, DataManager.load_data f <> Ok loaded) ->
  exists e, DataManager.load_data f = Raise e /\
            GoalManager.init clock f = (Raise e, GoalManager.empty f).
Proof.
  intros H. unfold GoalManager.init, GoalManager.load_data. simpl.
  destruct (DataManager.load_data f) as [loaded|e].
  - now destruct (H loaded).
  - eauto.
Qed.

End DamagedFile.

(** X16. One damaged record spoils the whole file.  When a record of the
    goals lacks one of the five keys that [Goal.from_dict] reads, or a
    record of the daily tasks one of the three that [DailyTask.from_dict]
    reads, [DataManager.load_data] raises, whatever the other records and
    the other entries of the file are; the exception leaves [GoalManager()]
    before the manager holds any goal or task, and the file is not
    touched. *)
Theorem load_fails_on_missing_key :
  forall (clock : GoalManager.ref -> DateTime.datetime)
         (file_items record : list (string * Json.value))
         (before after : list Json.value) (key : string),
    (Json.lookup "goals" file_items
     = Some (Json.List (before ++ Json.Dict record :: after)) /\
     key ∈ ["name"; "deadline_days"; "created_at"; "completed"; "failed"]%string)
    \/
    (Json.lookup "daily_tasks" file_items
     = Some (Json.List (before ++ Json.Dict record :: after)) /\
     key ∈ ["name"; "days_of_week"; "completed_dates"]%string) ->
    Json.lookup key record = None ->
    let f := Some (Json.Dict file_items) in
    exists e,
      DataManager.load_data f = Raise e /\
      GoalManager.init clock f = (Raise e, GoalManager.empty f).
Proof.
  intros clock file_items record before after key Hcase Hmissing f.
  apply init_load_fails. intros [goals tasks] H.
  assert (Hin : Json.Dict record ∈ before ++ Json.Dict record :: after)
    by (apply elem_of_app; right; apply list_elem_of_here).
  unfold f, DataManager.load_data, mbind, result_bind in H.
  apply bind_Ok in H as (gv & Hgv & H). apply bind_Ok in H as (gl & Hgl & H).
  apply bind_Ok in H as (gs & Hgs & H).
  apply bind_Ok in H as (tv & Htv & H). apply bind_Ok in H as (tl & Htl & H).
  apply bind_Ok in H as (ts & Hts & _).
  destruct Hcase as [[Hfile Hkey]|[Hfile Hkey]].
  - apply (get_Ok _ _ _ _ _ Hfile) in Hgv. subst gv. injection Hgl as <-.
    destruct (mapM_Ok_each _ _ _ Hgs _ Hin) as [g Hg].
    apply goal_from_dict_keys in Hg.
    rewrite Forall_forall in Hg. destruct (Hg key Hkey) as [v Hv]. congruence.
  - apply (get_Ok _ _ _ _ _ Hfile) in Htv. subst tv. injection Htl as <-.
    destruct (mapM_Ok_each _ _ _ Hts _ Hin) as [t Ht].
    apply task_from_dict_keys in Ht.
    rewrite Forall_forall in Ht. destruct (Ht key Hkey) as [v Hv]. congruence.
Qed.

(** The file saved with two goals, from whose second record the entry
    [failed] has been removed: the load raises [KeyError('failed')]. *)
Lemma load_fails_on_missing_key_witness :
  let now := 63839664000000000 in
  let first := GoalDict.to_dict (Goal.construct now "Read a book" 7) in
  let record :=
    [ ("name", Json.Str "Run"); ("deadline_days", Json.Int 3);
      ("created_at", Json.Str "2024-01-01T00:00:00");
      ("completed", Json.Bool false) ]%string in
  let f := Some (Json.Dict
             [ ("goals", Json.List [first; Json.Dict record]);
               ("daily_tasks", Json.List []) ]%string) in
  GoalManager.init (fun _ => now) f
  = (Raise (KeyError "failed"), GoalManager.empty f).
Proof.
  intros now first record f.
  destruct (load_fails_on_missing_key (fun _ => now)
              [ ("goals", Json.List [first; Json.Dict record]);
                ("daily_tasks", Json.List []) ]%string
              record [first] [] "failed"%string) as (e & Hload & Hinit).
  - left. split; [reflexivity|].
    repeat (apply list_elem_of_here || apply list_elem_of_further).
  - reflexivity.
  - fold f in Hload, Hinit. rewrite Hinit. f_equal. f_equal.
    assert (E : DataManager.load_data f = Raise (KeyError "failed"))
      by (vm_compute; reflexivity).
    congruence.
Defined.

(** X17. Without a file, or with a file that has neither a [goals] nor a
    [daily_tasks] entry, [GoalManager()] starts with no goal and no
    daily task and writes nothing: the file is left as it was found, and
    the first [add_goal] writes the snapshot of the one new goal. *)
Theorem start_without_data :
  forall (clock : GoalManager.ref -> DateTime.datetime) (f : DataManager.file),
    match f with
    | None => True
    | Some data =>
        exists items, data = Json.Dict items /\
                      Json.lookup "goals" items = None /\
                      Json.lookup "daily_tasks" items = None
    end ->
    DataManager.load_data f = Ok ([], []) /\
    GoalManager.init clock f = (Ok tt, GoalManager.empty f) /\
    forall now name deadline_days,
      GoalManager.disk
        (snd (GoalManager.add_goal now name deadline_days (GoalManager.empty f)))
      = DataManager.save_data [Goal.mk name deadline_days now false false] [].
Proof.
  intros clock f Hf.
  assert (Hload : DataManager.load_data f = Ok ([], [])).
  { destruct f as [data|]; [|reflexivity].
    destruct Hf as (items & -> & Hg & Ht).
    unfold DataManager.load_data, Json.get. rewrite Hg, Ht. reflexivity. }
  split; [exact Hload|]. split.
  - unfold GoalManager.init, GoalManager.load_data. simpl. rewrite Hload. reflexivity.
  - intros now name d. unfold GoalManager.add_goal, GoalManager.alloc,
      GoalManager.save_data, GoalManager.deref. simpl.
    rewrite lookup_insert_eq. reflexivity.
Qed.

(** No file, and a file holding an empty JSON object. *)
Lemma start_without_data_witness :
  GoalManager.init (fun _ => 63839664000000000) None
  = (Ok tt, GoalManager.empty None) /\
  GoalManager.init (fun _ => 63839664000000000) (Some (Json.Dict []))
  = (Ok tt, GoalManager.empty (Some (Json.Dict []))).
Proof.
  split.
  - apply (start_without_data (fun _ => 63839664000000000) None). exact I.
  - apply (start_without_data (fun _ => 63839664000000000) (Some (Json.Dict []))).
    exists []. repeat split.
Defined.

(** ** DailyTask: a completion rate above 100 *)

Section RateAbove.

Import DailyTask.

(** One to seven scheduled days and up to four hundred logged dates, by
    evaluation. *)
Lemma rate_orders_checked :
  forallb (fun k => forallb (RateOrder.check k) (seq 0 401)) (seq 1 7) = true.
Proof. vm_cast_no_check (eq_refl true). Qed.

Lemma rate_order_table (k n : nat) :
  (1 <= k <= 7)%nat -> (n <= 400)%nat -> RateOrder.check k n = true.
Proof.
  intros Hk Hn.
  assert (Hall := rate_orders_checked).
  rewrite forallb_forall in Hall.
  assert (Hrow := Hall k ltac:(apply in_seq; lia)).
  rewrite forallb_forall in Hrow.
  apply Hrow. apply in_seq. lia.
Qed.

Lemma eqb_true_iff_reflect (b c : bool) (P : Prop) :
  Bool.eqb b c = true -> (c = true <-> P) -> (b = true <-> P).
Proof. intros H%eqb_prop. now subst c. Qed.

End RateAbove.

(** X18. The log is never cut to the window that [completion_rate] divides
    by.  With one to seven scheduled days and up to four hundred logged
    dates, the rate over the default four weeks is below 100 exactly while
    the log has fewer than [4 * len(days_of_week)] dates, [== 100] exactly
    when it has that many, and [> 100] exactly once it has more. *)
Theorem completion_rate_over_100 :
  forall self : DailyTask.t,
    let k := length (DailyTask.days_of_week self) in
    let n := length (DailyTask.completed_dates self) in
    let rate := DailyTask.completion_rate 4 self in
    (1 <= k <= 7)%nat -> (n <= 400)%nat ->
    (PrimFloat.ltb rate 100 = true <-> (n < 4 * k)%nat) /\
    (PrimFloat.eqb rate 100 = true <-> n = (4 * k)%nat) /\
    (PrimFloat.ltb 100 rate = true <-> (4 * k < n)%nat).
Proof.
  intros self k n rate Hk Hn.
  destruct (completion_rate_lengths 4 self (RateCheck.sample k n)) as [Er _].
  { symmetry. apply repeat_length. }
  { symmetry. apply repeat_length. }
  pose proof (rate_order_table k n Hk Hn) as H.
  unfold RateOrder.check in H. cbv zeta in H. rewrite <- Er in H. fold rate in H.
  apply andb_prop in H as [H Hlt]. apply andb_prop in H as [Hgt Heq].
  split; [|split].
  - apply (eqb_true_iff_reflect _ _ _ Hlt). apply Nat.ltb_lt.
  - apply (eqb_true_iff_reflect _ _ _ Heq). apply Nat.eqb_eq.
  - apply (eqb_true_iff_reflect _ _ _ Hgt). apply Nat.ltb_lt.
Qed.

(** A task for Mondays, done on five Mondays: 125.0. *)
Lemma completion_rate_over_100_witness :
  let task := DailyTask.mk "Exercise" [0]
    ["2024-01-01"; "2024-01-08"; "2024-01-15"; "2024-01-22"; "2024-01-29"]%string in
  PrimFloat.ltb 100 (DailyTask.completion_rate 4 task) = true.
Proof.
  intros task.
  apply (completion_rate_over_100 task); simpl; lia.
Defined.
